(** * BBTXTDataLayer: a shallow embedding of [bbtxt_data_layer.cpp]

    The layer reads a BBTXT annotation file (one bounding box per line),
    keeps one label blob per image, and produces batches of cropped, resized
    and normalised images together with the remapped bounding boxes.

    Conventions of the embedding:
    - C++ [int] values are integers of [Z].  Signed overflow is undefined:
      the [int] arithmetic on the crop window, whose operands the
      annotation file decides (lines 291-294), returns [Fatal] when its
      value is not an [int]; the counters and the indices into the blobs
      stay below the sizes of the blobs and are taken as they are.
    - [Dtype], [float] and [double] values are IEEE-754 numbers of
      [spec_float], computed with the operations of [SpecFloat] at the
      precision of the type ([binary32] for [float], [binary64] for
      [double]); [Dtype] is the template parameter of the layer.
    - a failed [CHECK], an uncaught exception and undefined behaviour stop
      the run: such code returns [Fatal].
    - what lives outside the file (the standard library, boost, OpenCV, the
      file system, the random generator) is collected in [Externals]. *)

From Stdlib Require Import ZArith String Ascii List Lia Bool SpecFloat QArith.
From Stdlib Require Import Permutation.
From stdpp Require Import base list.

Local Open Scope Z_scope.

(** ** Floating point numbers *)

Module Float.

Record format := { prec : Z; emax : Z }.

Definition binary32 : format := {| prec := 24; emax := 128 |}.
Definition binary64 : format := {| prec := 53; emax := 1024 |}.

Definition add (F : format) := SFadd (prec F) (emax F).
Definition sub (F : format) := SFsub (prec F) (emax F).
Definition mul (F : format) := SFmul (prec F) (emax F).
Definition div (F : format) := SFdiv (prec F) (emax F).

(** Conversion of an [int] to a floating type (round to nearest even). *)
Definition of_int (F : format) (z : Z) : spec_float :=
  binary_normalize (prec F) (emax F) z 0 false.

(** Conversion between floating types, as in [Dtype(128.0f)] or in the
    promotion of a [Dtype] operand to [double]. *)
Definition convert (F : format) (x : spec_float) : spec_float :=
  match x with
  | S754_finite s m e => binary_round (prec F) (emax F) s m e
  | _ => x
  end.

Definition int_min : Z := - 2 ^ 31.
Definition int_max : Z := 2 ^ 31 - 1.

(** Integral part of a finite number, rounded toward zero. *)
Definition truncate (x : spec_float) : option Z :=
  match x with
  | S754_zero _ => Some 0
  | S754_finite s m e => Some (cond_Zopp s (Z.shiftl (Zpos m) e))
  | _ => None
  end.

(** Conversion of a floating value to [int]: the fractional part is
    discarded; the behaviour is undefined ([None]) when the truncated value
    does not fit, and for infinities and NaN. *)
Definition to_int (x : spec_float) : option Z :=
  match truncate x with
  | Some z => if (int_min <=? z) && (z <=? int_max) then Some z else None
  | None => None
  end.

Definition eqb : spec_float -> spec_float -> bool := SFeqb.
Definition ltb : spec_float -> spec_float -> bool := SFltb.
Definition leb : spec_float -> spec_float -> bool := SFleb.

(** [std::max(a, b)] is [(a < b) ? b : a]. *)
Definition max (a b : spec_float) : spec_float := if ltb a b then b else a.

(** The rational number a finite float stands for. *)
Definition to_Q (x : spec_float) : option Q :=
  match x with
  | S754_zero _ => Some 0%Q
  | S754_finite s m e =>
      let v := if 0 <=? e then inject_Z (Zpos m * 2 ^ e)
               else Qmake (Zpos m) (Z.to_pos (2 ^ (- e))) in
      Some (if s then Qopp v else v)
  | _ => None
  end.

End Float.

(** ** Results of code that can stop the process *)

Inductive error :=
  | SourceNotOpened      (* "BBTXT file ... could not be opened!" *)
  | LineCorrupted        (* "Line ... corrupted!" *)
  | FileNotFound         (* "File ... not found!" *)
  | EmptyBBTXT           (* "The given BBTXT file is empty!" *)
  | CouldNotOpenImage    (* "Could not open ..." *)
  | NotThreeChannels     (* "Image must have 3 color channels" *)
  | CroppingFailed       (* "Something went wrong with cropping!" *)
  | WrongCropHeight      (* "Wrong crop height! Does not match network!" *)
  | WrongCropWidth       (* "Wrong crop width! Does not match network!" *)
  | EmptyBlob            (* CHECK(batch->data_.count()) and the like *)
  | StofException        (* std::stof threw *)
  | OpenCVAssertion      (* an assertion inside OpenCV failed *)
  | BoostAssertion       (* min <= max of uniform_int_distribution failed *)
  | UndefinedBehaviour.  (* the C++ standard gives the run no meaning *)

Inductive result (A : Type) :=
  | Ok (a : A)
  | Fatal (e : error).
Arguments Ok {A} a.
Arguments Fatal {A} e.

Definition bind {A B} (r : result A) (k : A -> result B) : result B :=
  match r with
  | Ok a => k a
  | Fatal e => Fatal e
  end.

Notation "'do' x <- r ; k" := (bind r (fun x => k))
  (at level 10, x pattern, r at level 100, k at level 200,
   format "'[v' 'do'  x  <-  r ; '/' k ']'").

Definition check (b : bool) (e : error) : result unit :=
  if b then Ok tt else Fatal e.

Definition of_option {A} (o : option A) (e : error) : result A :=
  match o with
  | Some a => Ok a
  | None => Fatal e
  end.

(** ** [int] arithmetic *)

(** The value of an [int] expression is an [int]: signed overflow is
    undefined. *)
Definition in_int (z : Z) : bool :=
  (Float.int_min <=? z) && (z <=? Float.int_max).

Definition int (z : Z) : result Z :=
  do _ <- check (in_int z) UndefinedBehaviour;
  Ok z.

(** ** Blobs *)

(** Modelled from the spec: the [Blob] of caffe/blob.hpp, which is not
    part of the file.  The spec has it as a tensor-shaped buffer in
    row-major order: a blob is its shape and its flat data. *)
Record Blob := { shape : list Z; data : list spec_float }.

(** The extent of axis [k]; the accessors [num], [channels], [height] and
    [width] that [offset] uses read a missing axis as 1. *)
Definition axis (b : Blob) (k : nat) : Z := nth k (shape b) 1.

Definition count (b : Blob) : Z := fold_right Z.mul 1 (shape b).

(** Modelled from the spec: [Blob::offset(n, c, h, w)], the place of an
    entry in row-major order. *)
Definition offset4 (b : Blob) (n c h w : Z) : Z :=
  ((n * axis b 1 + c) * axis b 2 + h) * axis b 3 + w.

Definition offset (b : Blob) (n : Z) : Z := offset4 b n 0 0 0.
Definition offset2 (b : Blob) (n c : Z) : Z := offset4 b n c 0 0.

(** [p[k]] for the pointer [p = cpu_data() + off].  Outside the buffer
    the behaviour is undefined in C++; the model reads a NaN there. *)
Definition read (d : list spec_float) (off k : Z) : spec_float :=
  nth (Z.to_nat (off + k)) d S754_nan.

(** [p[k] = v] for the pointer [p = mutable_cpu_data() + off].  Outside
    the buffer the behaviour is undefined in C++; the model writes nothing
    there. *)
Definition write (d : list spec_float) (off k : Z) (v : spec_float)
  : list spec_float :=
  <[Z.to_nat (off + k) := v]> d.

Definition set_data (b : Blob) (d : list spec_float) : Blob :=
  {| shape := shape b; data := d |}.

Definition MAX_NUM_BBS_PER_IMAGE : Z := 20.

(** The label of an image seen through a blob of shape [1, 20, 5], the
    shape of [transformed_label_]. *)
Definition label_view (b : Blob) : Blob :=
  {| shape := [1; MAX_NUM_BBS_PER_IMAGE; 5]; data := data b |}.

(** ** Images *)

(** A [cv::Mat] of 8-bit pixels: [ptr m i k] is [m.ptr<uchar>(i)[k]], the
    [k]-th byte of row [i]; the channels of a pixel are interleaved. *)
Record Mat := {
  rows : Z;
  cols : Z;
  channels : Z;
  ptr : Z -> Z -> Z
}.

Inductive BorderTypes := BORDER_CONSTANT | BORDER_REPLICATE.

Definition clamp (lo hi v : Z) : Z := Z.max lo (Z.min hi v).

(** [cv::copyMakeBorder]: the source surrounded by [top], [bottom], [left]
    and [right] extra rows and columns; with [BORDER_REPLICATE] a new pixel
    repeats the nearest pixel of the source, with [BORDER_CONSTANT] it is
    0.  OpenCV asserts that the four amounts are not negative. *)
Definition copyMakeBorder (src : Mat) (top bottom left right : Z)
    (borderType : BorderTypes) : result Mat :=
  do _ <- check ((0 <=? top) && (0 <=? bottom) && (0 <=? left) && (0 <=? right))
         OpenCVAssertion;
  Ok {| rows := rows src + top + bottom;
        cols := cols src + left + right;
        channels := channels src;
        ptr := fun i k =>
          let r := i - top in
          let c := k / channels src - left in
          let ch := k mod channels src in
          match borderType with
          | BORDER_REPLICATE =>
              ptr src (clamp 0 (rows src - 1) r)
                  (clamp 0 (cols src - 1) c * channels src + ch)
          | BORDER_CONSTANT =>
              if (0 <=? r) && (r <? rows src) && (0 <=? c) && (c <? cols src)
              then ptr src r (c * channels src + ch) else 0
          end |}.

(** [m(cv::Rect(x, y, w, h))]: the sub-matrix; OpenCV asserts that the
    rectangle lies inside [m]. *)
Definition roi (m : Mat) (x y w h : Z) : result Mat :=
  do _ <- check ((0 <=? x) && (0 <=? w) && (x + w <=? cols m) &&
              (0 <=? y) && (0 <=? h) && (y + h <=? rows m))
         OpenCVAssertion;
  Ok {| rows := h; cols := w; channels := channels m;
        ptr := fun i k => ptr m (y + i) (x * channels m + k) |}.

Definition empty (m : Mat) : bool := (rows m <=? 0) || (cols m <=? 0).

(** ** The layer and its parameters *)

Record LayerParameter := {
  bbtxt_height : Z;            (* bbtxt_param().height() *)
  bbtxt_width : Z;             (* bbtxt_param().width() *)
  bbtxt_reference_size : Z;    (* bbtxt_param().reference_size() *)
  image_data_batch_size : Z;   (* image_data_param().batch_size() *)
  image_data_shuffle : bool;   (* image_data_param().shuffle() *)
  image_data_source : string   (* image_data_param().source() *)
}.

(** The members of the layer, for a generator of type [rng_t]. *)
Record BBTXTDataLayer (rng_t : Type) := {
  layer_param_ : LayerParameter;
  _images : list (string * Blob);
  _i_global : Z;
  _rng : rng_t;
  transformed_data_ : Blob;
  transformed_label_ : Blob
}.
Arguments layer_param_ {rng_t} _.
Arguments _images {rng_t} _.
Arguments _i_global {rng_t} _.
Arguments _rng {rng_t} _.
Arguments transformed_data_ {rng_t} _.
Arguments transformed_label_ {rng_t} _.

(** ** The world outside the layer *)

Class Externals := {
  (** [Dtype], the template parameter. *)
  Dtype : Float.format;
  (** [std::stof]: the [float] a string starts with, [None] when it
      throws. *)
  stof : string -> option spec_float;
  (** [std::ifstream infile(path)] followed by [std::getline] until it
      fails: the lines of the file, [None] when it cannot be opened. *)
  ifstream : string -> option (list string);
  (** [boost::filesystem::exists]. *)
  file_exists : string -> bool;
  (** What a freshly allocated blob holds before anything is written. *)
  blob_init : spec_float;
  (** [cv::imread(path, CV_LOAD_IMAGE_COLOR)]; [None] when the resulting
      matrix has no data. *)
  imread : string -> option Mat;
  (** The interpolation of [cv::resize(src, dst, cv::Size(w, h))]. *)
  resize_pixels : Mat -> Z -> Z -> Z -> Z -> Z;
  (** [caffe::rng_t] and a draw from
      [boost::random::uniform_int_distribution<>(a, b)]. *)
  rng_t : Type;
  rng_seed : Z -> rng_t;
  uniform_int : Z -> Z -> rng_t -> Z * rng_t
}.

(** The contract of [uniform_int_distribution]: the draw lies between the
    two bounds. *)
Definition uniform_int_in_range `{Externals} : Prop :=
  forall a b g, a <= b -> a <= fst (uniform_int a b g) <= b.

Section Layer.

Context `{E : Externals}.

Definition Dadd := Float.add Dtype.
Definition Dsub := Float.sub Dtype.
Definition Dmul := Float.mul Dtype.
Definition Ddiv := Float.div Dtype.

(** [Dtype(x)] for a [float] or [double] value [x]. *)
Definition to_Dtype (x : spec_float) : spec_float := Float.convert Dtype x.

(** [Dtype(-1.0f)] *)
Definition minus_one : spec_float := to_Dtype (Float.of_int Float.binary32 (-1)).

(** A blob of the given shape, as allocated. *)
Definition Blob_new (sh : list Z) : Blob :=
  {| shape := sh;
     data := replicate (Z.to_nat (fold_right Z.mul 1 sh)) blob_init |}.

(** [cv::resize(src, dst, cv::Size(w, h))]; OpenCV asserts that the source
    is not empty and the size is positive. *)
Definition resize (src : Mat) (w h : Z) : result Mat :=
  do _ <- check (negb (empty src) && (0 <? w) && (0 <? h)) OpenCVAssertion;
  Ok {| rows := h; cols := w; channels := channels src;
        ptr := resize_pixels src w h |}.

(** A draw from [uniform_int_distribution<> dist(a, b)]; the
    constructor asserts [a <= b]. *)
Definition draw (a b : Z) (g : rng_t) : result (Z * rng_t) :=
  do _ <- check (a <=? b) BoostAssertion;
  Ok (uniform_int a b g).

(** *** numBBs *)

(** The loop of [numBBs], from index [i], with [fuel] iterations left. *)
Fixpoint numBBs_loop (labels : Blob) (i : Z) (fuel : nat) : Z :=
  match fuel with
  | O => axis labels 1
  | S fuel' =>
      if Float.eqb (read (data labels) (offset2 labels 0 i) 0) minus_one
      then i
      else numBBs_loop labels (i + 1) fuel'
  end.

Definition numBBs (labels : Blob) : Z :=
  numBBs_loop labels 0 (Z.to_nat (axis labels 1)).

(** *** _loadBBTXTFile *)

(** [boost::split(data, line, boost::is_any_of(" "))]: the line is cut at
    every space; adjacent spaces give empty entries. *)
Fixpoint split (line : string) : list string :=
  match line with
  | EmptyString => [EmptyString]
  | String c rest =>
      if Ascii.eqb c " "%char then EmptyString :: split rest
      else match split rest with
           | [] => [String c EmptyString]
           | tok :: toks => String c tok :: toks
           end
  end.

(** The variables of [_loadBBTXTFile] that live across the iterations of
    its loop; [ld_warnings] counts the "Skipping bb" messages logged. *)
Record Loader := {
  ld_images : list (string * Blob);
  ld_current_filename : string;
  ld_i : Z;
  ld_warnings : nat
}.

(** [f(v.back())] where [f] changes the element in place. *)
Fixpoint update_back {A} (f : A -> A) (v : list A) : list A :=
  match v with
  | [] => []
  | [x] => [f x]
  | x :: v' => x :: update_back f v'
  end.

Definition on_blob (f : Blob -> Blob) (im : string * Blob) : string * Blob :=
  (fst im, f (snd im)).

(** Lines 198-200: the label of box [i] becomes -1. *)
Definition finalize (i : Z) (b : Blob) : Blob :=
  set_data b (write (data b) (offset b i) 0 minus_one).

(** Lines 215-221: the five entries of box [i]. *)
Definition write_bb (i : Z) (label xmin ymin xmax ymax : spec_float)
    (b : Blob) : Blob :=
  let bb_position := offset b i in
  let d0 := write (data b) bb_position 0 label in
  let d1 := write d0 bb_position 1 xmin in
  let d2 := write d1 bb_position 2 ymin in
  let d3 := write d2 bb_position 3 xmax in
  let d4 := write d3 bb_position 4 ymax in
  set_data b d4.

(** [Dtype(std::stof(s))] *)
Definition Dtype_stof (s : string) : result spec_float :=
  do x <- of_option (stof s) StofException;
  Ok (to_Dtype x).

Definition entry (data : list string) (k : nat) : string :=
  nth k data EmptyString.

(** Lines 191-210: a line whose file name differs from the current one
    closes the previous annotation and opens a new image entry. *)
Definition new_image (st : Loader) (data : list string) : result Loader :=
  if String.eqb (ld_current_filename st) (entry data 0) then Ok st
  else
    let imgs :=
      if (0 <? Z.of_nat (length (ld_images st))) &&
         (ld_i st <? MAX_NUM_BBS_PER_IMAGE)
      then update_back (on_blob (finalize (ld_i st))) (ld_images st)
      else ld_images st in
    do _ <- check (file_exists (entry data 0)) FileNotFound;
    Ok {| ld_images :=
            imgs ++ [(entry data 0, Blob_new [MAX_NUM_BBS_PER_IMAGE; 5; 1; 1])];
          ld_current_filename := entry data 0;
          ld_i := 0;
          ld_warnings := ld_warnings st |}.

(** Lines 212-227: the box of the line goes into the last image entry, or
    is skipped with a warning when the entry is full.  [back()] of an empty
    vector is undefined. *)
Definition store_bb (st : Loader) (data : list string) : result Loader :=
  if ld_i st <? MAX_NUM_BBS_PER_IMAGE then
    do _ <- check (0 <? Z.of_nat (length (ld_images st))) UndefinedBehaviour;
    do label <- Dtype_stof (entry data 1);
    do xmin <- Dtype_stof (entry data 3);
    do ymin <- Dtype_stof (entry data 4);
    do xmax <- Dtype_stof (entry data 5);
    do ymax <- Dtype_stof (entry data 6);
    Ok {| ld_images :=
            update_back (on_blob (write_bb (ld_i st) label xmin ymin xmax ymax))
                        (ld_images st);
          ld_current_filename := ld_current_filename st;
          ld_i := ld_i st + 1;
          ld_warnings := ld_warnings st |}
  else
    Ok {| ld_images := ld_images st;
          ld_current_filename := ld_current_filename st;
          ld_i := ld_i st;
          ld_warnings := S (ld_warnings st) |}.

(** The body of the [while (std::getline(infile, line))] loop. *)
Definition process_line (st : Loader) (line : string) : result Loader :=
  let data := split line in
  do _ <- check (Nat.eqb (length data) 7) LineCorrupted;
  do st1 <- new_image st data;
  store_bb st1 data.

Fixpoint read_lines (st : Loader) (lines : list string) : result Loader :=
  match lines with
  | [] => Ok st
  | line :: rest =>
      do st' <- process_line st line;
      read_lines st' rest
  end.

Definition Loader_start (imgs : list (string * Blob)) : Loader :=
  {| ld_images := imgs; ld_current_filename := EmptyString;
     ld_i := 0; ld_warnings := O |}.

(** [_loadBBTXTFile]: the images after the file [source] was read into
    [_images], and the number of warnings logged. *)
Definition _loadBBTXTFile (source : string) (_images : list (string * Blob))
  : result (list (string * Blob) * nat) :=
  do lines <- of_option (ifstream source) SourceNotOpened;
  do st <- read_lines (Loader_start _images) lines;
  Ok (ld_images st, ld_warnings st).

(** *** The layer *)

Abbreviation Layer := (BBTXTDataLayer rng_t).

Definition with_images (L : Layer) (imgs : list (string * Blob))
    (g : rng_t) : Layer :=
  {| layer_param_ := layer_param_ L; _images := imgs;
     _i_global := _i_global L; _rng := g;
     transformed_data_ := transformed_data_ L;
     transformed_label_ := transformed_label_ L |}.

Definition with_i_global (L : Layer) (i : Z) : Layer :=
  {| layer_param_ := layer_param_ L; _images := _images L;
     _i_global := i; _rng := _rng L;
     transformed_data_ := transformed_data_ L;
     transformed_label_ := transformed_label_ L |}.

Definition with_rng (L : Layer) (g : rng_t) : Layer :=
  with_images L (_images L) g.

(** *** _shuffleImages *)

(** [std::iter_swap(begin + i, begin + j)]; a position outside the vector,
    which the shuffle never asks for, leaves the vector as it is. *)
Definition iter_swap {A} (v : list A) (i j : nat) : list A :=
  match v !! i, v !! j with
  | Some x, Some y => <[i := y]> (<[j := x]> v)
  | _, _ => v
  end.

(** The loop of the Fisher-Yates shuffle, from position [i] down to 1. *)
Fixpoint shuffle_loop {A} (v : list A) (i : nat) (g : rng_t)
  : list A * rng_t :=
  match i with
  | O => (v, g)
  | S i' =>
      let '(j, g') := uniform_int 0 (Z.of_nat i) g in
      shuffle_loop (iter_swap v i (Z.to_nat j)) i' g'
  end.

(** Modelled from the spec: [shuffle] of caffe/util/rng.hpp, which
    [_shuffleImages] calls and which is not part of the file.  The spec
    describes it as the in-place Fisher-Yates permutation of the record
    sequence, drawing from the generator it is given: position [i], from
    the last one down to 1, is exchanged with a position drawn between 0
    and [i]. *)
Definition shuffle {A} (v : list A) (g : rng_t) : list A * rng_t :=
  shuffle_loop v (length v - 1)%nat g.

Definition _shuffleImages (L : Layer) : Layer :=
  let '(imgs, g) := shuffle (_images L) (_rng L) in
  with_images L imgs g.

(** *** _transformImage *)

Record Crop := {
  crop_x : Z;
  crop_y : Z;
  crop_width : Z;
  crop_height : Z
}.

Definition to_double (x : spec_float) : spec_float :=
  Float.convert Float.binary64 x.

(** [double(target) / reference_size * size], converted to [int]
    (lines 280-281). *)
Definition crop_dimension (target reference_size : Z) (size : spec_float)
  : option Z :=
  Float.to_int
    (Float.mul Float.binary64
       (Float.div Float.binary64 (Float.of_int Float.binary64 target)
                                 (Float.of_int Float.binary64 reference_size))
       (to_double size)).

(** The bounds [(x + w - crop, x)] handed to the constructor of
    [uniform_int_distribution<>], whose parameters are [int]. *)
Definition origin_bounds (x w : spec_float) (crop : Z) : option (Z * Z) :=
  match Float.to_int (Dsub (Dadd x w) (Float.of_int Dtype crop)),
        Float.to_int x with
  | Some lo, Some hi => Some (lo, hi)
  | _, _ => None
  end.

(** Lines 268-287: one bounding box is drawn, the crop gets its size from
    the box and its position from two more draws. *)
Definition select_crop (P : LayerParameter) (transformed_label : Blob)
    (g : rng_t) : result (Z * Crop * rng_t) :=
  let num_bbs := numBBs transformed_label in
  do (bb_id, g1) <- draw 0 (num_bbs - 1) g;
  let d := data transformed_label in
  let bb_data := offset2 transformed_label 0 bb_id in
  let x := read d bb_data 1 in
  let y := read d bb_data 2 in
  let w := Dsub (read d bb_data 3) (read d bb_data 1) in
  let h := Dsub (read d bb_data 4) (read d bb_data 2) in
  let size := Float.max w h in
  do cw <- of_option (crop_dimension (bbtxt_width P) (bbtxt_reference_size P) size)
             UndefinedBehaviour;
  do ch <- of_option (crop_dimension (bbtxt_height P) (bbtxt_reference_size P) size)
             UndefinedBehaviour;
  do (xlo, xhi) <- of_option (origin_bounds x w cw) UndefinedBehaviour;
  do _ <- check (xlo <=? xhi) BoostAssertion;
  do (ylo, yhi) <- of_option (origin_bounds y h ch) UndefinedBehaviour;
  do _ <- check (ylo <=? yhi) BoostAssertion;
  let '(cx, g2) := uniform_int xlo xhi g1 in
  let '(cy, g3) := uniform_int ylo yhi g2 in
  Ok (bb_id,
      {| crop_x := cx; crop_y := cy; crop_width := cw; crop_height := ch |},
      g3).

(** Lines 290-294: the four borders, in [int] arithmetic.  [-crop_x] and
    [-crop_y] are formed for a negative origin, the sums
    [crop_x+crop_width] and [crop_y+crop_height] always, and the
    differences to [cols] and [rows] when the sum is the larger one. *)
Definition border_left (c : Crop) : result Z :=
  if crop_x c <? 0 then int (- crop_x c) else Ok 0.
Definition border_top (c : Crop) : result Z :=
  if crop_y c <? 0 then int (- crop_y c) else Ok 0.
Definition border_right (c : Crop) (cv_img : Mat) : result Z :=
  do x_end <- int (crop_x c + crop_width c);
  if cols cv_img <? x_end then int (x_end - cols cv_img) else Ok 0.
Definition border_bottom (c : Crop) (cv_img : Mat) : result Z :=
  do y_end <- int (crop_y c + crop_height c);
  if rows cv_img <? y_end then int (y_end - rows cv_img) else Ok 0.

(** Lines 289-298: the left and the top border and the image padded
    where the crop leaves it. *)
Definition pad (cv_img : Mat) (c : Crop) : result (Z * Z * Mat) :=
  do bl <- border_left c;
  do bt <- border_top c;
  do br <- border_right c cv_img;
  do bb <- border_bottom c cv_img;
  do cv_img_padded <- copyMakeBorder cv_img bt bb bl br BORDER_REPLICATE;
  Ok (bl, bt, cv_img_padded).

(** Lines 289-301: padding, then the crop out of the padded image. *)
Definition pad_and_crop (cv_img : Mat) (c : Crop) : result Mat :=
  do (bl, bt, cv_img_padded) <- pad cv_img c;
  roi cv_img_padded (crop_x c + bl) (crop_y c + bt)
      (crop_width c) (crop_height c).

(** [float(target) / crop], stored in a [Dtype] (lines 308-309). *)
Definition scaling (target crop : Z) : spec_float :=
  to_Dtype (Float.div Float.binary32 (Float.of_int Float.binary32 target)
                                     (Float.of_int Float.binary32 crop)).

(** [p[k] -= z] for an [int] [z], and [p[k] *= s]. *)
Definition sub_assign (d : list spec_float) (off k z : Z) : list spec_float :=
  write d off k (Dsub (read d off k) (Float.of_int Dtype z)).
Definition mul_assign (d : list spec_float) (off k : Z) (s : spec_float)
  : list spec_float :=
  write d off k (Dmul (read d off k) s).

(** Lines 315-323, for the box at [off]. *)
Definition update_bb (c : Crop) (x_scaling y_scaling : spec_float)
    (d : list spec_float) (off : Z) : list spec_float :=
  let d := sub_assign d off 1 (crop_x c) in
  let d := sub_assign d off 2 (crop_y c) in
  let d := sub_assign d off 3 (crop_x c) in
  let d := sub_assign d off 4 (crop_y c) in
  let d := mul_assign d off 1 x_scaling in
  let d := mul_assign d off 2 y_scaling in
  let d := mul_assign d off 3 x_scaling in
  mul_assign d off 4 y_scaling.

(** The loop of lines 310-326, from box [b], [fuel] boxes to go. *)
Fixpoint update_bbs (lbl : Blob) (c : Crop) (x_scaling y_scaling : spec_float)
    (d : list spec_float) (b : Z) (fuel : nat) : list spec_float :=
  match fuel with
  | O => d
  | S fuel' =>
      update_bbs lbl c x_scaling y_scaling
        (update_bb c x_scaling y_scaling d (offset2 lbl 0 b)) (b + 1) fuel'
  end.

Definition remap_labels (P : LayerParameter) (transformed_label : Blob)
    (c : Crop) : Blob :=
  let num_bbs := numBBs transformed_label in
  let x_scaling := scaling (bbtxt_width P) (crop_width c) in
  let y_scaling := scaling (bbtxt_height P) (crop_height c) in
  set_data transformed_label
    (update_bbs transformed_label c x_scaling y_scaling
       (data transformed_label) 0 (Z.to_nat num_bbs)).

(** [Dtype(128.0f)] *)
Definition c128 : spec_float := to_Dtype (Float.of_int Float.binary32 128).

(** [(v - Dtype(128.0f)) / Dtype(128.0f)] for a pixel byte [v] (line 350). *)
Definition normalize (v : Z) : spec_float :=
  Ddiv (Dsub (Float.of_int Dtype v) c128) c128.

(** The loop over [c] (lines 346-351); it returns [img_index] too. *)
Fixpoint channel_loop (row : Z -> Z) (height width i j c : Z) (fuel : nat)
    (img_index : Z) (transformed_data : list spec_float)
  : Z * list spec_float :=
  match fuel with
  | O => (img_index, transformed_data)
  | S fuel' =>
      let top_index := (c * height + i) * width + j in
      channel_loop row height width i j (c + 1) fuel' (img_index + 1)
        (write transformed_data 0 top_index (normalize (row img_index)))
  end.

(** The loop over [j] (lines 344-352). *)
Fixpoint column_loop (row : Z -> Z) (height width i j : Z) (fuel : nat)
    (img_index : Z) (transformed_data : list spec_float)
  : list spec_float :=
  match fuel with
  | O => transformed_data
  | S fuel' =>
      let '(img_index', td) :=
        channel_loop row height width i j 0 3 img_index transformed_data in
      column_loop row height width i (j + 1) fuel' img_index' td
  end.

(** The loop over [i] (lines 340-353). *)
Fixpoint row_loop (cv_img_cropped : Mat) (height width i : Z) (fuel : nat)
    (transformed_data : list spec_float) : list spec_float :=
  match fuel with
  | O => transformed_data
  | S fuel' =>
      row_loop cv_img_cropped height width (i + 1) fuel'
        (column_loop (ptr cv_img_cropped i) height width i 0
                     (Z.to_nat width) 0 transformed_data)
  end.

Definition normalize_image (P : LayerParameter) (cv_img_cropped : Mat)
    (transformed_data : list spec_float) : list spec_float :=
  row_loop cv_img_cropped (bbtxt_height P) (bbtxt_width P) 0
           (Z.to_nat (bbtxt_height P)) transformed_data.

(** Lines 259-330: the image brought to the size of the network and the
    labels that go with it. *)
Definition crop_and_resize (P : LayerParameter) (cv_img : Mat)
    (transformed_label : Blob) (g : rng_t) : result (Mat * Blob * rng_t) :=
  if Float.eqb (read (data transformed_label) 0 0) minus_one then
    do cv_img_cropped <- resize cv_img (bbtxt_width P) (bbtxt_height P);
    Ok (cv_img_cropped, transformed_label, g)
  else
    do (_, c, g') <- select_crop P transformed_label g;
    do cropped <- pad_and_crop cv_img c;
    do cv_img_cropped <- resize cropped (bbtxt_width P) (bbtxt_height P);
    Ok (cv_img_cropped, remap_labels P transformed_label c, g').

(** [_transformImage]: the new contents of [transformed_image] and
    [transformed_label], and the generator after its draws.  A matrix
    that [cv::resize] returned has data, so [CHECK(cv_img_cropped.data)]
    holds whenever it is reached. *)
Definition _transformImage (P : LayerParameter) (cv_img : Mat)
    (transformed_image transformed_label : Blob) (g : rng_t)
  : result (Blob * Blob * rng_t) :=
  do _ <- check (channels cv_img =? 3) NotThreeChannels;
  do (cv_img_cropped, label', g') <-
    crop_and_resize P cv_img transformed_label g;
  do _ <- check (rows cv_img_cropped =? axis transformed_image 2)
            WrongCropHeight;
  do _ <- check (cols cv_img_cropped =? axis transformed_image 3)
            WrongCropWidth;
  Ok (set_data transformed_image
        (normalize_image P cv_img_cropped (data transformed_image)),
      label', g').

(** *** load_batch *)

Record Batch := { data_ : Blob; label_ : Blob }.

(** The [n] values that start at [p + off]. *)
Definition slice (p : list spec_float) (off n : Z) : list spec_float :=
  firstn (Z.to_nat n) (skipn (Z.to_nat off) p).

(** [caffe_copy(n, src, p + off)], for the [n] values of [src]. *)
Definition blit (p : list spec_float) (off : Z) (src : list spec_float)
  : list spec_float :=
  firstn (Z.to_nat off) p ++ src ++ skipn (Z.to_nat off + length src) p.

(** What the prefetch thread does that can be seen from outside: it reads
    the record under the cursor, and it reshuffles the records. *)
Inductive event :=
  | ReadImage (i : Z)
  | Reshuffle.

(** Lines 157-163: the cursor moves to the next image; at the end of the
    images it returns to the first one, after a shuffle when the layer is
    asked to shuffle. *)
Definition advance (L : Layer) : Layer * list event :=
  let i := _i_global L + 1 in
  if Z.of_nat (length (_images L)) <=? i then
    if image_data_shuffle (layer_param_ L)
    then (with_i_global (_shuffleImages L) 0, [Reshuffle])
    else (with_i_global L 0, [])
  else (with_i_global L i, []).

(** The body of the loop of [load_batch] for slot [b] of the batch.  The
    blobs [transformed_data_] and [transformed_label_] are views of the
    slot: what [_transformImage] writes to them lands in the batch. *)
Definition load_one (L : Layer) (batch : Batch) (b : Z)
  : result (Layer * Batch * list event) :=
  let i := _i_global L in
  do _ <- check (0 <=? i) UndefinedBehaviour;
  do im <- of_option (_images L !! Z.to_nat i) UndefinedBehaviour;
  do cv_img <- of_option (imread (fst im)) CouldNotOpenImage;
  let offset_label := offset (label_ batch) b in
  let plabel := snd im in
  let label_data := blit (data (label_ batch)) offset_label
                         (slice (data plabel) 0 (count plabel)) in
  let label_slot :=
    set_data (transformed_label_ L)
      (slice label_data offset_label (count (transformed_label_ L))) in
  let offset_image := offset (data_ batch) b in
  let image_slot :=
    set_data (transformed_data_ L)
      (slice (data (data_ batch)) offset_image (count (transformed_data_ L))) in
  do (image', label', g') <-
    _transformImage (layer_param_ L) cv_img image_slot label_slot (_rng L);
  let batch' :=
    {| data_ := set_data (data_ batch)
                  (blit (data (data_ batch)) offset_image (data image'));
       label_ := set_data (label_ batch)
                  (blit label_data offset_label (data label')) |} in
  let (L', evs) := advance (with_rng L g') in
  Ok (L', batch', ReadImage i :: evs).

Fixpoint load_loop (L : Layer) (batch : Batch) (b : Z) (fuel : nat)
  : result (Layer * Batch * list event) :=
  match fuel with
  | O => Ok (L, batch, [])
  | S fuel' =>
      do (L1, batch1, evs1) <- load_one L batch b;
      do (L2, batch2, evs2) <- load_loop L1 batch1 (b + 1) fuel';
      Ok (L2, batch2, evs1 ++ evs2)
  end.

Definition load_batch (L : Layer) (batch : Batch)
  : result (Layer * Batch * list event) :=
  do _ <- check (negb (count (data_ batch) =? 0)) EmptyBlob;
  do _ <- check (negb (count (transformed_data_ L) =? 0)) EmptyBlob;
  load_loop L batch 0 (Z.to_nat (image_data_batch_size (layer_param_ L))).

(** *** DataLayerSetUp *)

(** [DataLayerSetUp], for the value [seed] that [caffe_rng_rand()]
    returns; the parameters it checks for presence are the fields of
    [LayerParameter].  The reshaping of the top and prefetch blobs is left
    to [Batch_new]. *)
Definition DataLayerSetUp (P : LayerParameter) (seed : Z)
  : result Layer :=
  let g := rng_seed seed in
  do (imgs, _) <- _loadBBTXTFile (image_data_source P) [];
  do _ <- check (0 <? Z.of_nat (length imgs)) EmptyBBTXT;
  let L :=
    {| layer_param_ := P; _images := imgs; _i_global := 0; _rng := g;
       transformed_data_ := Blob_new [1; 3; bbtxt_height P; bbtxt_width P];
       transformed_label_ := Blob_new [1; MAX_NUM_BBS_PER_IMAGE; 5] |} in
  Ok (if image_data_shuffle P then _shuffleImages L else L).

(** The blobs of a prefetch batch as [DataLayerSetUp] shapes them. *)
Definition Batch_new (P : LayerParameter) : Batch :=
  {| data_ := Blob_new [image_data_batch_size P; 3;
                        bbtxt_height P; bbtxt_width P];
     label_ := Blob_new [image_data_batch_size P; MAX_NUM_BBS_PER_IMAGE; 5] |}.

End Layer.

(** ** A world to run the layer in

    Small, executable stand-ins for what is outside the file: [Dtype] is
    [float], a fresh blob holds zeros (Caffe clears the memory it
    allocates), every image file exists and decodes to the same 100 x 80
    picture, resizing takes the nearest pixel, and the generator is a
    linear congruential one. *)

Module World.

Definition digit (c : ascii) : option Z :=
  let n := Z.of_nat (nat_of_ascii c) in
  if (48 <=? n) && (n <=? 57) then Some (n - 48) else None.

(** The digits of [s], read from the value [acc] on, up to the first
    character that is not a digit: the value, the number of digits, and
    the rest of the string. *)
Fixpoint digits (s : string) (acc : Z) (n : nat) : Z * nat * string :=
  match s with
  | EmptyString => (acc, n, s)
  | String c rest =>
      match digit c with
      | Some d => digits rest (10 * acc + d) (S n)
      | None => (acc, n, s)
      end
  end.

(** A decimal numeral as [mantissa / 10 ^ exponent]. *)
Definition decimal (s : string) : option (Z * nat) :=
  let '(ip, n, rest) := digits s 0 O in
  match rest with
  | String "."%char frac =>
      let '(v, k, _) := digits frac ip O in
      if Nat.eqb (n + k) 0 then None else Some (v, k)
  | _ => if Nat.eqb n 0 then None else Some (ip, O)
  end.

(** [std::stof] on plain decimal numerals with an optional sign; it is
    exact about the rounding as long as the digits without the point and
    the power of ten both fit the 24 bits of a [float]. *)
Definition stof_decimal (s : string) : option spec_float :=
  let '(neg, body) :=
    match s with
    | String "-"%char rest => (true, rest)
    | String "+"%char rest => (false, rest)
    | _ => (false, s)
    end in
  match decimal body with
  | Some (v, k) =>
      let q := Float.div Float.binary32 (Float.of_int Float.binary32 v)
                 (Float.of_int Float.binary32 (10 ^ Z.of_nat k)) in
      Some (if neg then SFopp q else q)
  | None => None
  end.

Definition picture : Mat :=
  {| rows := 80; cols := 100; channels := 3;
     ptr := fun i k => (7 * i + k) mod 256 |}.

Definition nearest (src : Mat) (w h i k : Z) : Z :=
  ptr src (i * rows src / h)
      ((k / channels src) * cols src / w * channels src + k mod channels src).

Definition lcg (g : Z) : Z := (1103515245 * g + 12345) mod 2 ^ 31.

Definition uniform (a b g : Z) : Z * Z :=
  (a + lcg g mod (b - a + 1), lcg g).

(** The world with the text files [files]. *)
Definition world (files : string -> option (list string)) : Externals :=
  {| Dtype := Float.binary32;
     stof := stof_decimal;
     ifstream := files;
     file_exists := fun _ => true;
     blob_init := S754_zero false;
     imread := fun _ => Some picture;
     resize_pixels := nearest;
     rng_t := Z;
     rng_seed := fun seed => seed mod 2 ^ 31;
     uniform_int := uniform |}.

End World.

(** ** Inputs to run the layer on *)

Module Run.

(** A small network input: 2 x 2 pixels. *)
Definition P2 : LayerParameter :=
  {| bbtxt_height := 2; bbtxt_width := 2; bbtxt_reference_size := 1;
     image_data_batch_size := 3; image_data_shuffle := true;
     image_data_source := "full.bbtxt" |}.

(** The example of the specification, a file with one line, two files that
    differ in the confidence only, a file with a box between the pixels, a
    file that ends with the 20th box of an image, and a file with 22 boxes
    for one image next to the same file cut after the 20th. *)
Definition boxes22 : list string := repeat "b.jpg 2 0.5 1 2 3 4"%string 22.

Definition files (path : string) : option (list string) :=
  if String.eqb path "spec.bbtxt" then
    Some ["img1.jpg 2 1.0 10 10 50 50"; "img1.jpg 3 1.0 60 60 90 90";
          "img2.jpg 1 1.0 5 5 15 15"]%string
  else if String.eqb path "one.bbtxt" then
    Some ["img1.jpg 2 1.0 10 10 50 50"]%string
  else if String.eqb path "sure.bbtxt" then
    Some ["img1.jpg 2 1.0 10 10 50 50"; "img2.jpg 1 1.0 5 5 15 15"]%string
  else if String.eqb path "unsure.bbtxt" then
    Some ["img1.jpg 2 0.25 10 10 50 50"; "img2.jpg 1 n/a 5 5 15 15"]%string
  else if String.eqb path "half.bbtxt" then
    Some ["img1.jpg 1 1.0 10.5 10 50.5 50"; "img2.jpg 1 1.0 5 5 15 15"]%string
  else if String.eqb path "full.bbtxt" then
    Some (["a.jpg 1 1.0 1 1 5 5"%string] ++ firstn 20 boxes22)
  else if String.eqb path "all.bbtxt" then
    Some (["a.jpg 1 1.0 1 1 5 5"%string] ++ boxes22
            ++ ["c.jpg 3 1.0 0 0 1 1"%string])
  else if String.eqb path "cut.bbtxt" then
    Some (["a.jpg 1 1.0 1 1 5 5"%string] ++ firstn 20 boxes22
            ++ ["c.jpg 3 1.0 0 0 1 1"%string])
  else None.

Definition W0 : Externals := World.world files.

(** The labels of the [n]-th image of a file, as [load_batch] views
    them. *)
Definition labels_of (path : string) (n : nat) : Blob :=
  match _loadBBTXTFile (E := W0) path [] with
  | Ok (imgs, _) => label_view (snd (nth n imgs (EmptyString, Blob_new (E := W0) [])))
  | Fatal _ => Blob_new (E := W0) []
  end.

(** The two boxes of [img1.jpg] in the example of the specification. *)
Definition two_boxes : Blob := labels_of "spec.bbtxt" 0.

(** One box of 40 x 40 pixels. *)
Definition one_box : Blob := labels_of "sure.bbtxt" 0.

(** One box of 40 x 40 pixels whose left and right side lie between two
    pixels. *)
Definition half_box : Blob := labels_of "half.bbtxt" 0.

(** The network input of the example of the specification. *)
Definition P200 : LayerParameter :=
  {| bbtxt_height := 200; bbtxt_width := 200; bbtxt_reference_size := 50;
     image_data_batch_size := 1; image_data_shuffle := false;
     image_data_source := "sure.bbtxt" |}.

(** A network input as large as its reference box. *)
Definition P40 : LayerParameter :=
  {| bbtxt_height := 40; bbtxt_width := 40; bbtxt_reference_size := 40;
     image_data_batch_size := 1; image_data_shuffle := false;
     image_data_source := "half.bbtxt" |}.

(** The same network input for the example of the specification. *)
Definition P2_spec : LayerParameter :=
  {| bbtxt_height := 2; bbtxt_width := 2; bbtxt_reference_size := 1;
     image_data_batch_size := 3; image_data_shuffle := true;
     image_data_source := "spec.bbtxt" |}.

(** The layer after [DataLayerSetUp] with seed 42. *)
Definition no_layer : BBTXTDataLayer Z :=
  {| layer_param_ := P2; _images := []; _i_global := 0; _rng := 0;
     transformed_data_ := Blob_new (E := W0) [];
     transformed_label_ := Blob_new (E := W0) [] |}.

Definition layer : BBTXTDataLayer Z :=
  Eval vm_compute in
    match DataLayerSetUp (E := W0) P2 42 with
    | Ok L => L
    | Fatal _ => no_layer
    end.

Definition layer_spec : BBTXTDataLayer Z :=
  Eval vm_compute in
    match DataLayerSetUp (E := W0) P2_spec 42 with
    | Ok L => L
    | Fatal _ => no_layer
    end.

(** The loader after the first line of the example. *)
Definition one_line : Loader :=
  match process_line (E := W0) (Loader_start [])
          "img1.jpg 2 1.0 10 10 50 50" with
  | Ok st => st
  | Fatal _ => Loader_start []
  end.

(** The label of an image without bounding boxes. *)
Definition no_boxes : Blob :=
  finalize (E := W0) 0 (Blob_new (E := W0) [1; MAX_NUM_BBS_PER_IMAGE; 5]).

End Run.

Module Window.


End Window.

(** More inputs: the example of the specification read up to its second
    image, a window inside the picture, a buffer that is longer than one
    image of 2 x 2 pixels, and the small network input without
    shuffling. *)
Module More.

Definition pre : list string :=
  ["img1.jpg 2 1.0 10 10 50 50"; "img1.jpg 3 1.0 60 60 90 90"]%string.

Definition line : string := "img2.jpg 1 1.0 5 5 15 15".

Definition st : Loader :=
  Eval vm_compute in
    match read_lines (E := Run.W0) (Loader_start []) pre with
    | Ok s => s
    | Fatal _ => Loader_start []
    end.

Definition b : Blob :=
  Eval vm_compute in
    match ld_images st with
    | [(_, blob)] => blob
    | _ => Blob_new (E := Run.W0) []
    end.

Definition st1 : Loader :=
  Eval vm_compute in
    match process_line (E := Run.W0) st line with
    | Ok s => s
    | Fatal _ => Loader_start []
    end.

Definition inside : Crop :=
  {| crop_x := 10; crop_y := 20; crop_width := 6; crop_height := 4 |}.

Definition buffer : list spec_float :=
  repeat (S754_zero false) 12 ++ [S754_infinity false; S754_nan].

Definition window : Crop :=
  {| crop_x := -5; crop_y := 9; crop_width := 80; crop_height := 80 |}.



(** A file with 22 different boxes for one image between two other
    images, and the same file cut after the 20th of them. *)
Definition run22 : list string :=
    ["b.jpg 2 0.5 0 0 10 10";
     "b.jpg 2 0.5 1 1 11 11";
     "b.jpg 2 0.5 2 2 12 12";
     "b.jpg 2 0.5 3 3 13 13";
     "b.jpg 2 0.5 4 4 14 14";
     "b.jpg 2 0.5 5 5 15 15";
     "b.jpg 2 0.5 6 6 16 16";
     "b.jpg 2 0.5 7 7 17 17";
     "b.jpg 2 0.5 8 8 18 18";
     "b.jpg 2 0.5 9 9 19 19";
     "b.jpg 2 0.5 10 10 20 20";
     "b.jpg 2 0.5 11 11 21 21";
     "b.jpg 2 0.5 12 12 22 22";
     "b.jpg 2 0.5 13 13 23 23";
     "b.jpg 2 0.5 14 14 24 24";
     "b.jpg 2 0.5 15 15 25 25";
     "b.jpg 2 0.5 16 16 26 26";
     "b.jpg 2 0.5 17 17 27 27";
     "b.jpg 2 0.5 18 18 28 28";
     "b.jpg 2 0.5 19 19 29 29";
     "b.jpg 2 0.5 20 20 30 30";
     "b.jpg 2 0.5 21 21 31 31"]%string.

Definition long_files (path : string) : option (list string) :=
  if String.eqb path "long.bbtxt" then
    Some (["a.jpg 1 1.0 1 1 5 5"%string] ++ run22
            ++ ["c.jpg 3 1.0 0 0 1 1"%string])
  else if String.eqb path "short.bbtxt" then
    Some (["a.jpg 1 1.0 1 1 5 5"%string] ++ firstn 20 run22
            ++ ["c.jpg 3 1.0 0 0 1 1"%string])
  else None.

Definition W1 : Externals := World.world long_files.

(** The loader after the line of [a.jpg]. *)
Definition after_a : Loader :=
  Eval vm_compute in
    match read_lines (E := W1) (Loader_start [])
            ["a.jpg 1 1.0 1 1 5 5"%string] with
    | Ok st => st
    | Fatal _ => Loader_start []
    end.




(** A network input without height, and the layer set up for it. *)
Definition P0 : LayerParameter :=
  {| bbtxt_height := 0; bbtxt_width := 2; bbtxt_reference_size := 1;
     image_data_batch_size := 3; image_data_shuffle := false;
     image_data_source := "full.bbtxt" |}.

Definition flat : BBTXTDataLayer Z :=
  Eval vm_compute in
    match DataLayerSetUp (E := Run.W0) P0 42 with
    | Ok L => L
    | Fatal _ => Run.no_layer
    end.

(** A source that is not there. *)
Definition P_nowhere : LayerParameter :=
  {| bbtxt_height := 2; bbtxt_width := 2; bbtxt_reference_size := 1;
     image_data_batch_size := 3; image_data_shuffle := false;
     image_data_source := "nowhere.bbtxt" |}.

(** The world in which no image can be read. *)
Definition dark : Externals :=
  {| Dtype := Float.binary32;
     stof := World.stof_decimal;
     ifstream := Run.files;
     file_exists := fun _ => true;
     blob_init := S754_zero false;
     imread := fun _ => None;
     resize_pixels := World.nearest;
     rng_t := Z;
     rng_seed := fun seed => seed mod 2 ^ 31;
     uniform_int := World.uniform |}.

End More.

(** ** Vocabulary of the statements *)

Section Vocabulary.

Context `{E : Externals}.

(** The bytes [0 .. 255]. *)
Definition bytes : list Z := map Z.of_nat (seq 0 256).

(** [(v - 128) / 128] computed in the format [F]. *)
Definition normalize_in (F : Float.format) (v : Z) : spec_float :=
  let c := Float.convert F (Float.of_int Float.binary32 128) in
  Float.div F (Float.sub F (Float.of_int F v) c) c.

Definition is_rational (x : spec_float) (q : Q) : bool :=
  match Float.to_Q x with
  | Some r => Qeq_bool r q
  | None => false
  end.

(** The place of channel [c], row [i], column [j] in a planar buffer. *)
Definition planar (height width c i j : Z) : Z :=
  (c * height + i) * width + j.

(** The float [x] stands for the rational [q]. *)
Definition represents (x : spec_float) (q : Q) : Prop :=
  exists r, Float.to_Q x = Some r /\ (r == q)%Q.

(** Two lines that differ at most in their third entry. *)
Definition same_but_confidence (l1 l2 : string) : Prop :=
  length (split l1) = length (split l2) /\
  forall k, k <> 2%nat -> entry (split l1) k = entry (split l2) k.

(** The label blob of an image entry, as line 207 creates it. *)
Definition bb_blob (b : Blob) : Prop :=
  shape b = [MAX_NUM_BBS_PER_IMAGE; 5; 1; 1] /\ length (data b) = 100%nat.

Definition wf_loader (st : Loader) : Prop :=
  Forall (fun im => bb_blob (snd im)) (ld_images st) /\
  0 <= ld_i st <= MAX_NUM_BBS_PER_IMAGE.

Definition add_warnings (n : nat) (st : Loader) : Loader :=
  {| ld_images := ld_images st;
     ld_current_filename := ld_current_filename st;
     ld_i := ld_i st;
     ld_warnings := (ld_warnings st + n)%nat |}.

Definition fmap_result {A B} (f : A -> B) (r : result A) : result B :=
  match r with
  | Ok a => Ok (f a)
  | Fatal e => Fatal e
  end.

(** A line of file [f] with seven entries. *)
Definition line_of (f : string) (line : string) : Prop :=
  length (split line) = 7%nat /\ entry (split line) 0 = f.

(** The file name on the last line, the empty string when there is none. *)
Definition last_filename (lines : list string) : string :=
  match last lines with
  | Some l => entry (split l) 0
  | None => EmptyString
  end.

(** [n] more warnings on the result of [_loadBBTXTFile]. *)
Definition more_warnings (n : nat)
    (r : result (list (string * Blob) * nat))
  : result (list (string * Blob) * nat) :=
  fmap_result (fun '(imgs, w) => (imgs, (w + n)%nat)) r.

(** The five entries of box [i]. *)
Definition bb_row (b : Blob) (i : Z) : list spec_float :=
  map (read (data b) (offset b i)) [0; 1; 2; 3; 4].

(** The entries of the last image from box [ld_i] on have not been
    written. *)
Definition rest_untouched (st : Loader) : Prop :=
  forall name blob,
    last (ld_images st) = Some (name, blob) ->
    forall k, (Z.to_nat (5 * ld_i st) <= k < 100)%nat ->
              data blob !! k = Some blob_init.

(** The label blob that [load_batch] hands over: one image, 20 boxes of
    five entries. *)
Definition label_blob (lbl : Blob) : Prop :=
  shape lbl = [1; MAX_NUM_BBS_PER_IMAGE; 5] /\ length (data lbl) = 100%nat.

(** What lines 315-323 make of entry [k] of a box. *)
Definition remapped (c : Crop) (x_scaling y_scaling : spec_float) (k : Z)
    (v : spec_float) : spec_float :=
  if k =? 0 then v
  else if Z.odd k
       then Dmul (Dsub v (Float.of_int Dtype (crop_x c))) x_scaling
       else Dmul (Dsub v (Float.of_int Dtype (crop_y c))) y_scaling.

(** The cursor points at an image. *)
Definition cursor_ok (L : BBTXTDataLayer rng_t) : Prop :=
  0 <= _i_global L < Z.of_nat (length (_images L)).




(** The [int] computations of lines 291-294 stay within [int]: the
    negations of a negative origin, the two sums, and the two differences
    that are formed when a sum is larger than the image. *)
Definition left_fits (c : Crop) : bool :=
  (0 <=? crop_x c) || in_int (- crop_x c).
Definition top_fits (c : Crop) : bool :=
  (0 <=? crop_y c) || in_int (- crop_y c).
Definition right_fits (c : Crop) (cv_img : Mat) : bool :=
  in_int (crop_x c + crop_width c) &&
  ((crop_x c + crop_width c <=? cols cv_img) ||
   in_int (crop_x c + crop_width c - cols cv_img)).
Definition bottom_fits (c : Crop) (cv_img : Mat) : bool :=
  in_int (crop_y c + crop_height c) &&
  ((crop_y c + crop_height c <=? rows cv_img) ||
   in_int (crop_y c + crop_height c - rows cv_img)).
Definition no_overflow (cv_img : Mat) (c : Crop) : bool :=
  left_fits c && top_fits c && right_fits c cv_img && bottom_fits c cv_img.

(** Row [k] of the blob holds the box of the line: what [std::stof] reads
    in its second, fourth, fifth, sixth and seventh entry. *)
Definition stored (line : string) (blob : Blob) (k : Z) : Prop :=
  exists label xmin ymin xmax ymax,
    Dtype_stof (entry (split line) 1) = Ok label /\
    Dtype_stof (entry (split line) 3) = Ok xmin /\
    Dtype_stof (entry (split line) 4) = Ok ymin /\
    Dtype_stof (entry (split line) 5) = Ok xmax /\
    Dtype_stof (entry (split line) 6) = Ok ymax /\
    bb_row blob k = [label; xmin; ymin; xmax; ymax].

(** The number of spaces in a line. *)
Fixpoint spaces (line : string) : nat :=
  match line with
  | EmptyString => O
  | String c rest =>
      if Ascii.eqb c " "%char then S (spaces rest) else spaces rest
  end.

(** The file name of a line: its first entry. *)
Definition filename (line : string) : string := entry (split line) 0.

(** The names that open a run of equal names, for a list of names that
    follows the name [prev]. *)
Fixpoint runs (prev : string) (names : list string) : list string :=
  match names with
  | [] => []
  | name :: rest =>
      if String.eqb prev name then runs name rest else name :: runs name rest
  end.

(** The blob for the transformed image has the height and the width of
    the network input. *)
Definition sized (L : BBTXTDataLayer rng_t) : Prop :=
  axis (transformed_data_ L) 2 = bbtxt_height (layer_param_ L) /\
  axis (transformed_data_ L) 3 = bbtxt_width (layer_param_ L).

(** The reasons for which [load_batch] stops a layer that
    [DataLayerSetUp] has made. *)
Definition batch_error (e : error) : Prop :=
  e = EmptyBlob \/ e = CouldNotOpenImage \/ e = NotThreeChannels \/
  e = OpenCVAssertion \/ e = BoostAssertion \/ e = UndefinedBehaviour.

(** Item [b] of a blob of a batch whose items have [n] values. *)
Definition slot (blob : Blob) (n b : Z) : list spec_float :=
  slice (data blob) (n * b) n.

(** A batch of [B] items for the parameters [P], as [DataLayerSetUp]
    reshapes the prefetch blobs (lines 100-117). *)
Definition batch_for (P : LayerParameter) (B : Z) (batch : Batch) : Prop :=
  shape (data_ batch) = [B; 3; bbtxt_height P; bbtxt_width P] /\
  shape (label_ batch) = [B; MAX_NUM_BBS_PER_IMAGE; 5] /\
  length (data (data_ batch))
  = Z.to_nat (B * (3 * bbtxt_height P * bbtxt_width P)) /\
  length (data (label_ batch)) = Z.to_nat (B * 100).

(** The two blobs of the layer have the shapes of one item. *)
Definition views_for (L : BBTXTDataLayer rng_t) : Prop :=
  shape (transformed_data_ L)
  = [1; 3; bbtxt_height (layer_param_ L); bbtxt_width (layer_param_ L)] /\
  shape (transformed_label_ L) = [1; MAX_NUM_BBS_PER_IMAGE; 5].

(** What [load_batch] relies on: the cursor points at an image, the two
    blobs of the layer have the shapes of one item, and every image has a
    label blob as line 207 creates it. *)
Definition ready (L : BBTXTDataLayer rng_t) : Prop :=
  cursor_ok L /\ views_for L /\
  Forall (fun im => bb_blob (snd im)) (_images L).

(** Slot [b] of [batch'] holds what [_transformImage] makes of one of the
    images of [L] and of its labels, with the values that slot [b] of
    [batch] held for the image in the blob it writes to. *)
Definition slot_filled (L : BBTXTDataLayer rng_t) (batch batch' : Batch)
    (b : Z) : Prop :=
  let P := layer_param_ L in
  let n := 3 * bbtxt_height P * bbtxt_width P in
  exists name plabel cv_img g image' label' g',
    In (name, plabel) (_images L) /\
    imread name = Some cv_img /\
    _transformImage P cv_img
      (set_data (transformed_data_ L) (slot (data_ batch) n b))
      (label_view plabel) g = Ok (image', label', g') /\
    slot (data_ batch') n b = data image' /\
    slot (label_ batch') 100 b = data label'.

(** Slot [b] is the same in the two batches. *)
Definition slot_kept (P : LayerParameter) (batch batch' : Batch) (b : Z)
  : Prop :=
  let n := 3 * bbtxt_height P * bbtxt_width P in
  slot (data_ batch') n b = slot (data_ batch) n b /\
  slot (label_ batch') 100 b = slot (label_ batch) 100 b.

End Vocabulary.

(** ** Facts about the floating point layer *)

Section FloatFacts.

Lemma in_bytes (v : Z) : 0 <= v <= 255 -> In v bytes.
Proof.
  intros Hv. unfold bytes. apply in_map_iff.
  exists (Z.to_nat v). split; [lia|]. apply in_seq. lia.
Qed.

Lemma is_rational_spec x q :
  is_rational x q = true -> exists r, Float.to_Q x = Some r /\ (r == q)%Q.
Proof.
  unfold is_rational. destruct (Float.to_Q x) as [r|]; [|discriminate].
  intros H. exists r. split; [reflexivity|]. now apply Qeq_bool_iff.
Qed.

Lemma normalize_in_exact (F : Float.format) (v : Z) :
  F = Float.binary32 \/ F = Float.binary64 ->
  0 <= v <= 255 ->
  is_rational (normalize_in F v) ((v - 128) # 128) = true.
Proof.
  intros HF Hv. apply in_bytes in Hv. revert v Hv.
  apply (proj1 (List.forallb_forall
                  (fun v => is_rational (normalize_in F v) ((v - 128) # 128))
                  bytes)).
  destruct HF as [-> | ->]; vm_compute; reflexivity.
Qed.

End FloatFacts.

(** ** Reading and writing through a pointer *)

Section Memory.

Lemma length_write d off k v : length (write d off k v) = length d.
Proof. unfold write. apply length_insert. Qed.

Lemma lookup_write_eq d off k v :
  (Z.to_nat (off + k) < length d)%nat ->
  write d off k v !! Z.to_nat (off + k) = Some v.
Proof. intros H. unfold write. now apply list_lookup_insert_eq. Qed.

Lemma lookup_write_ne d off k v (p : nat) :
  Z.to_nat (off + k) <> p ->
  write d off k v !! p = d !! p.
Proof. intros H. unfold write. now apply list_lookup_insert_ne. Qed.

Lemma read_lookup d off k v :
  d !! Z.to_nat (off + k) = Some v -> read d off k = v.
Proof. intros H. unfold read. rewrite nth_lookup, H. reflexivity. Qed.

Lemma read_write_eq d off k v :
  (Z.to_nat (off + k) < length d)%nat ->
  read (write d off k v) off k = v.
Proof. intros H. apply read_lookup. now apply lookup_write_eq. Qed.

Lemma read_write_ne d off k v off' k' :
  Z.to_nat (off + k) <> Z.to_nat (off' + k') ->
  read (write d off k v) off' k' = read d off' k'.
Proof.
  intros H. unfold read. rewrite !nth_lookup.
  now rewrite lookup_write_ne.
Qed.

End Memory.

(** ** The normalisation loops *)

Section Normalisation.

Context `{E : Externals}.

Lemma quotient_remainder_unique m q r q' r' :
  0 <= r < m -> 0 <= r' < m -> q * m + r = q' * m + r' ->
  q = q' /\ r = r'.
Proof.
  intros Hr Hr' Heq.
  assert (Hq : q = q').
  { destruct (Z.lt_trichotomy q q') as [Hlt|[Heq'|Hgt]]; [|exact Heq'|].
    - assert (q + 1 <= q') by lia. nia.
    - assert (q' + 1 <= q) by lia. nia. }
  subst q'. split; [reflexivity|lia].
Qed.

Lemma planar_inj height width c i j c' i' j' :
  0 <= i < height -> 0 <= j < width ->
  0 <= i' < height -> 0 <= j' < width ->
  planar height width c i j = planar height width c' i' j' ->
  c = c' /\ i = i' /\ j = j'.
Proof.
  unfold planar. intros Hi Hj Hi' Hj' Heq.
  apply quotient_remainder_unique in Heq; [|lia|lia].
  destruct Heq as [Ha ->].
  apply quotient_remainder_unique in Ha; [|lia|lia].
  destruct Ha as [-> ->]. auto.
Qed.

Lemma planar_bound height width c i j :
  0 <= c < 3 -> 0 <= i < height -> 0 <= j < width ->
  0 <= planar height width c i j < 3 * height * width.
Proof.
  unfold planar. intros Hc Hi Hj.
  assert (Ha : 0 <= c * height + i <= 3 * height - 1) by nia.
  assert (Hb : 0 <= (c * height + i) * width
               /\ (c * height + i) * width <= (3 * height - 1) * width)
    by nia.
  lia.
Qed.

Lemma planar_nonneg height width c i j :
  0 <= c -> 0 <= i < height -> 0 <= j < width ->
  0 <= planar height width c i j.
Proof.
  unfold planar. intros Hc Hi Hj.
  assert (0 <= c * height) by nia.
  assert (0 <= (c * height + i) * width) by nia.
  lia.
Qed.

Lemma channel_loop_fst row height width i j c fuel img_index td :
  fst (channel_loop row height width i j c fuel img_index td)
  = img_index + Z.of_nat fuel.
Proof.
  revert c img_index td.
  induction fuel as [|fuel IH]; intros c img_index td; simpl; [lia|].
  rewrite IH. lia.
Qed.

Lemma channel_loop_length row height width i j c fuel img_index td :
  length (snd (channel_loop row height width i j c fuel img_index td))
  = length td.
Proof.
  revert c img_index td.
  induction fuel as [|fuel IH]; intros c img_index td; simpl; [reflexivity|].
  rewrite IH. apply length_write.
Qed.

(** A cell that the loop over [c] does not address keeps its value. *)
Lemma channel_loop_frame row height width i j c fuel img_index td (p : nat) :
  (forall c', c <= c' < c + Z.of_nat fuel ->
              Z.to_nat (planar height width c' i j) <> p) ->
  snd (channel_loop row height width i j c fuel img_index td) !! p = td !! p.
Proof.
  revert c img_index td.
  induction fuel as [|fuel IH]; intros c img_index td Hp; simpl;
    [reflexivity|].
  rewrite IH by (intros c' Hc'; apply Hp; lia).
  apply lookup_write_ne. simpl. apply (Hp c). lia.
Qed.

(** The cell of channel [c0] receives the normalised byte that the row
    holds for that channel. *)
Lemma channel_loop_hit row height width i j c fuel img_index td c0 :
  0 <= i < height -> 0 <= j < width -> 0 <= c ->
  c <= c0 < c + Z.of_nat fuel ->
  (Z.to_nat (planar height width c0 i j) < length td)%nat ->
  snd (channel_loop row height width i j c fuel img_index td)
    !! Z.to_nat (planar height width c0 i j)
  = Some (normalize (row (img_index + (c0 - c)))).
Proof.
  intros Hi Hj. revert c img_index td.
  induction fuel as [|fuel IH]; intros c img_index td Hc Hc0 Hlen; simpl;
    [lia|].
  destruct (Z.eq_dec c0 c) as [->|Hne].
  - rewrite channel_loop_frame.
    + replace (img_index + (c - c)) with img_index by lia.
      apply (lookup_write_eq td 0 (planar height width c i j)). exact Hlen.
    + intros c' Hc' Heq.
      apply Z2Nat.inj in Heq;
        [|apply planar_nonneg; lia|apply planar_nonneg; lia].
      apply planar_inj in Heq; lia.
  - rewrite (IH (c + 1) (img_index + 1)); [|lia|lia|].
    + f_equal. f_equal. f_equal. lia.
    + rewrite length_write. exact Hlen.
Qed.

Lemma column_loop_length row height width i j fuel img_index td :
  length (column_loop row height width i j fuel img_index td) = length td.
Proof.
  revert j img_index td.
  induction fuel as [|fuel IH]; intros j img_index td; cbn [column_loop]; [reflexivity|].
  destruct (channel_loop row height width i j 0 3 img_index td)
    as [idx td'] eqn:Hch.
  rewrite IH.
  change td' with (snd (idx, td')). rewrite <- Hch.
  apply channel_loop_length.
Qed.

Lemma column_loop_frame row height width i j fuel img_index td (p : nat) :
  (forall c' j', 0 <= c' < 3 -> j <= j' < j + Z.of_nat fuel ->
                 Z.to_nat (planar height width c' i j') <> p) ->
  column_loop row height width i j fuel img_index td !! p = td !! p.
Proof.
  revert j img_index td.
  induction fuel as [|fuel IH]; intros j img_index td Hp;
    cbn [column_loop]; [reflexivity|].
  destruct (channel_loop row height width i j 0 3 img_index td)
    as [idx td'] eqn:Hch.
  rewrite IH by (intros c' j' Hc' Hj'; apply Hp; lia).
  change td' with (snd (idx, td')). rewrite <- Hch.
  apply channel_loop_frame. intros c' Hc'. apply Hp; lia.
Qed.

Lemma column_loop_hit row height width i j fuel img_index td c0 j0 :
  0 <= i < height -> 0 <= j -> j + Z.of_nat fuel <= width ->
  0 <= c0 < 3 -> j <= j0 < j + Z.of_nat fuel ->
  (Z.to_nat (planar height width c0 i j0) < length td)%nat ->
  column_loop row height width i j fuel img_index td
    !! Z.to_nat (planar height width c0 i j0)
  = Some (normalize (row (img_index + 3 * (j0 - j) + c0))).
Proof.
  intros Hi. revert j img_index td.
  induction fuel as [|fuel IH]; intros j img_index td Hj Hw Hc0 Hj0 Hlen;
    cbn [column_loop]; [lia|].
  destruct (channel_loop row height width i j 0 3 img_index td)
    as [idx td'] eqn:Hch.
  assert (Hidx : idx = img_index + 3).
  { change idx with (fst (idx, td')). rewrite <- Hch.
    rewrite channel_loop_fst. lia. }
  assert (Htd' : td' = snd (channel_loop row height width i j 0 3 img_index td))
    by (rewrite Hch; reflexivity).
  destruct (Z.eq_dec j0 j) as [->|Hne].
  - rewrite column_loop_frame.
    + rewrite Htd'. rewrite (channel_loop_hit row height width i j 0 3
                               img_index td c0); try lia.
      f_equal. f_equal. f_equal. lia.
    + intros c' j' Hc' Hj' Heq.
      assert (Hz : planar height width c' i j' = planar height width c0 i j).
      { pose proof (planar_bound height width c' i j').
        pose proof (planar_bound height width c0 i j). lia. }
      apply planar_inj in Hz; lia.
  - rewrite (IH (j + 1) idx); try lia.
    + f_equal. f_equal. f_equal. lia.
    + rewrite Htd', channel_loop_length. exact Hlen.
Qed.

Lemma row_loop_length m height width i fuel td :
  length (row_loop m height width i fuel td) = length td.
Proof.
  revert i td.
  induction fuel as [|fuel IH]; intros i td; simpl; [reflexivity|].
  rewrite IH. apply column_loop_length.
Qed.

Lemma row_loop_frame m height width i fuel td (p : nat) :
  (forall c' i' j', 0 <= c' < 3 -> i <= i' < i + Z.of_nat fuel ->
                    0 <= j' < width ->
                    Z.to_nat (planar height width c' i' j') <> p) ->
  row_loop m height width i fuel td !! p = td !! p.
Proof.
  revert i td.
  induction fuel as [|fuel IH]; intros i td Hp; simpl; [reflexivity|].
  rewrite IH by (intros c' i' j' Hc' Hi' Hj'; apply Hp; lia).
  apply column_loop_frame. intros c' j' Hc' Hj'. apply Hp; lia.
Qed.

Lemma row_loop_hit m height width i fuel td c0 i0 j0 :
  0 <= i -> i + Z.of_nat fuel <= height ->
  0 <= c0 < 3 -> i <= i0 < i + Z.of_nat fuel -> 0 <= j0 < width ->
  (Z.to_nat (planar height width c0 i0 j0) < length td)%nat ->
  row_loop m height width i fuel td
    !! Z.to_nat (planar height width c0 i0 j0)
  = Some (normalize (ptr m i0 (3 * j0 + c0))).
Proof.
  revert i td.
  induction fuel as [|fuel IH]; intros i td Hi Hh Hc0 Hi0 Hj0 Hlen;
    simpl; [lia|].
  destruct (Z.eq_dec i0 i) as [->|Hne].
  - rewrite row_loop_frame.
    + rewrite (column_loop_hit (ptr m i) height width i 0 (Z.to_nat width)
                 0 td c0 j0); try lia.
      f_equal. f_equal. f_equal. lia.
    + intros c' i' j' Hc' Hi' Hj' Heq.
      assert (Hz : planar height width c' i' j' = planar height width c0 i j0).
      { pose proof (planar_bound height width c' i' j').
        pose proof (planar_bound height width c0 i j0). lia. }
      apply planar_inj in Hz; lia.
  - rewrite (IH (i + 1)); try lia.
    + reflexivity.
    + rewrite column_loop_length. exact Hlen.
Qed.

(** After [normalize_image], the value of channel [c] of the pixel in row
    [i] and column [j] sits at its planar place. *)
Lemma normalize_image_planar P m td c i j :
  0 <= c < 3 -> 0 <= i < bbtxt_height P -> 0 <= j < bbtxt_width P ->
  3 * bbtxt_height P * bbtxt_width P <= Z.of_nat (length td) ->
  read (normalize_image P m td) 0
       (planar (bbtxt_height P) (bbtxt_width P) c i j)
  = normalize (ptr m i (3 * j + c)).
Proof.
  intros Hc Hi Hj Hlen.
  pose proof (planar_bound (bbtxt_height P) (bbtxt_width P) c i j Hc Hi Hj).
  apply read_lookup. unfold normalize_image. simpl.
  apply row_loop_hit; lia.
Qed.

End Normalisation.

(** ** Normalisation (claim C6) *)

Section NormalisationClaim.

Context `{E : Externals}.

Lemma represents_eq x q q' :
  represents x q -> (q == q')%Q -> represents x q'.
Proof.
  intros (r & Hr & Hq) Heq. exists r. split; [exact Hr|].
  now rewrite Hq.
Qed.

Lemma normalize_normalize_in v : normalize v = normalize_in Dtype v.
Proof. reflexivity. Qed.

Lemma normalize_value v :
  Dtype = Float.binary32 \/ Dtype = Float.binary64 ->
  0 <= v <= 255 ->
  represents (normalize v) ((v - 128) # 128).
Proof.
  intros HD Hv. rewrite normalize_normalize_in.
  apply is_rational_spec. now apply normalize_in_exact.
Qed.

Lemma transformImage_inv P cv_img ti tl g ti' tl' g' :
  _transformImage P cv_img ti tl g = Ok (ti', tl', g') ->
  exists m,
    crop_and_resize P cv_img tl g = Ok (m, tl', g') /\
    rows m = axis ti 2 /\ cols m = axis ti 3 /\
    ti' = set_data ti (normalize_image P m (data ti)).
Proof.
  unfold _transformImage. intros H.
  destruct (channels cv_img =? 3); [|discriminate]. cbn [check bind] in H.
  destruct (crop_and_resize P cv_img tl g) as [[[m l] g1]|e]; [|discriminate].
  cbn [bind] in H.
  destruct (rows m =? axis ti 2) eqn:Hr; [|discriminate].
  destruct (cols m =? axis ti 3) eqn:Hc; [|discriminate].
  cbn [check bind] in H. injection H as <- <- <-.
  exists m. repeat split; auto; lia.
Qed.

(** C6.  Whatever branch produced the resized image [m], the blob that
    [_transformImage] fills is planar and channel-major, each of its values
    being [(v - 128) / 128] for the byte [v] of the pixel, a function of
    that byte alone which is exact for [float] and [double]: 0 gives -1,
    128 gives 0 and 255 gives 127/128, within 0.0001 of 0.9922. *)
Theorem C6_normalization_affine_planar P cv_img ti tl g ti' tl' g' :
  Dtype = Float.binary32 \/ Dtype = Float.binary64 ->
  axis ti 2 = bbtxt_height P ->
  axis ti 3 = bbtxt_width P ->
  3 * bbtxt_height P * bbtxt_width P <= Z.of_nat (length (data ti)) ->
  _transformImage P cv_img ti tl g = Ok (ti', tl', g') ->
  (exists m,
     crop_and_resize P cv_img tl g = Ok (m, tl', g') /\
     (Float.eqb (read (data tl) 0 0) minus_one = true ->
      resize cv_img (bbtxt_width P) (bbtxt_height P) = Ok m) /\
     rows m = bbtxt_height P /\ cols m = bbtxt_width P /\
     forall c i j,
       0 <= c < 3 -> 0 <= i < bbtxt_height P -> 0 <= j < bbtxt_width P ->
       read (data ti') 0 ((c * bbtxt_height P + i) * bbtxt_width P + j)
       = normalize (ptr m i (3 * j + c))) /\
  (forall v, 0 <= v <= 255 -> represents (normalize v) ((v - 128) # 128)) /\
  represents (normalize 0) (-1) /\
  represents (normalize 128) 0 /\
  represents (normalize 255) (127 # 128) /\
  ((9921 # 10000) < (127 # 128))%Q /\ ((127 # 128) < (9923 # 10000))%Q.
Proof.
  intros HD Hh Hw Hlen Hrun.
  split; [|split; [|split; [|split; [|split; [|split]]]]].
  - apply transformImage_inv in Hrun.
    destruct Hrun as (m & Hcrop & Hr & Hc & ->).
    exists m. split; [exact Hcrop|]. split; [|split; [lia|split; [lia|]]].
    + intros Hs. unfold crop_and_resize in Hcrop. rewrite Hs in Hcrop.
      destruct (resize cv_img (bbtxt_width P) (bbtxt_height P)) as [m'|];
        [|discriminate].
      cbn [bind] in Hcrop. now injection Hcrop as ->.
    + intros c i j Hc' Hi Hj.
      apply (normalize_image_planar P m (data ti) c i j Hc' Hi Hj Hlen).
  - intros v Hv. now apply normalize_value.
  - apply (represents_eq _ ((0 - 128) # 128)); [|reflexivity].
    apply (normalize_value 0 HD). lia.
  - apply (represents_eq _ ((128 - 128) # 128)); [|reflexivity].
    apply (normalize_value 128 HD). lia.
  - apply (represents_eq _ ((255 - 128) # 128)); [|reflexivity].
    apply (normalize_value 255 HD). lia.
  - reflexivity.
  - reflexivity.
Qed.

End NormalisationClaim.

Lemma C6_normalization_witness :
  exists ti', 
    read (data ti') 0 ((2 * 2 + 1) * 2 + 1)
    = normalize (E := Run.W0) 
        (World.nearest World.picture 2 2 1 (3 * 1 + 2)).
Proof.
  eexists.
  pose proof (C6_normalization_affine_planar (E := Run.W0) Run.P2 World.picture
                (Blob_new (E := Run.W0) [1; 3; 2; 2]) Run.no_boxes 7) as H.
  edestruct H as [(m & Hcrop & Hres & _ & _ & Hcell) _];
    [left; reflexivity | reflexivity | reflexivity
    | vm_compute; discriminate | vm_compute; reflexivity |].
  specialize (Hres eq_refl). injection Hres as <-.
  apply (Hcell 2 1 1); cbn; lia.
Defined.

(** ** The annotation file (claims C2, C9, C10) *)

Section Loading.

Context `{E : Externals}.

Lemma process_line_confidence st l1 l2 :
  same_but_confidence l1 l2 -> process_line st l1 = process_line st l2.
Proof.
  intros [Hlen Hent]. unfold process_line, new_image, store_bb.
  rewrite Hlen.
  rewrite (Hent 0%nat), (Hent 1%nat), (Hent 3%nat), (Hent 4%nat),
          (Hent 5%nat), (Hent 6%nat) by lia.
  reflexivity.
Qed.

Lemma read_lines_confidence st f1 f2 :
  Forall2 same_but_confidence f1 f2 -> read_lines st f1 = read_lines st f2.
Proof.
  intros H. revert st.
  induction H as [|l1 l2 f1 f2 Hl _ IH]; intros st; cbn [read_lines];
    [reflexivity|].
  rewrite (process_line_confidence st l1 l2 Hl).
  destruct (process_line st l2); cbn [bind]; [apply IH|reflexivity].
Qed.

Lemma read_lines_app st l1 l2 :
  read_lines st (l1 ++ l2)
  = (do st' <- read_lines st l1; read_lines st' l2).
Proof.
  revert st. induction l1 as [|l l1 IH]; intros st; cbn [read_lines app bind];
    [reflexivity|].
  destruct (process_line st l); cbn [bind]; [apply IH|reflexivity].
Qed.

Lemma update_back_snoc {A} (f : A -> A) (v : list A) (x : A) :
  update_back f (v ++ [x]) = v ++ [f x].
Proof.
  induction v as [|y v IH]; [reflexivity|].
  cbn [app update_back]. rewrite IH.
  destruct (v ++ [x]) eqn:Hv; [|reflexivity].
  destruct v; discriminate.
Qed.

Lemma update_back_length {A} (f : A -> A) (v : list A) :
  length (update_back f v) = length v.
Proof.
  induction v as [|y v IH]; [reflexivity|].
  cbn [update_back]. destruct v; [reflexivity|].
  cbn [length] in *. now rewrite IH.
Qed.

(** The warnings are only counted: a loader that has logged [n] more of
    them goes through a line in the same way. *)
Lemma process_line_warnings n st line :
  process_line (add_warnings n st) line
  = fmap_result (add_warnings n) (process_line st line).
Proof.
  unfold process_line. destruct (check _ _); cbn [bind fmap_result];
    [|reflexivity].
  unfold new_image. cbn [add_warnings ld_current_filename ld_images ld_i
                         ld_warnings].
  destruct (String.eqb _ _); cbn [bind].
  - unfold store_bb.
    cbn [add_warnings ld_current_filename ld_images ld_i ld_warnings].
    destruct (ld_i st <? _); [|reflexivity].
    destruct (check _ _); cbn [bind fmap_result]; [|reflexivity].
    repeat (destruct (Dtype_stof _); cbn [bind fmap_result]; [|reflexivity]).
    reflexivity.
  - destruct (check _ _); cbn [bind fmap_result]; [|reflexivity].
    unfold store_bb.
    cbn [add_warnings ld_current_filename ld_images ld_i ld_warnings].
    destruct (0 <? _); [|reflexivity].
    destruct (check _ _); cbn [bind fmap_result]; [|reflexivity].
    repeat (destruct (Dtype_stof _); cbn [bind fmap_result]; [|reflexivity]).
    reflexivity.
Qed.

Lemma read_lines_warnings n st lines :
  read_lines (add_warnings n st) lines
  = fmap_result (add_warnings n) (read_lines st lines).
Proof.
  revert st. induction lines as [|l lines IH]; intros st; cbn [read_lines];
    [reflexivity|].
  rewrite process_line_warnings.
  destruct (process_line st l); cbn [bind fmap_result]; [apply IH|reflexivity].
Qed.

(** A box for a full image entry is skipped, and that is all. *)
Lemma process_line_full st line :
  line_of (ld_current_filename st) line ->
  MAX_NUM_BBS_PER_IMAGE <= ld_i st ->
  process_line st line = Ok (add_warnings 1 st).
Proof.
  intros [Hlen Hname] Hi. unfold process_line. rewrite Hlen.
  cbn [Nat.eqb check bind]. unfold new_image. rewrite Hname, String.eqb_refl.
  cbn [bind]. unfold store_bb.
  destruct (ld_i st <? MAX_NUM_BBS_PER_IMAGE) eqn:Hlt; [lia|].
  unfold add_warnings. f_equal. f_equal. lia.
Qed.

Lemma read_lines_full st lines :
  Forall (line_of (ld_current_filename st)) lines ->
  MAX_NUM_BBS_PER_IMAGE <= ld_i st ->
  read_lines st lines = Ok (add_warnings (length lines) st).
Proof.
  intros H. revert st H.
  induction lines as [|l lines IH]; intros st H Hi; cbn [read_lines].
  - unfold add_warnings. destruct st; cbn. f_equal. f_equal. lia.
  - inversion H as [|? ? Hl Hrest]; subst.
    rewrite (process_line_full st l Hl Hi). cbn [bind].
    rewrite IH; [|exact Hrest|exact Hi].
    unfold add_warnings; cbn. f_equal. f_equal. lia.
Qed.

(** The counter and the current name after one line. *)
Lemma process_line_step st line st' :
  process_line st line = Ok st' ->
  ld_current_filename st' = entry (split line) 0 /\
  ld_i st' =
    (if String.eqb (ld_current_filename st) (entry (split line) 0)
     then if ld_i st <? MAX_NUM_BBS_PER_IMAGE then ld_i st + 1 else ld_i st
     else 1).
Proof.
  unfold process_line. destruct (check _ _); cbn [bind]; [|discriminate].
  unfold new_image.
  destruct (String.eqb (ld_current_filename st) (entry (split line) 0))
    eqn:Hname; cbn [bind].
  - apply String.eqb_eq in Hname. unfold store_bb.
    destruct (ld_i st <? MAX_NUM_BBS_PER_IMAGE).
    + destruct (check _ _); cbn [bind]; [|discriminate].
      repeat (destruct (Dtype_stof _); cbn [bind]; [|discriminate]).
      intros [= <-]. cbn. auto.
    + intros [= <-]. cbn. auto.
  - destruct (check _ _); cbn [bind]; [|discriminate].
    unfold store_bb. cbn [ld_i ld_images ld_current_filename ld_warnings].
    change (0 <? MAX_NUM_BBS_PER_IMAGE) with true. cbv iota.
    destruct (check _ _); cbn [bind]; [|discriminate].
    repeat (destruct (Dtype_stof _); cbn [bind]; [|discriminate]).
    intros [= <-]. cbn. auto.
Qed.

Lemma read_lines_filename st lines st' :
  read_lines st lines = Ok st' ->
  ld_current_filename st' =
    match last lines with
    | Some l => entry (split l) 0
    | None => ld_current_filename st
    end.
Proof.
  revert st. induction lines as [|l lines IH]; intros st; cbn [read_lines].
  - intros [= <-]. reflexivity.
  - destruct (process_line st l) as [st1|] eqn:H1; cbn [bind]; [|discriminate].
    intros H. rewrite (IH st1 H).
    destruct lines as [|l' lines']; [apply (process_line_step st l st1 H1)|].
    rewrite last_cons_cons.
    destruct (last (l' :: lines')) eqn:Hlast; [reflexivity|].
    apply last_None in Hlast. discriminate.
Qed.

(** Lines of the current file fill its entry up to the maximum. *)
Lemma read_lines_same_file st lines st' :
  Forall (line_of (ld_current_filename st)) lines ->
  ld_i st <= MAX_NUM_BBS_PER_IMAGE ->
  read_lines st lines = Ok st' ->
  ld_current_filename st' = ld_current_filename st /\
  ld_i st' = Z.min MAX_NUM_BBS_PER_IMAGE (ld_i st + Z.of_nat (length lines)).
Proof.
  intros H. revert st H.
  induction lines as [|l lines IH]; intros st H Hi; cbn [read_lines].
  - intros [= <-]. split; [reflexivity|]. cbn [length]. lia.
  - inversion H as [|? ? [Hlen Hname] Hrest]; subst.
    destruct (process_line st l) as [st1|] eqn:H1; cbn [bind]; [|discriminate].
    destruct (process_line_step st l st1 H1) as [Hn1 Hi1].
    rewrite Hname, String.eqb_refl in Hi1.
    intros Hrun. rewrite <- Hname, <- Hn1 in Hrest.
    apply IH in Hrun; [|exact Hrest|].
    + destruct Hrun as [-> ->]. split; [congruence|].
      rewrite Hi1. cbn [length].
      unfold MAX_NUM_BBS_PER_IMAGE in *.
      destruct (ld_i st <? 20) eqn:Hlt; lia.
    + rewrite Hi1. unfold MAX_NUM_BBS_PER_IMAGE in *.
      destruct (ld_i st <? 20) eqn:Hlt; lia.
Qed.

(** Twenty lines of a file that the loader is not in fill its entry. *)
Lemma read_lines_new_file st f lines st' :
  Forall (line_of f) lines ->
  length lines = 20%nat ->
  ld_current_filename st <> f ->
  read_lines st lines = Ok st' ->
  ld_current_filename st' = f /\ ld_i st' = MAX_NUM_BBS_PER_IMAGE.
Proof.
  intros H Hlen Hne.
  destruct lines as [|l lines]; [discriminate|].
  inversion H as [|? ? [Hl Hname] Hrest]; subst.
  cbn [read_lines].
  destruct (process_line st l) as [st1|] eqn:H1; cbn [bind]; [|discriminate].
  destruct (process_line_step st l st1 H1) as [Hn1 Hi1].
  apply String.eqb_neq in Hne. rewrite Hne in Hi1.
  intros Hrun. rewrite <- Hn1 in Hrest.
  apply read_lines_same_file in Hrun; [|exact Hrest|].
  - destruct Hrun as [-> ->]. split; [exact Hn1|].
    rewrite Hi1. cbn [length] in Hlen. unfold MAX_NUM_BBS_PER_IMAGE. lia.
  - rewrite Hi1. unfold MAX_NUM_BBS_PER_IMAGE. lia.
Qed.

(** *** What a line leaves in the label blob *)

Lemma bb_blob_offset b i : bb_blob b -> offset b i = 5 * i.
Proof.
  intros [Hs _]. unfold offset, offset4, axis. rewrite Hs. cbn [nth]. lia.
Qed.

Lemma bb_blob_new : bb_blob (Blob_new [MAX_NUM_BBS_PER_IMAGE; 5; 1; 1]).
Proof. split; [reflexivity|]. cbn. now rewrite length_replicate. Qed.

Lemma bb_blob_finalize i b : bb_blob b -> bb_blob (finalize i b).
Proof.
  intros [Hs Hl]. split; [exact Hs|]. cbn. now rewrite length_write.
Qed.

Lemma bb_blob_write_bb i l x1 y1 x2 y2 b :
  bb_blob b -> bb_blob (write_bb i l x1 y1 x2 y2 b).
Proof.
  intros [Hs Hl]. split; [exact Hs|]. cbn. now rewrite !length_write.
Qed.

Lemma write_bb_row i l x1 y1 x2 y2 b :
  bb_blob b -> 0 <= i < MAX_NUM_BBS_PER_IMAGE ->
  bb_row (write_bb i l x1 y1 x2 y2 b) i = [l; x1; y1; x2; y2].
Proof.
  intros Hb Hi. pose proof (bb_blob_write_bb i l x1 y1 x2 y2 b Hb) as Hb'.
  unfold bb_row. rewrite (bb_blob_offset _ i Hb').
  unfold write_bb. rewrite (bb_blob_offset _ i Hb). cbn [data set_data map].
  destruct Hb as [_ Hlen]. unfold MAX_NUM_BBS_PER_IMAGE in Hi.
  repeat first
    [ rewrite read_write_eq by (rewrite ?length_write; lia)
    | rewrite read_write_ne by lia ].
  reflexivity.
Qed.

Lemma Forall_update_back {A} (Q : A -> Prop) (f : A -> A) (v : list A) :
  (forall x, Q x -> Q (f x)) -> Forall Q v -> Forall Q (update_back f v).
Proof.
  intros Hf. induction 1 as [|x v Hx Hv IH]; [constructor|].
  cbn [update_back]. destruct v as [|y v].
  - constructor; [now apply Hf|constructor].
  - constructor; [exact Hx|exact IH].
Qed.

Lemma last_update_back {A} (f : A -> A) (v : list A) :
  last (update_back f v) = option_map f (last v).
Proof.
  destruct (last v) as [x|] eqn:Hlast.
  - apply last_Some in Hlast. destruct Hlast as [v' ->].
    rewrite update_back_snoc. apply last_snoc.
  - apply last_None in Hlast. now subst.
Qed.

Lemma wf_loader_start : wf_loader (Loader_start []).
Proof. split; [constructor|]. cbn. unfold MAX_NUM_BBS_PER_IMAGE. lia. Qed.

Lemma new_image_wf st data st' :
  wf_loader st -> new_image st data = Ok st' -> wf_loader st'.
Proof.
  intros [Himgs Hi]. unfold new_image.
  destruct (String.eqb _ _); [intros [= <-]; now split|].
  destruct (check _ _); cbn [bind]; [|discriminate].
  intros [= <-]. split; cbn; [|unfold MAX_NUM_BBS_PER_IMAGE; lia].
  apply Forall_app. split; [|constructor; [apply bb_blob_new|constructor]].
  destruct (_ && _); [|exact Himgs].
  apply Forall_update_back; [|exact Himgs].
  intros [n b] Hb. now apply bb_blob_finalize.
Qed.

(** A line that is stored, not skipped, puts its second and its last four
    entries, read by [std::stof], into the row of its box. *)
Lemma store_bb_row st data st' :
  wf_loader st -> store_bb st data = Ok st' ->
  wf_loader st' /\
  (ld_warnings st' = ld_warnings st ->
   exists name blob label xmin ymin xmax ymax,
     last (ld_images st') = Some (name, blob) /\
     option_map fst (last (ld_images st)) = Some name /\
     Dtype_stof (entry data 1) = Ok label /\
     Dtype_stof (entry data 3) = Ok xmin /\
     Dtype_stof (entry data 4) = Ok ymin /\
     Dtype_stof (entry data 5) = Ok xmax /\
     Dtype_stof (entry data 6) = Ok ymax /\
     bb_row blob (ld_i st' - 1) = [label; xmin; ymin; xmax; ymax]).
Proof.
  intros [Himgs Hi]. unfold store_bb.
  destruct (ld_i st <? MAX_NUM_BBS_PER_IMAGE) eqn:Hlt.
  - destruct (check _ _) eqn:Hne; cbn [bind]; [|discriminate].
    destruct (Dtype_stof (entry data 1)) as [label|]; cbn [bind];
      [|discriminate].
    destruct (Dtype_stof (entry data 3)) as [xmin|]; cbn [bind];
      [|discriminate].
    destruct (Dtype_stof (entry data 4)) as [ymin|]; cbn [bind];
      [|discriminate].
    destruct (Dtype_stof (entry data 5)) as [xmax|]; cbn [bind];
      [|discriminate].
    destruct (Dtype_stof (entry data 6)) as [ymax|]; cbn [bind];
      [|discriminate].
    intros [= <-]. split.
    + split; cbn; [|lia].
      apply Forall_update_back; [|exact Himgs].
      intros [n b] Hb. now apply bb_blob_write_bb.
    + intros _. cbn [ld_images ld_i].
      destruct (last (ld_images st)) as [[name b]|] eqn:Hlast.
      * assert (Hb : bb_blob b).
        { apply last_Some in Hlast. destruct Hlast as [v' Hv'].
          rewrite Hv' in Himgs. apply Forall_app in Himgs.
          destruct Himgs as [_ Hb]. now inversion Hb. }
        exists name, (write_bb (ld_i st) label xmin ymin xmax ymax b),
               label, xmin, ymin, xmax, ymax.
        rewrite last_update_back, Hlast. cbn [option_map on_blob fst snd].
        repeat split; try reflexivity.
        replace (ld_i st + 1 - 1) with (ld_i st) by lia.
        apply write_bb_row; [exact Hb|lia].
      * apply last_None in Hlast. rewrite Hlast in Hne. discriminate.
  - intros [= <-]. split; [now split|]. cbn. lia.
Qed.

Lemma process_line_wf st line st' :
  wf_loader st -> process_line st line = Ok st' -> wf_loader st'.
Proof.
  intros Hwf. unfold process_line.
  destruct (check _ _); cbn [bind]; [|discriminate].
  destruct (new_image st (split line)) as [st1|] eqn:H1; cbn [bind];
    [|discriminate].
  intros H2. apply (store_bb_row st1 (split line) st'); [|exact H2].
  now apply (new_image_wf st (split line)).
Qed.

Lemma read_lines_wf st lines st' :
  wf_loader st -> read_lines st lines = Ok st' -> wf_loader st'.
Proof.
  revert st. induction lines as [|l lines IH]; intros st Hwf;
    cbn [read_lines]; [now intros [= <-]|].
  destruct (process_line st l) as [st1|] eqn:H1; cbn [bind]; [|discriminate].
  apply IH. now apply (process_line_wf st l).
Qed.

Lemma new_image_warnings st data st' :
  new_image st data = Ok st' -> ld_warnings st' = ld_warnings st.
Proof.
  unfold new_image. destruct (String.eqb _ _); [now intros [= <-]|].
  destruct (check _ _); cbn [bind]; [|discriminate].
  now intros [= <-].
Qed.

(** C10.  The third entry of a line is never looked at: files whose lines
    differ in it only are read to the same result; and the row of a box
    that is stored holds what [std::stof] reads in the second, fourth,
    fifth, sixth and seventh entry of its line, in this order. *)
Theorem C10_confidence_is_not_stored :
  (forall source1 source2 f1 f2 imgs,
     ifstream source1 = Some f1 ->
     ifstream source2 = Some f2 ->
     Forall2 same_but_confidence f1 f2 ->
     _loadBBTXTFile source1 imgs = _loadBBTXTFile source2 imgs) /\
  (forall pre line st st',
     read_lines (Loader_start []) pre = Ok st ->
     process_line st line = Ok st' ->
     ld_warnings st' = ld_warnings st ->
     exists name blob label xmin ymin xmax ymax,
       last (ld_images st') = Some (name, blob) /\
       Dtype_stof (entry (split line) 1) = Ok label /\
       Dtype_stof (entry (split line) 3) = Ok xmin /\
       Dtype_stof (entry (split line) 4) = Ok ymin /\
       Dtype_stof (entry (split line) 5) = Ok xmax /\
       Dtype_stof (entry (split line) 6) = Ok ymax /\
       bb_row blob (ld_i st' - 1) = [label; xmin; ymin; xmax; ymax]).
Proof.
  split.
  - intros source1 source2 f1 f2 imgs H1 H2 Hsame.
    unfold _loadBBTXTFile. rewrite H1, H2. cbn [of_option bind].
    now rewrite (read_lines_confidence _ f1 f2 Hsame).
  - intros pre line st st' Hpre Hline Hw.
    apply read_lines_wf in Hpre; [|apply wf_loader_start].
    unfold process_line in Hline.
    destruct (check _ _); cbn [bind] in Hline; [|discriminate].
    destruct (new_image st (split line)) as [st1|] eqn:H1; cbn [bind] in Hline;
      [|discriminate].
    pose proof (new_image_wf st _ st1 Hpre H1) as Hwf1.
    rewrite <- (new_image_warnings st _ st1 H1) in Hw.
    destruct (store_bb_row st1 (split line) st' Hwf1 Hline) as [_ Hrow].
    destruct (Hrow Hw)
      as (name & blob & label & xmin & ymin & xmax & ymax
          & Hlast & _ & Hl & Hx1 & Hy1 & Hx2 & Hy2 & Hr).
    exists name, blob, label, xmin, ymin, xmax, ymax. auto 10.
Qed.

End Loading.

Lemma C10_confidence_witness :
  _loadBBTXTFile (E := Run.W0) "sure.bbtxt" []
  = _loadBBTXTFile (E := Run.W0) "unsure.bbtxt" [] /\
  exists name blob label xmin ymin xmax ymax,
    last (ld_images Run.one_line) = Some (name, blob) /\
    Dtype_stof (E := Run.W0) "2" = Ok label /\
    Dtype_stof (E := Run.W0) "10" = Ok xmin /\
    Dtype_stof (E := Run.W0) "10" = Ok ymin /\
    Dtype_stof (E := Run.W0) "50" = Ok xmax /\
    Dtype_stof (E := Run.W0) "50" = Ok ymax /\
    bb_row blob (ld_i Run.one_line - 1) = [label; xmin; ymin; xmax; ymax].
Proof.
  destruct (C10_confidence_is_not_stored (E := Run.W0)) as [Hsame Hrow].
  split.
  - eapply Hsame; [reflexivity|reflexivity|].
    repeat (apply List.Forall2_cons;
            [split; [reflexivity|
                     intros [|[|[|[|[|[|[|k]]]]]]] Hk;
                     try reflexivity; congruence]|]).
    apply List.Forall2_nil.
  - apply (Hrow [] "img1.jpg 2 1.0 10 10 50 50"%string (Loader_start [])
                Run.one_line); reflexivity.
Defined.

Section LastRecord.

Context `{E : Externals}.

Lemma new_image_untouched st d st' :
  wf_loader st -> rest_untouched st ->
  new_image st d = Ok st' -> rest_untouched st'.
Proof.
  intros Hwf Hun. unfold new_image.
  destruct (String.eqb _ _); [now intros [= <-]|].
  destruct (check _ _); cbn [bind]; [|discriminate].
  intros [= <-] name blob. cbn [ld_images ld_i]. rewrite last_snoc.
  intros [= <- <-] k Hk. cbn [Blob_new data].
  apply lookup_replicate_2.
  change (k < 100)%nat. lia.
Qed.

Lemma store_bb_untouched st d st' :
  wf_loader st -> rest_untouched st ->
  store_bb st d = Ok st' -> rest_untouched st'.
Proof.
  intros [Himgs Hi] Hun. unfold store_bb.
  destruct (ld_i st <? MAX_NUM_BBS_PER_IMAGE) eqn:Hlt.
  - destruct (check _ _); cbn [bind]; [|discriminate].
    repeat (destruct (Dtype_stof _); cbn [bind]; [|discriminate]).
    intros [= <-] name blob. cbn [ld_images ld_i].
    rewrite last_update_back.
    destruct (last (ld_images st)) as [[n b]|] eqn:Hlast; [|discriminate].
    cbn [option_map on_blob fst snd]. intros [= <- <-] k Hk.
    assert (Hb : bb_blob b).
    { apply last_Some in Hlast. destruct Hlast as [v' Hv'].
      rewrite Hv' in Himgs. apply Forall_app in Himgs.
      destruct Himgs as [_ Hb]. now inversion Hb. }
    unfold write_bb. rewrite (bb_blob_offset b _ Hb). cbn [data set_data].
    rewrite !lookup_write_ne by lia.
    apply (Hun n b Hlast). lia.
  - now intros [= <-].
Qed.

Lemma read_lines_untouched st lines st' :
  wf_loader st -> rest_untouched st ->
  read_lines st lines = Ok st' -> rest_untouched st'.
Proof.
  revert st. induction lines as [|l lines IH]; intros st Hwf Hun;
    cbn [read_lines]; [now intros [= <-]|].
  destruct (process_line st l) as [st1|] eqn:H1; cbn [bind]; [|discriminate].
  apply IH; [now apply (process_line_wf st l)|].
  unfold process_line in H1.
  destruct (check _ _); cbn [bind] in H1; [|discriminate].
  destruct (new_image st (split l)) as [st0|] eqn:H0; cbn [bind] in H1;
    [|discriminate].
  apply (store_bb_untouched st0 (split l));
    [now apply (new_image_wf st (split l))| |exact H1].
  now apply (new_image_untouched st (split l)).
Qed.

(** When the end of the file is reached, the label after the last box of
    the last image is what the blob held when it was allocated: nothing
    has put -1 there. *)
Lemma no_sentinel_at_end_of_file source imgs w name blob :
  _loadBBTXTFile source [] = Ok (imgs, w) ->
  last imgs = Some (name, blob) ->
  exists st,
    ld_images st = imgs /\
    (ld_i st < MAX_NUM_BBS_PER_IMAGE ->
     read (data blob) (offset blob (ld_i st)) 0 = blob_init).
Proof.
  unfold _loadBBTXTFile.
  destruct (ifstream source) as [lines|]; cbn [of_option bind]; [|discriminate].
  destruct (read_lines (Loader_start []) lines) as [st|] eqn:Hrun;
    cbn [bind]; [|discriminate].
  intros [= <- <-] Hlast. exists st. split; [reflexivity|]. intros Hi.
  pose proof (read_lines_wf _ _ _ wf_loader_start Hrun) as [Himgs Hi0].
  assert (Hb : bb_blob blob).
  { apply last_Some in Hlast. destruct Hlast as [v' Hv'].
    rewrite Hv' in Himgs. apply Forall_app in Himgs.
    destruct Himgs as [_ Hb]. now inversion Hb. }
  rewrite (bb_blob_offset blob _ Hb). apply read_lookup.
  apply (read_lines_untouched _ _ _ wf_loader_start) in Hrun.
  - apply (Hrun name blob Hlast). unfold MAX_NUM_BBS_PER_IMAGE in *. lia.
  - intros n b. cbn. discriminate.
Qed.

End LastRecord.

(** C2, on the example of the specification: the first image is closed
    by a label -1 after its two boxes when the name of the second image
    is read, but nothing closes the second image at the end of the file.
    The label after its only box is the 0 of the fresh blob, and [numBBs]
    counts 20 boxes. *)
Theorem C2_last_image_is_not_finalized :
  exists blob1 blob2,
    _loadBBTXTFile (E := Run.W0) "spec.bbtxt" []
    = Ok ([("img1.jpg"%string, blob1); ("img2.jpg"%string, blob2)], O) /\
    read (data blob1) (offset blob1 2) 0 = minus_one (E := Run.W0) /\
    numBBs (E := Run.W0) (label_view blob1) = 2 /\
    read (data blob2) (offset blob2 1) 0 = S754_zero false /\
    Float.eqb (read (data blob2) (offset blob2 1) 0) (minus_one (E := Run.W0))
    = false /\
    numBBs (E := Run.W0) (label_view blob2) = 20.
Proof.
  eexists. eexists. split; [vm_compute; reflexivity|].
  repeat split; vm_compute; reflexivity.
Qed.

(** ** Padding and cropping (claim C5) *)

Section Padding.

Lemma interleaved_div j k : 0 <= k < 3 -> (j * 3 + k) / 3 = j.
Proof. intros Hk. symmetry. apply (Z.div_unique _ 3 j k); lia. Qed.

Lemma interleaved_mod j k : 0 <= k < 3 -> (j * 3 + k) mod 3 = k.
Proof. intros Hk. symmetry. apply (Z.mod_unique _ 3 j k); lia. Qed.

Lemma border_left_eq c :
  border_left c
  = if left_fits c then Ok (Z.max 0 (- crop_x c)) else Fatal UndefinedBehaviour.
Proof.
  unfold border_left, left_fits, int.
  destruct (Z.ltb_spec (crop_x c) 0), (Z.leb_spec 0 (crop_x c)); try lia;
    cbn [orb].
  - destruct (in_int (- crop_x c)); cbn [check bind]; [|reflexivity].
    f_equal. lia.
  - f_equal. lia.
Qed.

Lemma border_top_eq c :
  border_top c
  = if top_fits c then Ok (Z.max 0 (- crop_y c)) else Fatal UndefinedBehaviour.
Proof.
  unfold border_top, top_fits, int.
  destruct (Z.ltb_spec (crop_y c) 0), (Z.leb_spec 0 (crop_y c)); try lia;
    cbn [orb].
  - destruct (in_int (- crop_y c)); cbn [check bind]; [|reflexivity].
    f_equal. lia.
  - f_equal. lia.
Qed.

Lemma border_right_eq c cv_img :
  border_right c cv_img
  = if right_fits c cv_img
    then Ok (Z.max 0 (crop_x c + crop_width c - cols cv_img))
    else Fatal UndefinedBehaviour.
Proof.
  unfold border_right, right_fits, int.
  destruct (in_int (crop_x c + crop_width c)); cbn [check bind andb];
    [|reflexivity].
  destruct (Z.ltb_spec (cols cv_img) (crop_x c + crop_width c)),
           (Z.leb_spec (crop_x c + crop_width c) (cols cv_img)); try lia;
    cbn [orb].
  - destruct (in_int (crop_x c + crop_width c - cols cv_img));
      cbn [check bind]; [|reflexivity].
    f_equal. lia.
  - f_equal. lia.
Qed.

Lemma border_bottom_eq c cv_img :
  border_bottom c cv_img
  = if bottom_fits c cv_img
    then Ok (Z.max 0 (crop_y c + crop_height c - rows cv_img))
    else Fatal UndefinedBehaviour.
Proof.
  unfold border_bottom, bottom_fits, int.
  destruct (in_int (crop_y c + crop_height c)); cbn [check bind andb];
    [|reflexivity].
  destruct (Z.ltb_spec (rows cv_img) (crop_y c + crop_height c)),
           (Z.leb_spec (crop_y c + crop_height c) (rows cv_img)); try lia;
    cbn [orb].
  - destruct (in_int (crop_y c + crop_height c - rows cv_img));
      cbn [check bind]; [|reflexivity].
    f_equal. lia.
  - f_equal. lia.
Qed.

(** The padding stops exactly when one of the [int] computations of the
    borders overflows. *)
Lemma pad_eq cv_img c :
  pad cv_img c =
  if no_overflow cv_img c then
    let bl := Z.max 0 (- crop_x c) in
    let bt := Z.max 0 (- crop_y c) in
    let br := Z.max 0 (crop_x c + crop_width c - cols cv_img) in
    let bb := Z.max 0 (crop_y c + crop_height c - rows cv_img) in
    Ok (bl, bt,
        {| rows := rows cv_img + bt + bb;
           cols := cols cv_img + bl + br;
           channels := channels cv_img;
           ptr := fun i k =>
             ptr cv_img
               (clamp 0 (rows cv_img - 1) (i - bt))
               (clamp 0 (cols cv_img - 1) (k / channels cv_img - bl)
                  * channels cv_img + k mod channels cv_img) |})
  else Fatal UndefinedBehaviour.
Proof.
  unfold pad, no_overflow.
  rewrite border_left_eq, border_top_eq, border_right_eq, border_bottom_eq.
  destruct (left_fits c), (top_fits c), (right_fits c cv_img),
           (bottom_fits c cv_img); cbn [andb bind]; try reflexivity.
  unfold copyMakeBorder.
  repeat match goal with
         | |- context [0 <=? Z.max 0 ?z] =>
             replace (0 <=? Z.max 0 z) with true
               by (symmetry; apply Z.leb_le; lia)
         end.
  reflexivity.
Qed.


Lemma roi_inside cv_img c :
  0 <= crop_width c -> 0 <= crop_height c ->
  let bl := Z.max 0 (- crop_x c) in
  let bt := Z.max 0 (- crop_y c) in
  let br := Z.max 0 (crop_x c + crop_width c - cols cv_img) in
  let bb := Z.max 0 (crop_y c + crop_height c - rows cv_img) in
  (0 <=? crop_x c + bl) && (0 <=? crop_width c) &&
  (crop_x c + bl + crop_width c <=? cols cv_img + bl + br) &&
  (0 <=? crop_y c + bt) && (0 <=? crop_height c) &&
  (crop_y c + bt + crop_height c <=? rows cv_img + bt + bb) = true.
Proof.
  intros Hw Hh. cbn zeta.
  repeat (apply andb_true_intro; split); apply Z.leb_le; lia.
Qed.

(** The crop out of the padded image succeeds for every window whose
    width and height are not negative and whose borders are within
    [int]. *)
Lemma pad_and_crop_ok cv_img c :
  no_overflow cv_img c = true ->
  0 <= crop_width c -> 0 <= crop_height c ->
  let bl := Z.max 0 (- crop_x c) in
  let bt := Z.max 0 (- crop_y c) in
  pad_and_crop cv_img c =
  Ok {| rows := crop_height c; cols := crop_width c;
        channels := channels cv_img;
        ptr := fun i k =>
          ptr cv_img
            (clamp 0 (rows cv_img - 1) (crop_y c + bt + i - bt))
            (clamp 0 (cols cv_img - 1)
               (((crop_x c + bl) * channels cv_img + k)
                  / channels cv_img - bl)
             * channels cv_img
             + ((crop_x c + bl) * channels cv_img + k)
                 mod channels cv_img) |}.
Proof.
  intros Hfit Hw Hh. cbn zeta. unfold pad_and_crop.
  rewrite pad_eq, Hfit. cbn zeta. cbn [bind].
  unfold roi. cbn [rows cols channels ptr].
  rewrite (roi_inside cv_img c Hw Hh). reflexivity.
Qed.


End Padding.



(** ** The labels after the crop (claim C4) *)

Section Remapping.

Context `{E : Externals}.

Lemma label_blob_offset lbl b : label_blob lbl -> offset2 lbl 0 b = 5 * b.
Proof.
  intros [Hs _]. unfold offset2, offset4, axis. rewrite Hs. cbn [nth]. lia.
Qed.

Lemma label_blob_axis lbl : label_blob lbl -> axis lbl 1 = 20.
Proof. intros [Hs _]. unfold axis. now rewrite Hs. Qed.

Lemma update_bb_length c sx sy d off :
  length (update_bb c sx sy d off) = length d.
Proof.
  unfold update_bb, sub_assign, mul_assign. now rewrite !length_write.
Qed.

Lemma update_bb_read c sx sy d off k :
  0 <= off -> (Z.to_nat (off + 4) < length d)%nat -> 0 <= k <= 4 ->
  read (update_bb c sx sy d off) off k = remapped c sx sy k (read d off k).
Proof.
  intros Hoff Hlen Hk. unfold update_bb, sub_assign, mul_assign.
  assert (Hcases : k = 0 \/ k = 1 \/ k = 2 \/ k = 3 \/ k = 4) by lia.
  destruct Hcases as [->|[->|[->|[->| ->]]]]; unfold remapped; cbn [Z.eqb Z.odd];
    repeat first
      [ rewrite read_write_eq by (rewrite ?length_write; lia)
      | rewrite read_write_ne by lia ];
    reflexivity.
Qed.

Lemma update_bb_frame c sx sy d off off' k' :
  0 <= off ->
  (Z.to_nat (off' + k') <= Z.to_nat off \/
   Z.to_nat (off + 4) < Z.to_nat (off' + k'))%nat ->
  read (update_bb c sx sy d off) off' k' = read d off' k'.
Proof.
  intros Hoff Hout. unfold update_bb, sub_assign, mul_assign.
  rewrite !read_write_ne by lia. reflexivity.
Qed.

Lemma update_bbs_length lbl c sx sy d b fuel :
  length (update_bbs lbl c sx sy d b fuel) = length d.
Proof.
  revert d b. induction fuel as [|fuel IH]; intros d b; cbn [update_bbs];
    [reflexivity|].
  rewrite IH. apply update_bb_length.
Qed.

(** The loop changes the boxes it visits, each of them once, and no
    other. *)
Lemma update_bbs_read lbl c sx sy d b0 fuel b k :
  label_blob lbl -> 0 <= b0 ->
  5 * (b0 + Z.of_nat fuel) <= Z.of_nat (length d) ->
  0 <= b -> 0 <= k <= 4 ->
  read (update_bbs lbl c sx sy d b0 fuel) (5 * b) k
  = if (b0 <=? b) && (b <? b0 + Z.of_nat fuel)
    then remapped c sx sy k (read d (5 * b) k)
    else read d (5 * b) k.
Proof.
  intros Hlbl. revert d b0.
  induction fuel as [|fuel IH]; intros d b0 Hb0 Hlen Hb Hk; cbn [update_bbs].
  - destruct (Z.leb_spec b0 b), (Z.ltb_spec b (b0 + Z.of_nat 0));
      cbn [andb]; try reflexivity; lia.
  - rewrite IH; [|lia|rewrite update_bb_length; lia|lia|lia].
    rewrite (label_blob_offset lbl b0 Hlbl).
    destruct (Z.eq_dec b b0) as [->|Hne].
    + rewrite update_bb_read by lia.
      destruct (Z.leb_spec (b0 + 1) b0), (Z.leb_spec b0 b0),
               (Z.ltb_spec b0 (b0 + 1 + Z.of_nat fuel)),
               (Z.ltb_spec b0 (b0 + Z.of_nat (S fuel)));
        cbn [andb]; try reflexivity; lia.
    + rewrite update_bb_frame by lia.
      destruct (Z.leb_spec (b0 + 1) b), (Z.leb_spec b0 b),
               (Z.ltb_spec b (b0 + 1 + Z.of_nat fuel)),
               (Z.ltb_spec b (b0 + Z.of_nat (S fuel)));
        cbn [andb]; try reflexivity; lia.
Qed.

(** [numBBs] is the index of the first box labelled -1, and 20 when
    there is none. *)
Lemma numBBs_loop_spec lbl i fuel :
  i + Z.of_nat fuel = axis lbl 1 ->
  let n := numBBs_loop lbl i fuel in
  i <= n <= axis lbl 1 /\
  (forall b, i <= b < n ->
     Float.eqb (read (data lbl) (offset2 lbl 0 b) 0) minus_one = false) /\
  (n < axis lbl 1 ->
     Float.eqb (read (data lbl) (offset2 lbl 0 n) 0) minus_one = true).
Proof.
  revert i. induction fuel as [|fuel IH]; intros i Hi; cbn [numBBs_loop].
  - cbn zeta. split; [lia|]. split; [intros b Hb; lia|intros Hn; lia].
  - destruct (Float.eqb (read (data lbl) (offset2 lbl 0 i) 0) minus_one) eqn:Hs.
    + cbn zeta. split; [lia|]. split; [intros b Hb; lia|intros _; exact Hs].
    + destruct (IH (i + 1)) as (Hn & Hreal & Hend); [lia|].
      cbn zeta. split; [lia|]. split; [|exact Hend].
      intros b Hb. destruct (Z.eq_dec b i) as [->|Hne]; [exact Hs|].
      apply Hreal. lia.
Qed.

Lemma numBBs_spec lbl :
  0 <= axis lbl 1 ->
  0 <= numBBs lbl <= axis lbl 1 /\
  (forall b, 0 <= b < numBBs lbl ->
     Float.eqb (read (data lbl) (offset2 lbl 0 b) 0) minus_one = false) /\
  (numBBs lbl < axis lbl 1 ->
     Float.eqb (read (data lbl) (offset2 lbl 0 (numBBs lbl)) 0) minus_one
     = true).
Proof.
  intros Hax. apply (numBBs_loop_spec lbl 0 (Z.to_nat (axis lbl 1))). lia.
Qed.

Lemma crop_and_resize_boxes P cv_img lbl g m lbl' g' :
  Float.eqb (read (data lbl) 0 0) minus_one = false ->
  crop_and_resize P cv_img lbl g = Ok (m, lbl', g') ->
  exists bb_id c cropped,
    select_crop P lbl g = Ok (bb_id, c, g') /\
    pad_and_crop cv_img c = Ok cropped /\
    resize cropped (bbtxt_width P) (bbtxt_height P) = Ok m /\
    lbl' = remap_labels P lbl c.
Proof.
  intros Hbox. unfold crop_and_resize. rewrite Hbox.
  destruct (select_crop P lbl g) as [[[bb_id c] g1]|]; cbn [bind];
    [|discriminate].
  destruct (pad_and_crop cv_img c) as [cropped|] eqn:Hpad; cbn [bind];
    [|discriminate].
  destruct (resize cropped (bbtxt_width P) (bbtxt_height P)) as [m1|] eqn:Hres;
    cbn [bind]; [|discriminate].
  intros [= <- <- <-]. exists bb_id, c, cropped. auto.
Qed.

(** In the box branch the image is cropped and resized whenever the
    crop could be selected, its borders are within [int], and the crop and
    the network input have a positive size. *)
Lemma crop_and_resize_returns P cv_img lbl g bb_id c g' :
  Float.eqb (read (data lbl) 0 0) minus_one = false ->
  select_crop P lbl g = Ok (bb_id, c, g') ->
  no_overflow cv_img c = true ->
  0 < crop_width c -> 0 < crop_height c ->
  0 < bbtxt_width P -> 0 < bbtxt_height P ->
  exists m,
    crop_and_resize P cv_img lbl g = Ok (m, remap_labels P lbl c, g').
Proof.
  intros Hbox Hsel Hfit Hcw Hch Hw Hh. unfold crop_and_resize.
  rewrite Hbox, Hsel. cbn [bind].
  rewrite (pad_and_crop_ok cv_img c Hfit) by lia. cbn [bind].
  unfold resize, empty. cbn [rows cols].
  replace (crop_height c <=? 0) with false by (symmetry; apply Z.leb_gt; lia).
  replace (crop_width c <=? 0) with false by (symmetry; apply Z.leb_gt; lia).
  replace (0 <? bbtxt_width P) with true by (symmetry; apply Z.ltb_lt; lia).
  replace (0 <? bbtxt_height P) with true by (symmetry; apply Z.ltb_lt; lia).
  cbn [negb orb andb check bind]. eexists. reflexivity.
Qed.

(** C4.  In the box branch every box before the first label -1 gets its
    four coordinates moved by the origin of the crop and then multiplied
    by [float(width) / crop_width] or [float(height) / crop_height]; its
    label, all other entries and the size of the blob stay as they are,
    and nothing bounds the results. *)
Theorem C4_every_box_is_remapped P cv_img lbl g m lbl' g' :
  label_blob lbl ->
  Float.eqb (read (data lbl) 0 0) minus_one = false ->
  crop_and_resize P cv_img lbl g = Ok (m, lbl', g') ->
  exists bb_id c,
    select_crop P lbl g = Ok (bb_id, c, g') /\
    label_blob lbl' /\
    0 <= numBBs lbl <= 20 /\
    (forall b, 0 <= b < numBBs lbl ->
       Float.eqb (read (data lbl) (offset2 lbl 0 b) 0) minus_one = false) /\
    forall b, 0 <= b < 20 ->
      let old := read (data lbl) (offset2 lbl 0 b) in
      let new := read (data lbl') (offset2 lbl' 0 b) in
      let dx := Float.of_int Dtype (crop_x c) in
      let dy := Float.of_int Dtype (crop_y c) in
      let x_scaling :=
        to_Dtype (Float.div Float.binary32
                    (Float.of_int Float.binary32 (bbtxt_width P))
                    (Float.of_int Float.binary32 (crop_width c))) in
      let y_scaling :=
        to_Dtype (Float.div Float.binary32
                    (Float.of_int Float.binary32 (bbtxt_height P))
                    (Float.of_int Float.binary32 (crop_height c))) in
      new 0 = old 0 /\
      if b <? numBBs lbl then
        new 1 = Dmul (Dsub (old 1) dx) x_scaling /\
        new 2 = Dmul (Dsub (old 2) dy) y_scaling /\
        new 3 = Dmul (Dsub (old 3) dx) x_scaling /\
        new 4 = Dmul (Dsub (old 4) dy) y_scaling
      else
        new 1 = old 1 /\ new 2 = old 2 /\ new 3 = old 3 /\ new 4 = old 4.
Proof.
  intros Hlbl Hbox Hrun.
  destruct (crop_and_resize_boxes P cv_img lbl g m lbl' g' Hbox Hrun)
    as (bb_id & c & cropped & Hsel & _ & _ & ->).
  exists bb_id, c. split; [exact Hsel|].
  pose proof (label_blob_axis lbl Hlbl) as Hax.
  destruct (numBBs_spec lbl) as (Hn & Hreal & _); [lia|]. rewrite Hax in Hn.
  assert (Hlbl' : label_blob (remap_labels P lbl c)).
  { destruct Hlbl as [Hs Hl]. split; [exact Hs|].
    unfold remap_labels. cbn [data set_data].
    now rewrite update_bbs_length. }
  split; [exact Hlbl'|]. split; [exact Hn|]. split; [exact Hreal|].
  intros b Hb. cbn zeta.
  rewrite (label_blob_offset _ b Hlbl), (label_blob_offset _ b Hlbl').
  unfold remap_labels. cbn [data set_data].
  destruct Hlbl as [_ Hlen].
  assert (Hread : forall k, 0 <= k <= 4 ->
            read (update_bbs lbl c (scaling (bbtxt_width P) (crop_width c))
                    (scaling (bbtxt_height P) (crop_height c)) (data lbl) 0
                    (Z.to_nat (numBBs lbl))) (5 * b) k
            = if b <? numBBs lbl
              then remapped c (scaling (bbtxt_width P) (crop_width c))
                     (scaling (bbtxt_height P) (crop_height c)) k
                     (read (data lbl) (5 * b) k)
              else read (data lbl) (5 * b) k).
  { intros k Hk. rewrite update_bbs_read; try lia; [|split; [|exact Hlen]].
    - rewrite Z2Nat.id by lia. cbn [Z.add].
      destruct (Z.leb_spec 0 b); [reflexivity|lia].
    - destruct Hlbl' as [Hs _]. exact Hs. }
  rewrite !Hread by lia.
  destruct (b <? numBBs lbl); unfold remapped; cbn [Z.eqb Z.odd]; auto.
Qed.

End Remapping.

Lemma C4_every_box_witness :
  exists m lbl' g' bb_id c,
    crop_and_resize (E := Run.W0) Run.P2 World.picture Run.two_boxes 7
    = Ok (m, lbl', g') /\
    select_crop (E := Run.W0) Run.P2 Run.two_boxes 7 = Ok (bb_id, c, g') /\
    label_blob lbl' /\
    read (data lbl') (offset2 lbl' 0 1) 3
    = Dmul (E := Run.W0)
        (Dsub (E := Run.W0) (Float.of_int Float.binary32 90)
              (Float.of_int Float.binary32 (crop_x c)))
        (scaling (E := Run.W0) 2 (crop_width c)).
Proof.
  assert (Hbox : Float.eqb (read (data Run.two_boxes) 0 0)
                           (minus_one (E := Run.W0)) = false)
    by (vm_compute; reflexivity).
  assert (Hsel0 : select_crop (E := Run.W0) Run.P2 Run.two_boxes 7
                  = Ok (0, {| crop_x := -5; crop_y := 9;
                              crop_width := 80; crop_height := 80 |},
                        712265938))
    by (vm_compute; reflexivity).
  destruct (crop_and_resize_returns (E := Run.W0) Run.P2 World.picture
              Run.two_boxes 7 _ _ _ Hbox Hsel0) as [m Hrun];
    [reflexivity|reflexivity|reflexivity|reflexivity|reflexivity|].
  set (lbl' := remap_labels (E := Run.W0) Run.P2 Run.two_boxes _) in Hrun.
  set (g' := 712265938) in Hrun.
  destruct (C4_every_box_is_remapped (E := Run.W0) Run.P2 World.picture
              Run.two_boxes 7 m lbl' g')
    as (bb_id & c & Hsel & Hlbl' & Hn & Hreal & Hrows);
    [split; vm_compute; reflexivity|exact Hbox|exact Hrun|].
  exists m, lbl', g', bb_id, c.
  split; [exact Hrun|]. split; [exact Hsel|]. split; [exact Hlbl'|].
  destruct (Hrows 1) as [_ Hrow]; [lia|].
  replace (1 <? numBBs (E := Run.W0) Run.two_boxes) with true in Hrow
    by (vm_compute; reflexivity).
  destruct Hrow as (_ & _ & H3 & _).
  replace (Float.of_int Float.binary32 90)
    with (read (data Run.two_boxes) (offset2 Run.two_boxes 0 1) 3)
    by (vm_compute; reflexivity).
  exact H3.
Defined.

(** ** The crop window (claims C1 and C3) *)

Section CropWindow.

Context `{E : Externals}.

(** The steps of [select_crop], one by one. *)
Lemma select_crop_steps P lbl g bb_id c g' :
  let d := data lbl in
  let bb := offset2 lbl 0 bb_id in
  let w := Dsub (read d bb 3) (read d bb 1) in
  let h := Dsub (read d bb 4) (read d bb 2) in
  let size := Float.max w h in
  select_crop P lbl g = Ok (bb_id, c, g') <->
  exists g1 g2 xlo xhi ylo yhi,
    0 <= numBBs lbl - 1 /\
    uniform_int 0 (numBBs lbl - 1) g = (bb_id, g1) /\
    crop_dimension (bbtxt_width P) (bbtxt_reference_size P) size
    = Some (crop_width c) /\
    crop_dimension (bbtxt_height P) (bbtxt_reference_size P) size
    = Some (crop_height c) /\
    origin_bounds (read d bb 1) w (crop_width c) = Some (xlo, xhi) /\
    xlo <= xhi /\
    origin_bounds (read d bb 2) h (crop_height c) = Some (ylo, yhi) /\
    ylo <= yhi /\
    uniform_int xlo xhi g1 = (crop_x c, g2) /\
    uniform_int ylo yhi g2 = (crop_y c, g').
Proof.
  cbn zeta. unfold select_crop, draw. split.
  - destruct (Z.leb_spec 0 (numBBs lbl - 1)) as [Hn|]; cbn [check bind];
      [|discriminate].
    destruct (uniform_int 0 (numBBs lbl - 1) g) as [bb g1] eqn:Hbb.
    destruct (crop_dimension (bbtxt_width P) _ _) as [cw|] eqn:Hcw;
      cbn [of_option bind]; [|discriminate].
    destruct (crop_dimension (bbtxt_height P) _ _) as [ch|] eqn:Hch;
      cbn [of_option bind]; [|discriminate].
    destruct (origin_bounds _ _ cw) as [[xlo xhi]|] eqn:Hox;
      cbn [of_option bind]; [|discriminate].
    destruct (Z.leb_spec xlo xhi) as [Hx|]; cbn [check bind]; [|discriminate].
    destruct (origin_bounds _ _ ch) as [[ylo yhi]|] eqn:Hoy;
      cbn [of_option bind]; [|discriminate].
    destruct (Z.leb_spec ylo yhi) as [Hy|]; cbn [check bind]; [|discriminate].
    destruct (uniform_int xlo xhi g1) as [cx g2] eqn:Hcx.
    destruct (uniform_int ylo yhi g2) as [cy g3] eqn:Hcy.
    intros [= <- <- <-]. cbn [crop_x crop_y crop_width crop_height].
    exists g1, g2, xlo, xhi, ylo, yhi.
    repeat (split; [first [assumption|reflexivity]|]). assumption.
  - intros (g1 & g2 & xlo & xhi & ylo & yhi & Hn & Hbb & Hcw & Hch
            & Hox & Hx & Hoy & Hy & Hcx & Hcy).
    apply Z.leb_le in Hn, Hx, Hy.
    rewrite Hn, Hbb. cbn [check bind]. rewrite Hcw, Hch. cbn [of_option bind].
    rewrite Hox. cbn [of_option bind]. rewrite Hx. cbn [check bind].
    rewrite Hoy. cbn [of_option bind]. rewrite Hy. cbn [check bind].
    rewrite Hcx, Hcy. destruct c; reflexivity.
Qed.

(** What the draws guarantee: the box is one of the boxes before the
    first label -1, and the origin of the crop lies between the two bounds
    of its distribution, which are the bounds [x + w - crop_width] and [x]
    after their conversion to [int]. *)
Lemma select_crop_draws P lbl g bb_id c g' :
  uniform_int_in_range ->
  select_crop P lbl g = Ok (bb_id, c, g') ->
  let d := data lbl in
  let bb := offset2 lbl 0 bb_id in
  let w := Dsub (read d bb 3) (read d bb 1) in
  let h := Dsub (read d bb 4) (read d bb 2) in
  0 <= bb_id < numBBs lbl /\
  exists xlo xhi ylo yhi,
    Float.to_int (Dsub (Dadd (read d bb 1) w)
                       (Float.of_int Dtype (crop_width c))) = Some xlo /\
    Float.to_int (read d bb 1) = Some xhi /\
    Float.to_int (Dsub (Dadd (read d bb 2) h)
                       (Float.of_int Dtype (crop_height c))) = Some ylo /\
    Float.to_int (read d bb 2) = Some yhi /\
    xlo <= crop_x c <= xhi /\ ylo <= crop_y c <= yhi.
Proof.
  intros Hrng Hsel. apply select_crop_steps in Hsel. cbn zeta.
  destruct Hsel as (g1 & g2 & xlo & xhi & ylo & yhi & Hn & Hbb & _ & _
                    & Hox & Hx & Hoy & Hy & Hcx & Hcy).
  split.
  - pose proof (Hrng 0 (numBBs lbl - 1) g Hn) as Hr. rewrite Hbb in Hr.
    cbn [fst] in Hr. lia.
  - exists xlo, xhi, ylo, yhi. unfold origin_bounds in Hox, Hoy.
    destruct (Float.to_int (Dsub (Dadd _ _) (Float.of_int Dtype (crop_width c))))
      as [a|]; [|discriminate].
    destruct (Float.to_int (read (data lbl) (offset2 lbl 0 bb_id) 1)) as [b|];
      [|discriminate].
    destruct (Float.to_int (Dsub (Dadd _ _) (Float.of_int Dtype (crop_height c))))
      as [a'|]; [|discriminate].
    destruct (Float.to_int (read (data lbl) (offset2 lbl 0 bb_id) 2)) as [b'|];
      [|discriminate].
    injection Hox as -> ->. injection Hoy as -> ->.
    pose proof (Hrng xlo xhi g1 Hx) as Hrx. rewrite Hcx in Hrx.
    pose proof (Hrng ylo yhi g2 Hy) as Hry. rewrite Hcy in Hry.
    cbn [fst] in Hrx, Hry. auto 10.
Qed.

(** The integer that [truncate] returns is the rational value without
    its fractional part. *)
Lemma truncate_quot x z :
  Float.truncate x = Some z ->
  exists q, Float.to_Q x = Some q /\ z = Z.quot (Qnum q) (Zpos (Qden q)).
Proof.
  destruct x as [s|s| |s m e]; cbn [Float.truncate Float.to_Q];
    try discriminate.
  - intros [= <-]. exists 0%Q. split; reflexivity.
  - intros [= <-]. eexists. split; [reflexivity|].
    destruct (Z.leb_spec 0 e) as [He|He].
    + rewrite Z.shiftl_mul_pow2 by lia.
      destruct s; cbn [cond_Zopp Qopp inject_Z Qnum Qden];
        rewrite ?Z.quot_opp_l by lia; now rewrite Z.quot_1_r.
    + replace e with (- (- e)) at 1 by lia.
      rewrite Z.shiftl_opp_r, Z.shiftr_div_pow2 by lia.
      assert (Hpos : 0 < 2 ^ (- e)) by (apply Z.pow_pos_nonneg; lia).
      destruct s; cbn [cond_Zopp Qopp Qnum Qden];
        rewrite Z2Pos.id by exact Hpos;
        rewrite ?Z.quot_opp_l by lia;
        now rewrite Z.quot_div_nonneg by lia.
Qed.

Lemma to_int_quot x z :
  Float.to_int x = Some z ->
  exists q, Float.to_Q x = Some q /\ z = Z.quot (Qnum q) (Zpos (Qden q)).
Proof.
  unfold Float.to_int.
  destruct (Float.truncate x) as [t|] eqn:Ht; [|discriminate].
  destruct (_ && _); [|discriminate].
  intros [= <-]. now apply truncate_quot.
Qed.

(** Evaluate the left side of the equation [H]. *)
Ltac evaluate_left H :=
  match type of H with
  | ?l = _ => let v := eval vm_compute in l in change l with v in H
  end.

(** C3, as the code has it.  The crop is as wide as the integral part of
    [double(width) / reference_size * size], and as high as that of
    [double(height) / reference_size * size], for the larger side [size]
    of the box that was drawn.  For a reference size of 50, a box of
    40 x 40 and a network input of 200 x 200 the crop is 160 x 160, and
    the scale of the resize is 200 / 160 = 1.25. *)
Theorem C3_crop_dimensions P lbl g bb_id c g' :
  select_crop P lbl g = Ok (bb_id, c, g') ->
  let d := data lbl in
  let bb := offset2 lbl 0 bb_id in
  let w := Dsub (read d bb 3) (read d bb 1) in
  let h := Dsub (read d bb 4) (read d bb 2) in
  let size := if Float.ltb w h then h else w in
  let dim target :=
    Float.mul Float.binary64
      (Float.div Float.binary64
         (Float.of_int Float.binary64 target)
         (Float.of_int Float.binary64 (bbtxt_reference_size P)))
      (Float.convert Float.binary64 size) in
  Float.to_int (dim (bbtxt_width P)) = Some (crop_width c) /\
  Float.to_int (dim (bbtxt_height P)) = Some (crop_height c) /\
  (exists q, Float.to_Q (dim (bbtxt_width P)) = Some q /\
             crop_width c = Z.quot (Qnum q) (Zpos (Qden q))) /\
  (exists q, Float.to_Q (dim (bbtxt_height P)) = Some q /\
             crop_height c = Z.quot (Qnum q) (Zpos (Qden q))) /\
  (Dtype = Float.binary32 \/ Dtype = Float.binary64 ->
   w = Float.of_int Dtype 40 -> h = Float.of_int Dtype 40 ->
   bbtxt_width P = 200 -> bbtxt_height P = 200 ->
   bbtxt_reference_size P = 50 ->
   crop_width c = 160 /\ crop_height c = 160 /\
   represents (scaling (bbtxt_width P) (crop_width c)) (5 # 4) /\
   represents (scaling (bbtxt_height P) (crop_height c)) (5 # 4)).
Proof.
  intros Hsel. apply select_crop_steps in Hsel.
  destruct Hsel as (g1 & g2 & xlo & xhi & ylo & yhi & _ & _ & Hcw & Hch & _).
  cbn zeta. unfold crop_dimension, to_double, Float.max in Hcw, Hch.
  split; [exact Hcw|]. split; [exact Hch|].
  split; [now apply to_int_quot|]. split; [now apply to_int_quot|].
  intros HD Hw Hh HW HH Href.
  rewrite Hw, Hh, HW, Href in Hcw. rewrite Hw, Hh, HH, Href in Hch.
  rewrite HW, HH. unfold scaling, to_Dtype.
  destruct HD as [HD|HD]; rewrite HD in *;
    evaluate_left Hcw; evaluate_left Hch;
    injection Hcw as <-; injection Hch as <-;
    (split; [reflexivity|]); (split; [reflexivity|]);
    split; apply is_rational_spec; vm_compute; reflexivity.
Qed.

End CropWindow.

(** C3 as the specification has it fails on its own example: the crop is
    160 and not 200 pixels wide and high, and the scale is 5/4 and not 1. *)
Lemma C3_example_is_160_not_200 :
  exists cx cy g',
    select_crop (E := Run.W0) Run.P200 Run.one_box 7
    = Ok (0, {| crop_x := cx; crop_y := cy;
                crop_width := 160; crop_height := 160 |}, g') /\
    160 <> 200 /\
    represents (scaling (E := Run.W0) 200 160) (5 # 4) /\
    Float.eqb (scaling (E := Run.W0) 200 160) (Float.of_int Float.binary32 1)
    = false.
Proof.
  do 3 eexists. split; [vm_compute; reflexivity|].
  split; [lia|]. split; [|vm_compute; reflexivity].
  apply is_rational_spec. vm_compute. reflexivity.
Qed.

Lemma C3_crop_dimensions_witness :
  exists c,
    crop_width c = 160 /\ crop_height c = 160 /\
    represents (scaling (E := Run.W0) 200 (crop_width c)) (5 # 4).
Proof.
  destruct (select_crop (E := Run.W0) Run.P200 Run.one_box 7)
    as [[[bb_id c] g']|e] eqn:Hsel; [|vm_compute in Hsel; discriminate].
  exists c.
  destruct (C3_crop_dimensions (E := Run.W0) Run.P200 Run.one_box 7 bb_id c g'
              Hsel) as (_ & _ & _ & _ & Hex).
  assert (Hbb : bb_id = 0) by (vm_compute in Hsel; congruence).
  subst bb_id.
  destruct Hex as (Hw & Hh & Hs & _);
    [left; reflexivity|vm_compute; reflexivity|vm_compute; reflexivity
    |reflexivity|reflexivity|reflexivity|].
  auto.
Defined.

(** A distribution over one point returns it. *)
Lemma uniform_point a g :
  @uniform_int Run.W0 a a g = (a, World.lcg g).
Proof.
  cbn [uniform_int Run.W0 World.world]. unfold World.uniform.
  replace (a - a + 1) with 1 by lia. rewrite Z.mod_1_r. f_equal. lia.
Qed.

(** C1, where the code leaves it.  The annotation
    [img1.jpg 1 1.0 10.5 10 50.5 50] gives a box of 40 x 40 pixels from
    x = 10.5 to x = 50.5.  For a network input and a reference size of 40
    the crop is 40 x 40 too, so it is not smaller than the box.  The
    bounds [x + w - crop_width = 10.5] and [x = 10.5] of the distribution
    both become the [int] 10: whatever the generator, the crop starts at
    x = 10, left of the range [10.5, 10.5], and ends at x = 50, left of the
    right side of the box. *)
Theorem C1_fractional_box_leaves_the_crop (g : Z) :
  let lbl := Run.half_box in
  let xmin := read (data lbl) 0 1 in
  let xmax := read (data lbl) 0 3 in
  let ymin := read (data lbl) 0 2 in
  let ymax := read (data lbl) 0 4 in
  let w := Dsub (E := Run.W0) xmax xmin in
  let h := Dsub (E := Run.W0) ymax ymin in
  let lo := Dsub (E := Run.W0) (Dadd (E := Run.W0) xmin w)
                 (Float.of_int Float.binary32 40) in
  exists g',
    select_crop (E := Run.W0) Run.P40 lbl g
    = Ok (0, {| crop_x := 10; crop_y := 10;
                crop_width := 40; crop_height := 40 |}, g') /\
    represents xmin (21 # 2) /\ represents xmax (101 # 2) /\
    represents w 40 /\ represents h 40 /\
    Float.leb w (Float.of_int Float.binary32 40) = true /\
    Float.leb h (Float.of_int Float.binary32 40) = true /\
    represents lo (21 # 2) /\
    Float.ltb (Float.of_int Float.binary32 10) lo = true /\
    Float.ltb (Float.of_int Float.binary32 (10 + 40)) xmax = true.
Proof.
  cbn zeta. eexists. split.
  - apply select_crop_steps.
    exists (World.lcg g), (World.lcg (World.lcg g)), 10, 10, 10, 10.
    cbn [crop_x crop_y crop_width crop_height].
    replace (numBBs (E := Run.W0) Run.half_box - 1) with 0
      by (vm_compute; reflexivity).
    split; [lia|]. split; [apply uniform_point|].
    split; [vm_compute; reflexivity|]. split; [vm_compute; reflexivity|].
    split; [vm_compute; reflexivity|]. split; [lia|].
    split; [vm_compute; reflexivity|]. split; [lia|].
    split; apply uniform_point.
  - repeat split;
      first [ apply is_rational_spec; vm_compute; reflexivity
            | vm_compute; reflexivity ].
Qed.

(** ** Shuffling (claim C8) *)

Section Shuffling.

Context `{E : Externals}.

Lemma insert_cons_Permutation {A} (v : list A) (i : nat) (x y : A) :
  v !! i = Some x -> Permutation (x :: <[i := y]> v) (y :: v).
Proof.
  revert i. induction v as [|a v IH]; intros i Hi; [discriminate|].
  destruct i as [|i]; cbn in *.
  - injection Hi as ->. apply perm_swap.
  - rewrite perm_swap. rewrite (IH i Hi). apply perm_swap.
Qed.

Lemma iter_swap_Permutation {A} (v : list A) (i j : nat) :
  Permutation v (iter_swap v i j).
Proof.
  unfold iter_swap.
  destruct (v !! i) as [x|] eqn:Hi; [|reflexivity].
  destruct (v !! j) as [y|] eqn:Hj; [|reflexivity].
  apply (Permutation_cons_inv (a := x)).
  assert (Hi' : <[j := x]> v !! i = Some x).
  { destruct (Nat.eq_dec j i) as [->|Hne].
    - apply list_lookup_insert_eq. now apply lookup_lt_Some in Hi.
    - now rewrite list_lookup_insert_ne. }
  rewrite (insert_cons_Permutation _ i x y Hi').
  now rewrite (insert_cons_Permutation v j y x Hj).
Qed.

Lemma shuffle_loop_Permutation {A} (v : list A) (i : nat) (g : rng_t) :
  Permutation v (fst (shuffle_loop v i g)).
Proof.
  revert v g. induction i as [|i IH]; intros v g; cbn [shuffle_loop];
    [reflexivity|].
  destruct (uniform_int 0 (Z.of_nat (S i)) g) as [j g'].
  rewrite <- IH. apply iter_swap_Permutation.
Qed.

Lemma shuffle_Permutation {A} (v : list A) (g : rng_t) :
  Permutation v (fst (shuffle v g)).
Proof. apply shuffle_loop_Permutation. Qed.

Lemma shuffleImages_fields L :
  _images (_shuffleImages L) = fst (shuffle (_images L) (_rng L)) /\
  _rng (_shuffleImages L) = snd (shuffle (_images L) (_rng L)) /\
  _i_global (_shuffleImages L) = _i_global L /\
  layer_param_ (_shuffleImages L) = layer_param_ L.
Proof.
  unfold _shuffleImages.
  destruct (shuffle (_images L) (_rng L)) as [imgs g]. cbn. auto.
Qed.

Lemma DataLayerSetUp_inv P seed L :
  DataLayerSetUp P seed = Ok L ->
  exists imgs w,
    _loadBBTXTFile (image_data_source P) [] = Ok (imgs, w) /\
    imgs <> [] /\
    Permutation imgs (_images L) /\
    (image_data_shuffle P = false -> _images L = imgs) /\
    _i_global L = 0 /\
    layer_param_ L = P.
Proof.
  unfold DataLayerSetUp.
  destruct (_loadBBTXTFile (image_data_source P) []) as [[imgs w]|];
    cbn [bind]; [|discriminate].
  destruct (Z.ltb_spec 0 (Z.of_nat (length imgs))) as [Hne|]; cbn [check bind];
    [|discriminate].
  intros [= <-]. exists imgs, w. split; [reflexivity|].
  split; [destruct imgs; [cbn in Hne; lia|discriminate]|].
  destruct (image_data_shuffle P).
  - match goal with |- context [_shuffleImages ?L0] =>
      destruct (shuffleImages_fields L0) as (Hi & _ & Hc & Hp) end.
    rewrite Hi, Hc, Hp. cbn.
    split; [apply shuffle_Permutation|]. split; [discriminate|]. auto.
  - cbn. split; [reflexivity|]. auto.
Qed.

(** C8.  [_shuffleImages] leaves a permutation of the image entries, each
    of them as it was, and moves nothing else than the generator; the
    order it leaves is a function of the entries and of the state of the
    generator alone.  The layer that [DataLayerSetUp] returns holds a
    permutation of the entries read from the file and is determined by the
    parameters and the seed. *)
Theorem C8_shuffle_is_a_permutation :
  (forall L,
     Permutation (_images L) (_images (_shuffleImages L)) /\
     length (_images (_shuffleImages L)) = length (_images L) /\
     _i_global (_shuffleImages L) = _i_global L) /\
  (forall L1 L2,
     _images L1 = _images L2 -> _rng L1 = _rng L2 ->
     _images (_shuffleImages L1) = _images (_shuffleImages L2) /\
     _rng (_shuffleImages L1) = _rng (_shuffleImages L2)) /\
  (forall P seed L1,
     DataLayerSetUp P seed = Ok L1 ->
     (exists imgs w,
        _loadBBTXTFile (image_data_source P) [] = Ok (imgs, w) /\
        Permutation imgs (_images L1)) /\
     forall L2, DataLayerSetUp P seed = Ok L2 -> L2 = L1).
Proof.
  split; [|split].
  - intros L. destruct (shuffleImages_fields L) as (Hi & _ & Hc & _).
    assert (Hperm : Permutation (_images L) (_images (_shuffleImages L))).
    { rewrite Hi. apply shuffle_Permutation. }
    split; [exact Hperm|]. split; [|exact Hc].
    symmetry. now apply Permutation_length.
  - intros L1 L2 Himgs Hrng.
    destruct (shuffleImages_fields L1) as (Hi1 & Hg1 & _).
    destruct (shuffleImages_fields L2) as (Hi2 & Hg2 & _).
    rewrite Hi1, Hi2, Hg1, Hg2, Himgs, Hrng. auto.
  - intros P seed L1 H1. split.
    + destruct (DataLayerSetUp_inv P seed L1 H1)
        as (imgs & w & Hload & _ & Hperm & _).
      exists imgs, w. auto.
    + intros L2 H2. congruence.
Qed.

End Shuffling.

(** ** The cursor (claim C7) *)

Section Cursor.

Context `{E : Externals}.




Lemma advance_spec L L' evs :
  cursor_ok L -> advance L = (L', evs) ->
  let n := Z.of_nat (length (_images L)) in
  let shuffles := image_data_shuffle (layer_param_ L) in
  layer_param_ L' = layer_param_ L /\
  Permutation (_images L) (_images L') /\
  _i_global L' = (if _i_global L + 1 =? n then 0 else _i_global L + 1) /\
  evs = (if _i_global L + 1 =? n
         then if shuffles then [Reshuffle] else []
         else []).
Proof.
  intros Hok. unfold advance, cursor_ok in *. cbn zeta.
  destruct (Z.leb_spec (Z.of_nat (length (_images L))) (_i_global L + 1))
    as [Hwrap|Hnext].
  - replace (_i_global L + 1 =? Z.of_nat (length (_images L))) with true
      by (symmetry; apply Z.eqb_eq; lia).
    destruct (image_data_shuffle (layer_param_ L)); intros [= <- <-]; cbn.
    + destruct (shuffleImages_fields L) as (Hi & _ & _ & Hp).
      rewrite Hp, Hi. repeat split; auto. apply shuffle_Permutation.
    + repeat split; auto.
  - replace (_i_global L + 1 =? Z.of_nat (length (_images L))) with false
      by (symmetry; apply Z.eqb_neq; lia).
    intros [= <- <-]; cbn. repeat split; auto.
Qed.

Lemma load_one_spec L batch b L' batch' evs :
  cursor_ok L -> load_one L batch b = Ok (L', batch', evs) ->
  let n := Z.of_nat (length (_images L)) in
  let shuffles := image_data_shuffle (layer_param_ L) in
  layer_param_ L' = layer_param_ L /\
  Permutation (_images L) (_images L') /\
  _i_global L' = (if _i_global L + 1 =? n then 0 else _i_global L + 1) /\
  evs = ReadImage (_i_global L) ::
        (if _i_global L + 1 =? n
         then if shuffles then [Reshuffle] else []
         else []).
Proof.
  intros Hok. unfold load_one.
  destruct (check (0 <=? _i_global L) _); cbn [bind]; [|discriminate].
  destruct (of_option (_images L !! _) _) as [im|]; cbn [bind]; [|discriminate].
  destruct (of_option (imread (fst im)) _) as [cv_img|]; cbn [bind];
    [|discriminate].
  destruct (_transformImage _ _ _ _ _) as [[[image' label'] g']|]; cbn [bind];
    [|discriminate].
  destruct (advance (with_rng L g')) as [L1 evs1] eqn:Hadv.
  intros [= <- <- <-].
  apply advance_spec in Hadv; [|exact Hok]. cbn in Hadv.
  destruct Hadv as (Hp & Hperm & Hi & ->). cbn zeta. auto.
Qed.



End Cursor.


(** What the missing label -1 leads to: the last image of the example of
    the specification has one box, [numBBs] counts 20, the box drawn is
    one of the 19 empty ones, the crop is 0 x 0, and OpenCV stops the
    run. *)
Example last_image_stops_the_batch :
  DataLayerSetUp (E := Run.W0) Run.P2_spec 42 = Ok Run.layer_spec /\
  load_batch (E := Run.W0) Run.layer_spec (Batch_new (E := Run.W0) Run.P2_spec)
  = Fatal OpenCVAssertion.
Proof. split; vm_compute; reflexivity. Qed.

Lemma C8_shuffle_witness :
  exists imgs w,
    _loadBBTXTFile (E := Run.W0) "full.bbtxt" [] = Ok (imgs, w) /\
    Permutation imgs (_images Run.layer) /\
    Permutation (_images Run.layer)
                (_images (_shuffleImages (E := Run.W0) Run.layer)) /\
    _images (_shuffleImages (E := Run.W0)
               (with_i_global (E := Run.W0) Run.layer 1))
    = _images (_shuffleImages (E := Run.W0) Run.layer).
Proof.
  destruct (C8_shuffle_is_a_permutation (E := Run.W0)) as (Hperm & Hdet & Hsetup).
  assert (Hset : DataLayerSetUp (E := Run.W0) Run.P2 42 = Ok Run.layer)
    by (vm_compute; reflexivity).
  destruct (Hsetup Run.P2 42 Run.layer Hset) as [(imgs & w & Hload & Hp) _].
  exists imgs, w. split; [exact Hload|].
  split; [exact Hp|]. split; [apply Hperm|].
  apply Hdet; reflexivity.
Defined.


(** ** More about the annotation file *)

Section LoaderEdges.

Context `{E : Externals}.

Lemma split_nonempty line : split line <> [].
Proof.
  destruct line as [|c rest]; cbn [split]; [discriminate|].
  destruct (Ascii.eqb c " "); [discriminate|].
  destruct (split rest); discriminate.
Qed.

Lemma split_length line : length (split line) = S (spaces line).
Proof.
  induction line as [|c rest IH]; cbn [split spaces]; [reflexivity|].
  destruct (Ascii.eqb c " "); cbn [length]; [now rewrite IH|].
  destruct (split rest) as [|tok toks] eqn:Hs; [now destruct (split_nonempty rest)|].
  exact IH.
Qed.

Lemma split_concat line : String.concat " " (split line) = line.
Proof.
  induction line as [|c rest IH]; cbn [split]; [reflexivity|].
  destruct (Ascii.eqb_spec c " "%char) as [->|Hc].
  - destruct (split rest) as [|tok toks] eqn:Hs;
      [now destruct (split_nonempty rest)|].
    change (String.concat " " (EmptyString :: tok :: toks))
      with (String " " (String.concat " " (tok :: toks))).
    now rewrite IH.
  - destruct (split rest) as [|tok toks] eqn:Hs;
      [now destruct (split_nonempty rest)|].
    destruct toks as [|tok' toks].
    + change (String c tok = String c rest). now rewrite <- IH.
    + change (String c (tok ++ " " ++ String.concat " " (tok' :: toks))
              = String c rest).
      now rewrite <- IH.
Qed.

Lemma Dtype_stof_fatal s e : Dtype_stof s = Fatal e -> e = StofException.
Proof.
  unfold Dtype_stof. destruct (stof s); cbn [of_option bind]; congruence.
Qed.

(** Why a line can stop the loader. *)
Lemma process_line_fatal st line e :
  process_line st line = Fatal e ->
  (e = LineCorrupted /\ spaces line <> 6%nat) \/
  (spaces line = 6%nat /\
   ((e = FileNotFound /\ ld_current_filename st <> filename line /\
     file_exists (filename line) = false) \/
    (e = UndefinedBehaviour /\ ld_current_filename st = filename line /\
     ld_images st = [] /\ ld_i st < MAX_NUM_BBS_PER_IMAGE) \/
    (e = StofException /\
     (ld_current_filename st = filename line -> ld_i st < MAX_NUM_BBS_PER_IMAGE)))).
Proof.
  unfold process_line, filename. rewrite split_length.
  destruct (Nat.eqb_spec (S (spaces line)) 7) as [Hlen|Hlen]; cbn [check bind].
  2: { intros [= <-]. left. split; [reflexivity|lia]. }
  assert (Hsp : spaces line = 6%nat) by lia. clear Hlen.
  intros Hrun. right. split; [exact Hsp|]. revert Hrun.
  unfold new_image.
  destruct (String.eqb_spec (ld_current_filename st) (entry (split line) 0))
    as [Hname|Hname]; cbn [bind].
  - unfold store_bb.
    destruct (Z.ltb_spec (ld_i st) MAX_NUM_BBS_PER_IMAGE) as [Hi|Hi];
      [|discriminate].
    destruct (ld_images st) as [|im imgs] eqn:Himgs.
    + cbn [length check bind]. intros [= <-]. right. left. auto.
    + replace (0 <? Z.of_nat (length (im :: imgs))) with true
        by (symmetry; apply Z.ltb_lt; cbn [length]; lia).
      cbn [check bind]. intros Hrun. right. right. split; [|auto].
      repeat match type of Hrun with
             | bind (Dtype_stof ?s) _ = _ =>
                 destruct (Dtype_stof s) eqn:?; cbn [bind] in Hrun
             end;
        try discriminate;
        injection Hrun as <-; eapply Dtype_stof_fatal; eassumption.
  - destruct (file_exists (entry (split line) 0)) eqn:Hex; cbn [check bind].
    + unfold store_bb. cbn [ld_i ld_images ld_current_filename ld_warnings].
      change (0 <? MAX_NUM_BBS_PER_IMAGE) with true. cbv iota.
      match goal with |- context [0 <? Z.of_nat (length (?v ++ [?x]))] =>
        replace (0 <? Z.of_nat (length (v ++ [x]))) with true
          by (symmetry; apply Z.ltb_lt; rewrite length_app; cbn [length]; lia)
      end.
      cbn [check bind]. intros Hrun. right. right.
      split; [|intros Heq; contradiction].
      repeat match type of Hrun with
             | bind (Dtype_stof ?s) _ = _ =>
                 destruct (Dtype_stof s) eqn:?; cbn [bind] in Hrun
             end;
        try discriminate;
        injection Hrun as <-; eapply Dtype_stof_fatal; eassumption.
    + intros [= <-]. left. auto.
Qed.

Lemma process_line_corrupted st line :
  spaces line <> 6%nat -> process_line st line = Fatal LineCorrupted.
Proof.
  intros Hsp. unfold process_line. rewrite split_length.
  destruct (Nat.eqb_spec (S (spaces line)) 7) as [Hlen|Hlen]; [lia|reflexivity].
Qed.

Lemma process_line_not_found st line :
  spaces line = 6%nat -> ld_current_filename st <> filename line ->
  file_exists (filename line) = false ->
  process_line st line = Fatal FileNotFound.
Proof.
  intros Hsp Hname Hex. unfold process_line, filename in *.
  rewrite split_length, Hsp. cbn [Nat.eqb check bind]. unfold new_image.
  apply String.eqb_neq in Hname. rewrite Hname, Hex. reflexivity.
Qed.

Lemma process_line_back_of_empty st line :
  spaces line = 6%nat -> ld_current_filename st = filename line ->
  ld_images st = [] -> ld_i st < MAX_NUM_BBS_PER_IMAGE ->
  process_line st line = Fatal UndefinedBehaviour.
Proof.
  intros Hsp Hname Himgs Hi. unfold process_line, filename in *.
  rewrite split_length, Hsp. cbn [Nat.eqb check bind]. unfold new_image.
  rewrite Hname, String.eqb_refl. cbn [bind]. unfold store_bb.
  apply Z.ltb_lt in Hi. rewrite Hi, Himgs. reflexivity.
Qed.

(** X1.  [boost::split] cuts a line at every space, so that the entries
    joined by spaces give the line back and there is one entry more than
    there are spaces; and a line stops the loader as corrupted exactly
    when the number of its spaces is not six, whatever the loader has read
    before: an empty line does, and so does a line with a space at its
    end or with two spaces in a row between its seven fields. *)
Theorem X1_a_line_needs_six_spaces :
  (forall line,
     String.concat " " (split line) = line /\
     length (split line) = S (spaces line)) /\
  (forall st line,
     process_line st line = Fatal LineCorrupted <-> spaces line <> 6%nat).
Proof.
  split.
  - intros line. split; [apply split_concat|apply split_length].
  - intros st line. split.
    + intros Hrun. apply process_line_fatal in Hrun.
      destruct Hrun as [[_ Hsp]|[_ [[He _]|[[He _]|[He _]]]]];
        [exact Hsp|discriminate..].
    + apply process_line_corrupted.
Qed.

(** X2.  The image file is looked for on the line that opens an image
    and on no other: a line stops the loader with "not found" exactly when
    it has seven entries, its file name differs from the name of the line
    before, and no such file exists. *)
Theorem X2_missing_image_file :
  forall st line,
    process_line st line = Fatal FileNotFound <->
    spaces line = 6%nat /\
    ld_current_filename st <> filename line /\
    file_exists (filename line) = false.
Proof.
  intros st line. split.
  - intros Hrun. apply process_line_fatal in Hrun.
    destruct Hrun as [[He _]|[Hsp [[_ H]|[[He _]|[He _]]]]];
      [discriminate|auto|discriminate..].
  - intros (Hsp & Hname & Hex). now apply process_line_not_found.
Qed.

Lemma classic_images (st : Loader) : ld_images st = [] \/ ld_images st <> [].
Proof. destruct (ld_images st); [left; reflexivity|right; discriminate]. Qed.

Lemma process_line_nonempty st line st' :
  (ld_images st = [] -> ld_i st < MAX_NUM_BBS_PER_IMAGE) ->
  process_line st line = Ok st' -> ld_images st' <> [].
Proof.
  intros Hinv. unfold process_line.
  destruct (check _ _); cbn [bind]; [|discriminate].
  destruct (new_image st (split line)) as [st1|] eqn:H1; cbn [bind];
    [|discriminate].
  assert (Hinv1 : ld_images st1 = [] -> ld_i st1 < MAX_NUM_BBS_PER_IMAGE).
  { revert H1. unfold new_image. destruct (String.eqb _ _).
    - now intros [= <-].
    - destruct (check _ _); cbn [bind]; [|discriminate].
      intros [= <-]. cbn. unfold MAX_NUM_BBS_PER_IMAGE. lia. }
  unfold store_bb.
  destruct (Z.ltb_spec (ld_i st1) MAX_NUM_BBS_PER_IMAGE) as [Hi|Hi].
  - destruct (Z.ltb_spec 0 (Z.of_nat (length (ld_images st1)))) as [Hn|Hn];
      cbn [check bind]; [|discriminate].
    repeat (destruct (Dtype_stof _); cbn [bind]; [|discriminate]).
    intros [= <-]. cbn [ld_images]. intros Hnil.
    apply (f_equal (@length _)) in Hnil.
    rewrite update_back_length in Hnil. cbn [length] in Hnil. lia.
  - intros [= <-]. cbn [ld_images]. intros Hnil. specialize (Hinv1 Hnil). lia.
Qed.

Lemma read_lines_nonempty st lines st' :
  ld_images st <> [] -> read_lines st lines = Ok st' -> ld_images st' <> [].
Proof.
  revert st. induction lines as [|l lines IH]; intros st Hne;
    cbn [read_lines]; [now intros [= <-]|].
  destruct (process_line st l) as [st1|] eqn:H1; cbn [bind]; [|discriminate].
  apply IH. apply (process_line_nonempty st l); [contradiction|exact H1].
Qed.

(** The reasons for which the loop over the lines can stop. *)
Lemma read_lines_fatal st lines e :
  read_lines st lines = Fatal e ->
  e = LineCorrupted \/ e = FileNotFound \/ e = StofException \/
  (e = UndefinedBehaviour /\ ld_images st = []).
Proof.
  revert st. induction lines as [|l lines IH]; intros st;
    cbn [read_lines]; [discriminate|].
  destruct (process_line st l) as [st1|e1] eqn:H1; cbn [bind].
  - intros Hrun. apply IH in Hrun.
    destruct Hrun as [H|[H|[H|[H Hnil]]]]; auto.
    destruct (classic_images st) as [Hst|Hst].
    + auto.
    + exfalso. revert Hnil.
      apply (process_line_nonempty st l); [contradiction|exact H1].
  - intros [= <-]. apply process_line_fatal in H1.
    destruct H1 as [[He _]|[_ [[He _]|[[He [_ [Hnil _]]]|[He _]]]]]; auto.
Qed.

(** X3.  The loader runs into undefined behaviour in one case only: the
    first line of the file has seven entries of which the first is empty
    (the line starts with a space).  Its name equals the initial current
    name, no image entry is made for it, and its box is written through
    [back()] of the empty vector of images. *)
Theorem X3_first_line_without_a_name :
  forall source,
    _loadBBTXTFile source [] = Fatal UndefinedBehaviour <->
    exists line rest,
      ifstream source = Some (line :: rest) /\
      spaces line = 6%nat /\ filename line = EmptyString.
Proof.
  intros source. unfold _loadBBTXTFile. split.
  - destruct (ifstream source) as [lines|]; cbn [of_option bind];
      [|discriminate].
    destruct lines as [|line rest]; [discriminate|].
    cbn [read_lines].
    destruct (process_line (Loader_start []) line) as [st1|e] eqn:H1;
      cbn [bind].
    + destruct (read_lines st1 rest) as [st2|e] eqn:H2; cbn [bind];
        [discriminate|].
      intros [= ->]. exfalso. apply read_lines_fatal in H2.
      destruct H2 as [H|[H|[H|[_ Hnil]]]]; try discriminate.
      revert Hnil. apply (process_line_nonempty (Loader_start []) line);
        [|exact H1].
      intros _. cbn. unfold MAX_NUM_BBS_PER_IMAGE. lia.
    + intros [= ->]. apply process_line_fatal in H1.
      destruct H1 as [[He _]|[Hsp [[He _]|[[_ [Hname _]]|[He _]]]]];
        try discriminate.
      exists line, rest. cbn in Hname. auto.
  - intros (line & rest & -> & Hsp & Hname). cbn [of_option bind read_lines].
    rewrite process_line_back_of_empty; auto.
    cbn. unfold MAX_NUM_BBS_PER_IMAGE. lia.
Qed.

Lemma map_fst_update_back (f : Blob -> Blob) (v : list (string * Blob)) :
  map fst (update_back (on_blob f) v) = map fst v.
Proof.
  induction v as [|x v IH]; [reflexivity|].
  cbn [update_back]. destruct v as [|y v]; [reflexivity|].
  cbn [map] in *. now rewrite IH.
Qed.

Lemma process_line_names st line st' :
  process_line st line = Ok st' ->
  map fst (ld_images st')
  = map fst (ld_images st)
    ++ (if String.eqb (ld_current_filename st) (filename line)
        then [] else [filename line]).
Proof.
  unfold process_line, filename.
  destruct (check _ _); cbn [bind]; [|discriminate].
  destruct (new_image st (split line)) as [st1|] eqn:H1; cbn [bind];
    [|discriminate].
  intros H2.
  assert (Hstore : map fst (ld_images st') = map fst (ld_images st1)).
  { revert H2. unfold store_bb. destruct (ld_i st1 <? _).
    - destruct (check _ _); cbn [bind]; [|discriminate].
      repeat (destruct (Dtype_stof _); cbn [bind]; [|discriminate]).
      intros [= <-]. cbn [ld_images]. apply map_fst_update_back.
    - now intros [= <-]. }
  rewrite Hstore. revert H1. unfold new_image.
  destruct (String.eqb _ _).
  - intros [= <-]. now rewrite app_nil_r.
  - destruct (check _ _); cbn [bind]; [|discriminate].
    intros [= <-]. cbn [ld_images]. rewrite map_app. cbn [map fst].
    f_equal. destruct (_ && _); [apply map_fst_update_back|reflexivity].
Qed.

Lemma read_lines_names st lines st' :
  read_lines st lines = Ok st' ->
  map fst (ld_images st')
  = map fst (ld_images st) ++ runs (ld_current_filename st) (map filename lines).
Proof.
  revert st. induction lines as [|l lines IH]; intros st;
    cbn [read_lines map runs].
  - intros [= <-]. now rewrite app_nil_r.
  - destruct (process_line st l) as [st1|] eqn:H1; cbn [bind]; [|discriminate].
    intros H2. rewrite (IH st1 H2), (process_line_names st l st1 H1).
    destruct (process_line_step st l st1 H1) as [Hname _].
    fold (filename l) in Hname. rewrite Hname.
    destruct (String.eqb (ld_current_filename st) (filename l)).
    + now rewrite app_nil_r.
    + now rewrite <- app_assoc.
Qed.

(** X4.  The loader makes one image entry for each run of lines with the
    same file name, in the order of the file: the names of the entries
    are the names that open a run.  A name that comes back after another
    name opens a second entry. *)
Theorem X4_one_image_for_each_run source lines imgs w :
  ifstream source = Some lines ->
  _loadBBTXTFile source [] = Ok (imgs, w) ->
  map fst imgs = runs EmptyString (map filename lines) /\
  length imgs = length (runs EmptyString (map filename lines)).
Proof.
  intros Hsrc. unfold _loadBBTXTFile. rewrite Hsrc. cbn [of_option bind].
  destruct (read_lines (Loader_start []) lines) as [st|] eqn:Hrun;
    cbn [bind]; [|discriminate].
  intros [= <- <-]. apply read_lines_names in Hrun. cbn in Hrun.
  split; [exact Hrun|]. rewrite <- Hrun. now rewrite length_map.
Qed.

(** X5.  [DataLayerSetUp] stops with "The given BBTXT file is empty!"
    exactly when the file can be opened and has no line: a file with a
    line either stops the loader for another reason or gives an image. *)
Theorem X5_empty_file :
  forall P seed,
    DataLayerSetUp P seed = Fatal EmptyBBTXT <->
    ifstream (image_data_source P) = Some [].
Proof.
  intros P seed. unfold DataLayerSetUp, _loadBBTXTFile. split.
  - destruct (ifstream (image_data_source P)) as [lines|];
      cbn [of_option bind]; [|discriminate].
    destruct (read_lines (Loader_start []) lines) as [st|e] eqn:Hrun;
      cbn [bind].
    + destruct (Z.ltb_spec 0 (Z.of_nat (length (ld_images st)))) as [Hn|Hn];
        cbn [check bind]; [discriminate|].
      intros _. destruct lines as [|l lines]; [reflexivity|]. exfalso.
      cbn [read_lines] in Hrun.
      destruct (process_line (Loader_start []) l) as [st1|] eqn:H1;
        cbn [bind] in Hrun; [|discriminate].
      assert (Hne1 : ld_images st1 <> []).
      { apply (process_line_nonempty (Loader_start []) l); [|exact H1].
        intros _. cbn. unfold MAX_NUM_BBS_PER_IMAGE. lia. }
      pose proof (read_lines_nonempty st1 lines st Hne1 Hrun) as Hne.
      destruct (ld_images st); [contradiction|cbn [length] in Hn; lia].
    + intros [= ->]. apply read_lines_fatal in Hrun.
      destruct Hrun as [H|[H|[H|[H _]]]]; discriminate.
  - intros ->. reflexivity.
Qed.

Lemma update_back_app {A} (f : A -> A) (v w : list A) :
  w <> [] -> update_back f (v ++ w) = v ++ update_back f w.
Proof.
  intros Hw. induction v as [|x v IH]; [reflexivity|].
  cbn [app update_back]. rewrite IH.
  destruct (v ++ w) eqn:Hvw; [|reflexivity].
  apply app_eq_nil in Hvw. destruct Hvw as [_ ->]. contradiction.
Qed.

Lemma update_back_nonempty {A} (f : A -> A) (v : list A) :
  v <> [] -> update_back f v <> [].
Proof.
  intros Hv Hnil. apply (f_equal (@length _)) in Hnil.
  rewrite update_back_length in Hnil. destruct v; [contradiction|discriminate].
Qed.

(** The images before the last one are out of reach of a line. *)
Lemma process_line_prefix st line st' pfx :
  (exists sfx, ld_images st = pfx ++ sfx /\ sfx <> []) ->
  process_line st line = Ok st' ->
  exists sfx', ld_images st' = pfx ++ sfx' /\ sfx' <> [].
Proof.
  intros (sfx & Himgs & Hsfx). unfold process_line.
  destruct (check _ _); cbn [bind]; [|discriminate].
  destruct (new_image st (split line)) as [st1|] eqn:H1; cbn [bind];
    [|discriminate].
  assert (H1' : exists sfx1, ld_images st1 = pfx ++ sfx1 /\ sfx1 <> []).
  { revert H1. unfold new_image. destruct (String.eqb _ _).
    - intros [= <-]. eauto.
    - destruct (check _ _); cbn [bind]; [|discriminate].
      intros [= <-]. cbn [ld_images]. rewrite Himgs.
      destruct (_ && _).
      + rewrite update_back_app by exact Hsfx. rewrite <- app_assoc.
        eexists. split; [reflexivity|].
        intros Hnil. apply app_eq_nil in Hnil. destruct Hnil; discriminate.
      + rewrite <- app_assoc. eexists. split; [reflexivity|].
        intros Hnil. apply app_eq_nil in Hnil. destruct Hnil; discriminate. }
  destruct H1' as (sfx1 & Himgs1 & Hsfx1).
  unfold store_bb. destruct (ld_i st1 <? _).
  - destruct (check _ _); cbn [bind]; [|discriminate].
    repeat (destruct (Dtype_stof _); cbn [bind]; [|discriminate]).
    intros [= <-]. cbn [ld_images]. rewrite Himgs1.
    rewrite update_back_app by exact Hsfx1.
    eexists. split; [reflexivity|]. now apply update_back_nonempty.
  - intros [= <-]. cbn [ld_images]. eauto.
Qed.

Lemma read_lines_prefix st lines st' pfx :
  (exists sfx, ld_images st = pfx ++ sfx /\ sfx <> []) ->
  read_lines st lines = Ok st' ->
  exists sfx', ld_images st' = pfx ++ sfx' /\ sfx' <> [].
Proof.
  revert st. induction lines as [|l lines IH]; intros st Hpfx;
    cbn [read_lines]; [now intros [= <-]|].
  destruct (process_line st l) as [st1|] eqn:H1; cbn [bind]; [|discriminate].
  apply IH. now apply (process_line_prefix st l).
Qed.

(** The image that a line with a new name closes. *)
Lemma process_line_closes st line st' imgs0 name b :
  ld_images st = imgs0 ++ [(name, b)] ->
  ld_current_filename st <> filename line ->
  process_line st line = Ok st' ->
  exists sfx,
    ld_images st'
    = (imgs0 ++ [(name, if ld_i st <? MAX_NUM_BBS_PER_IMAGE
                        then finalize (ld_i st) b else b)]) ++ sfx /\
    sfx <> [].
Proof.
  intros Himgs Hname. unfold process_line, filename in *.
  destruct (check _ _); cbn [bind]; [|discriminate].
  unfold new_image. apply String.eqb_neq in Hname. rewrite Hname.
  destruct (check _ _); cbn [bind]; [|discriminate].
  rewrite Himgs, length_app. cbn [length].
  replace (0 <? Z.of_nat (length imgs0 + 1)) with true
    by (symmetry; apply Z.ltb_lt; lia).
  cbn [andb].
  set (closed := if ld_i st <? MAX_NUM_BBS_PER_IMAGE
                 then finalize (ld_i st) b else b).
  assert (Hclosed :
            (if ld_i st <? MAX_NUM_BBS_PER_IMAGE
             then update_back (on_blob (finalize (ld_i st)))
                              (imgs0 ++ [(name, b)])
             else imgs0 ++ [(name, b)])
            = imgs0 ++ [(name, closed)]).
  { unfold closed. destruct (ld_i st <? _); [|reflexivity].
    now rewrite update_back_snoc. }
  rewrite Hclosed. unfold store_bb.
  cbn [ld_i ld_images ld_current_filename ld_warnings].
  change (0 <? MAX_NUM_BBS_PER_IMAGE) with true. cbv iota.
  destruct (check _ _); cbn [bind]; [|discriminate].
  repeat (destruct (Dtype_stof _); cbn [bind]; [|discriminate]).
  intros [= <-]. cbn [ld_images].
  rewrite update_back_app by discriminate.
  eexists. split; [reflexivity|]. cbn. discriminate.
Qed.

Lemma minus_one_eqb :
  Dtype = Float.binary32 \/ Dtype = Float.binary64 ->
  Float.eqb minus_one minus_one = true.
Proof.
  unfold minus_one, to_Dtype. intros [-> | ->]; vm_compute; reflexivity.
Qed.

(** X6.  An image whose run of lines is followed by a line with another
    name is closed by that line and never written again, whatever
    follows: when it has fewer than 20 boxes its label after the last box
    is -1, its boxes are as they were, and [numBBs] counts no more than
    its boxes; when it has 20 boxes it is as it was. *)
Theorem X6_closed_images_keep_their_end pre line post st st1 st2 imgs0 name b :
  read_lines (Loader_start []) pre = Ok st ->
  ld_images st = imgs0 ++ [(name, b)] ->
  ld_current_filename st <> filename line ->
  process_line st line = Ok st1 ->
  read_lines st1 post = Ok st2 ->
  let closed := if ld_i st <? MAX_NUM_BBS_PER_IMAGE
                then finalize (ld_i st) b else b in
  ld_images st2 !! length imgs0 = Some (name, closed) /\
  (ld_i st < MAX_NUM_BBS_PER_IMAGE ->
   read (data closed) (offset closed (ld_i st)) 0 = minus_one /\
   (forall r k, 0 <= r < ld_i st -> 0 <= k <= 4 ->
      read (data closed) (offset closed r) k = read (data b) (offset b r) k) /\
   (Dtype = Float.binary32 \/ Dtype = Float.binary64 ->
    numBBs (label_view closed) <= ld_i st)) /\
  (MAX_NUM_BBS_PER_IMAGE <= ld_i st -> closed = b).
Proof.
  intros Hpre Himgs Hname H1 H2. cbn zeta.
  pose proof (read_lines_wf _ _ _ wf_loader_start Hpre) as [Hwf Hi].
  assert (Hb : bb_blob b).
  { rewrite Himgs in Hwf. apply Forall_app in Hwf.
    destruct Hwf as [_ Hb]. now inversion Hb. }
  destruct (process_line_closes st line st1 imgs0 name b Himgs Hname H1)
    as (sfx & Himgs1 & Hsfx).
  destruct (read_lines_prefix st1 post st2 _ (ex_intro _ sfx (conj Himgs1 Hsfx)) H2)
    as (sfx2 & Himgs2 & _).
  split; [|split].
  - rewrite Himgs2, <- app_assoc. cbn [app].
    now apply list_lookup_middle.
  - intros Hlt. apply Z.ltb_lt in Hlt. rewrite Hlt.
    pose proof (bb_blob_finalize (ld_i st) b Hb) as Hb'.
    rewrite !(bb_blob_offset _ _ Hb'). unfold finalize. cbn [data set_data].
    rewrite (bb_blob_offset _ _ Hb). destruct Hb as [Hs Hlen].
    apply Z.ltb_lt in Hlt. unfold MAX_NUM_BBS_PER_IMAGE in *.
    split; [|split].
    + apply read_write_eq. lia.
    + intros r k Hr Hk. unfold offset, offset4, axis. cbn [shape set_data].
      rewrite Hs. cbn [nth]. apply read_write_ne. lia.
    + intros HD. pose proof (minus_one_eqb HD) as Hrefl.
      set (closed := label_view _).
      assert (Hax : axis closed 1 = 20) by reflexivity.
      destruct (numBBs_spec closed) as (Hn & Hreal & _); [rewrite Hax; lia|].
      destruct (Z.le_gt_cases (numBBs closed) (ld_i st)) as [Hle|Hgt];
        [exact Hle|exfalso].
      specialize (Hreal (ld_i st) ltac:(lia)).
      assert (Hoff : offset2 closed 0 (ld_i st) = 5 * ld_i st).
      { unfold offset2, offset4, axis. cbn. lia. }
      rewrite Hoff in Hreal. unfold closed, finalize in Hreal.
      cbn [label_view data set_data] in Hreal.
      rewrite ?(bb_blob_offset b _ (conj Hs Hlen)) in Hreal.
      rewrite read_write_eq in Hreal by lia. congruence.
  - intros Hge. apply Z.ltb_ge in Hge. now rewrite Hge.
Qed.

End LoaderEdges.

(** ** The boxes beyond the maximum (claim C9) *)

Section SkippedBoxes.

Context `{E : Externals}.

Lemma write_bb_row_other i l x1 y1 x2 y2 b r :
  bb_blob b -> 0 <= i < MAX_NUM_BBS_PER_IMAGE ->
  0 <= r < MAX_NUM_BBS_PER_IMAGE -> r <> i ->
  bb_row (write_bb i l x1 y1 x2 y2 b) r = bb_row b r.
Proof.
  intros Hb Hi Hr Hne.
  pose proof (bb_blob_write_bb i l x1 y1 x2 y2 b Hb) as Hb'.
  unfold bb_row. rewrite (bb_blob_offset _ r Hb'), (bb_blob_offset _ r Hb).
  unfold write_bb. rewrite (bb_blob_offset _ i Hb). cbn [data set_data map].
  unfold MAX_NUM_BBS_PER_IMAGE in *.
  now rewrite !read_write_ne by lia.
Qed.

(** A line of the current image whose box is stored. *)
Lemma process_line_same_file st line st' imgs0 name b :
  ld_current_filename st = filename line ->
  ld_images st = imgs0 ++ [(name, b)] ->
  ld_i st < MAX_NUM_BBS_PER_IMAGE ->
  process_line st line = Ok st' ->
  exists label xmin ymin xmax ymax,
    Dtype_stof (entry (split line) 1) = Ok label /\
    Dtype_stof (entry (split line) 3) = Ok xmin /\
    Dtype_stof (entry (split line) 4) = Ok ymin /\
    Dtype_stof (entry (split line) 5) = Ok xmax /\
    Dtype_stof (entry (split line) 6) = Ok ymax /\
    ld_images st'
    = imgs0 ++ [(name, write_bb (ld_i st) label xmin ymin xmax ymax b)] /\
    ld_current_filename st' = ld_current_filename st /\
    ld_i st' = ld_i st + 1.
Proof.
  intros Hname Himgs Hi. unfold process_line, filename in *.
  destruct (check _ _); cbn [bind]; [|discriminate].
  unfold new_image. rewrite Hname, String.eqb_refl. cbn [bind].
  unfold store_bb.
  replace (ld_i st <? MAX_NUM_BBS_PER_IMAGE) with true
    by (symmetry; now apply Z.ltb_lt).
  destruct (check _ _); cbn [bind]; [|discriminate].
  destruct (Dtype_stof (entry (split line) 1)) as [label|]; cbn [bind];
    [|discriminate].
  destruct (Dtype_stof (entry (split line) 3)) as [xmin|]; cbn [bind];
    [|discriminate].
  destruct (Dtype_stof (entry (split line) 4)) as [ymin|]; cbn [bind];
    [|discriminate].
  destruct (Dtype_stof (entry (split line) 5)) as [xmax|]; cbn [bind];
    [|discriminate].
  destruct (Dtype_stof (entry (split line) 6)) as [ymax|]; cbn [bind];
    [|discriminate].
  intros [= <-]. exists label, xmin, ymin, xmax, ymax.
  cbn [ld_images ld_current_filename ld_i].
  rewrite Himgs, update_back_snoc. cbn [on_blob fst snd]. auto 10.
Qed.

(** A line of the current image whose box is skipped. *)
Lemma process_line_skipped st line st' :
  ld_current_filename st = filename line ->
  MAX_NUM_BBS_PER_IMAGE <= ld_i st ->
  process_line st line = Ok st' ->
  st' = add_warnings 1 st.
Proof.
  intros Hname Hi. unfold process_line, filename in *.
  destruct (check _ _); cbn [bind]; [|discriminate].
  unfold new_image. rewrite Hname, String.eqb_refl. cbn [bind].
  unfold store_bb.
  replace (ld_i st <? MAX_NUM_BBS_PER_IMAGE) with false
    by (symmetry; now apply Z.ltb_ge).
  intros [= <-]. unfold add_warnings. f_equal. lia.
Qed.

(** The line that opens an image. *)
Lemma process_line_new_file st line st' :
  ld_current_filename st <> filename line ->
  process_line st line = Ok st' ->
  exists imgs0 label xmin ymin xmax ymax,
    length imgs0 = length (ld_images st) /\
    Dtype_stof (entry (split line) 1) = Ok label /\
    Dtype_stof (entry (split line) 3) = Ok xmin /\
    Dtype_stof (entry (split line) 4) = Ok ymin /\
    Dtype_stof (entry (split line) 5) = Ok xmax /\
    Dtype_stof (entry (split line) 6) = Ok ymax /\
    ld_images st'
    = imgs0 ++ [(filename line,
                 write_bb 0 label xmin ymin xmax ymax
                   (Blob_new [MAX_NUM_BBS_PER_IMAGE; 5; 1; 1]))] /\
    ld_current_filename st' = filename line /\
    ld_i st' = 1.
Proof.
  intros Hname. unfold process_line, filename in *.
  destruct (check _ _); cbn [bind]; [|discriminate].
  unfold new_image. apply String.eqb_neq in Hname. rewrite Hname.
  destruct (check _ _); cbn [bind]; [|discriminate].
  unfold store_bb. cbn [ld_i ld_images ld_current_filename ld_warnings].
  change (0 <? MAX_NUM_BBS_PER_IMAGE) with true. cbv iota.
  destruct (check _ _); cbn [bind]; [|discriminate].
  destruct (Dtype_stof (entry (split line) 1)) as [label|]; cbn [bind];
    [|discriminate].
  destruct (Dtype_stof (entry (split line) 3)) as [xmin|]; cbn [bind];
    [|discriminate].
  destruct (Dtype_stof (entry (split line) 4)) as [ymin|]; cbn [bind];
    [|discriminate].
  destruct (Dtype_stof (entry (split line) 5)) as [xmax|]; cbn [bind];
    [|discriminate].
  destruct (Dtype_stof (entry (split line) 6)) as [ymax|]; cbn [bind];
    [|discriminate].
  intros [= <-]. cbn [ld_images ld_current_filename ld_i].
  rewrite update_back_snoc. cbn [on_blob fst snd].
  eexists _, label, xmin, ymin, xmax, ymax.
  split; [|auto 10].
  destruct (_ && _); [apply update_back_length|reflexivity].
Qed.

(** The lines of the current image fill its rows in their order, up to
    row 19; [done] are the lines of the image that were read before. *)
Lemma read_lines_rows lines :
  forall st done imgs0 name b st',
    Forall (line_of (ld_current_filename st)) lines ->
    ld_images st = imgs0 ++ [(name, b)] ->
    bb_blob b ->
    ld_i st = Z.min MAX_NUM_BBS_PER_IMAGE (Z.of_nat (length done)) ->
    (forall (k : nat) line,
       (k < 20)%nat -> done !! k = Some line -> stored line b (Z.of_nat k)) ->
    read_lines st lines = Ok st' ->
    exists b',
      ld_images st' = imgs0 ++ [(name, b')] /\
      bb_blob b' /\
      ld_current_filename st' = ld_current_filename st /\
      ld_i st'
      = Z.min MAX_NUM_BBS_PER_IMAGE (Z.of_nat (length (done ++ lines))) /\
      (forall (k : nat) line,
         (k < 20)%nat -> (done ++ lines) !! k = Some line ->
         stored line b' (Z.of_nat k)).
Proof.
  induction lines as [|l lines IH];
    intros st done imgs0 name b st' Hlines Himgs Hb Hi Hrows;
    cbn [read_lines].
  - intros [= <-]. exists b. rewrite app_nil_r. auto.
  - inversion Hlines as [|? ? [Hlen Hname] Hrest]; subst.
    destruct (process_line st l) as [st1|] eqn:H1; cbn [bind]; [|discriminate].
    intros Hrun.
    replace (done ++ l :: lines) with ((done ++ [l]) ++ lines)
      by (rewrite <- app_assoc; reflexivity).
    unfold MAX_NUM_BBS_PER_IMAGE in Hi.
    destruct (Z_lt_le_dec (ld_i st) MAX_NUM_BBS_PER_IMAGE) as [Hlt|Hge].
    + assert (Hdone : ld_i st = Z.of_nat (length done))
        by (unfold MAX_NUM_BBS_PER_IMAGE in Hlt; lia).
      assert (Hlt' : ld_i st < 20) by exact Hlt.
      destruct (process_line_same_file st l st1 imgs0 name b
                  (eq_sym Hname) Himgs Hlt H1)
        as (label & xmin & ymin & xmax & ymax
            & Hl & Hx1 & Hy1 & Hx2 & Hy2 & Himgs1 & Hn1 & Hi1).
      rewrite <- Hn1.
      apply (IH st1 (done ++ [l]) imgs0 name
               (write_bb (ld_i st) label xmin ymin xmax ymax b) st');
        try assumption.
      * now rewrite Hn1.
      * now apply bb_blob_write_bb.
      * rewrite Hi1, length_app. cbn [length].
        unfold MAX_NUM_BBS_PER_IMAGE. lia.
      * intros k line Hk Hlook.
        destruct (Nat.lt_ge_cases k (length done)) as [Hin|Hout].
        -- rewrite lookup_app_l in Hlook by exact Hin.
           destruct (Hrows k line Hk Hlook)
             as (l' & a1 & a2 & a3 & a4 & E1 & E2 & E3 & E4 & E5 & Hrow).
           exists l', a1, a2, a3, a4.
           repeat (split; [assumption|]).
           rewrite write_bb_row_other; unfold MAX_NUM_BBS_PER_IMAGE;
             [exact Hrow|exact Hb|lia|lia|lia].
        -- rewrite lookup_app_r in Hlook by exact Hout.
           destruct (k - length done)%nat as [|n] eqn:Hk'; [|destruct n; discriminate].
           cbn in Hlook. injection Hlook as <-.
           assert (Hki : Z.of_nat k = ld_i st) by lia.
           exists label, xmin, ymin, xmax, ymax.
           repeat (split; [assumption|]).
           rewrite Hki. apply write_bb_row; [exact Hb|].
           unfold MAX_NUM_BBS_PER_IMAGE. lia.
    + pose proof (process_line_skipped st l st1 (eq_sym Hname) Hge H1) as ->.
      assert (Hge' : 20 <= ld_i st) by exact Hge.
      apply (IH (add_warnings 1 st) (done ++ [l]) imgs0 name b st');
        try assumption.
      * cbn [add_warnings ld_i]. rewrite length_app. cbn [length].
        unfold MAX_NUM_BBS_PER_IMAGE. lia.
      * intros k line Hk Hlook.
        rewrite lookup_app_l in Hlook by lia. now apply Hrows.
Qed.

(** An image with 20 boxes is written no more, whatever follows. *)
Lemma read_lines_full_record post :
  forall st st' imgs0 name b,
    ld_images st = imgs0 ++ [(name, b)] ->
    MAX_NUM_BBS_PER_IMAGE <= ld_i st ->
    read_lines st post = Ok st' ->
    ld_images st' !! length imgs0 = Some (name, b).
Proof.
  induction post as [|l post IH]; intros st st' imgs0 name b Himgs Hi;
    cbn [read_lines].
  - intros [= <-]. rewrite Himgs. now apply list_lookup_middle.
  - destruct (process_line st l) as [st1|] eqn:H1; cbn [bind]; [|discriminate].
    intros Hrun.
    destruct (String.eqb_spec (ld_current_filename st) (filename l))
      as [Hname|Hname].
    + pose proof (process_line_skipped st l st1 Hname Hi H1) as ->.
      now apply (IH (add_warnings 1 st) st' imgs0 name b).
    + destruct (process_line_closes st l st1 imgs0 name b Himgs Hname H1)
        as (sfx & Himgs1 & Hsfx).
      replace (ld_i st <? MAX_NUM_BBS_PER_IMAGE) with false in Himgs1
        by (symmetry; now apply Z.ltb_ge).
      destruct (read_lines_prefix st1 post st' _
                  (ex_intro _ sfx (conj Himgs1 Hsfx)) Hrun)
        as (sfx' & Himgs' & _).
      rewrite Himgs', <- app_assoc. cbn [app].
      now apply list_lookup_middle.
Qed.

(** C9.  When a file name stands on more than 20 lines in a row, reading
    the file gives what reading it without the lines after the 20th gives:
    the same failure, or the same image entries, with one more warning for
    each line left out.  And when the file is read, the image of these
    lines comes after the images of the lines before them, and the 20 rows
    of its blob hold the boxes of the first 20 of the lines, in their
    order: row [k] is what [std::stof] reads in line [k]. *)
Theorem C9_boxes_beyond_max_are_skipped source source20 pre run post f :
  Forall (line_of f) run ->
  (20 < length run)%nat ->
  last_filename pre <> f ->
  ifstream source = Some (pre ++ run ++ post) ->
  ifstream source20 = Some (pre ++ firstn 20 run ++ post) ->
  _loadBBTXTFile source []
  = more_warnings (length run - 20) (_loadBBTXTFile source20 []) /\
  (forall st0 imgs w,
     read_lines (Loader_start []) pre = Ok st0 ->
     _loadBBTXTFile source [] = Ok (imgs, w) ->
     exists blob,
       imgs !! length (ld_images st0) = Some (f, blob) /\
       bb_blob blob /\
       forall (k : nat) line,
         (k < 20)%nat -> run !! k = Some line ->
         stored line blob (Z.of_nat k)).
Proof.
  intros Hrun Hlen Hpre Hsrc Hsrc20. split.
  - unfold _loadBBTXTFile. rewrite Hsrc, Hsrc20. cbn [of_option bind].
    rewrite <- (firstn_skipn 20 run) at 1.
    rewrite <- app_assoc, !read_lines_app.
    destruct (read_lines (Loader_start []) pre) as [st0|] eqn:H0;
      cbn [bind]; [|reflexivity].
    assert (Hst0 : ld_current_filename st0 <> f).
    { rewrite (read_lines_filename _ _ _ H0). unfold last_filename in Hpre.
      destruct (last pre); exact Hpre. }
    rewrite !read_lines_app.
    destruct (read_lines st0 (firstn 20 run)) as [st1|] eqn:H1;
      cbn [bind]; [|reflexivity].
    rewrite read_lines_app.
    assert (Hfirst : Forall (line_of f) (firstn 20 run))
      by now apply Forall_take.
    assert (Hskip : Forall (line_of f) (skipn 20 run))
      by now apply Forall_drop.
    destruct (read_lines_new_file st0 f (firstn 20 run) st1 Hfirst) as [Hn Hi];
      [rewrite length_firstn; lia|exact Hst0|exact H1|].
    rewrite <- Hn in Hskip.
    rewrite (read_lines_full st1 _ Hskip) by lia. cbn [bind].
    rewrite read_lines_warnings, length_skipn.
    destruct (read_lines st1 post) as [st2|];
      cbn [bind fmap_result more_warnings]; reflexivity.
  - intros st0 imgs w H0. unfold _loadBBTXTFile.
    rewrite Hsrc. cbn [of_option bind]. rewrite read_lines_app, H0.
    cbn [bind].
    assert (Hst0 : ld_current_filename st0 <> f).
    { rewrite (read_lines_filename _ _ _ H0). unfold last_filename in Hpre.
      destruct (last pre); exact Hpre. }
    pose proof (read_lines_wf _ _ _ wf_loader_start H0) as Hwf0.
    destruct run as [|l0 rest]; [cbn [length] in Hlen; lia|].
    inversion Hrun as [|? ? [Hlen0 Hname0] Hrest]; subst.
    cbn [app read_lines].
    destruct (process_line st0 l0) as [s1|] eqn:H1; cbn [bind];
      [|discriminate].
    rewrite read_lines_app.
    destruct (read_lines s1 rest) as [st1|] eqn:H2; cbn [bind];
      [|discriminate].
    destruct (read_lines st1 post) as [st2|] eqn:H3; cbn [bind];
      [|discriminate].
    intros [= <- _].
    destruct (process_line_new_file st0 l0 s1 Hst0 H1)
      as (imgs0 & label & xmin & ymin & xmax & ymax
          & Hlen0' & Hl & Hx1 & Hy1 & Hx2 & Hy2 & Himgs1 & Hn1 & Hi1).
    assert (Hb1 : bb_blob (write_bb 0 label xmin ymin xmax ymax
                             (Blob_new [MAX_NUM_BBS_PER_IMAGE; 5; 1; 1])))
      by (apply bb_blob_write_bb, bb_blob_new).
    destruct (read_lines_rows rest s1 [l0] imgs0 (filename l0)
                (write_bb 0 label xmin ymin xmax ymax
                   (Blob_new [MAX_NUM_BBS_PER_IMAGE; 5; 1; 1])) st1)
      as (blob & Himgs2 & Hb2 & Hn2 & Hi2 & Hrows);
      try assumption.
    + now rewrite Hn1.
    + intros k line Hk Hlook. destruct k as [|k]; [|destruct k; discriminate].
      cbn in Hlook. injection Hlook as <-.
      exists label, xmin, ymin, xmax, ymax.
      repeat (split; [assumption|]).
      apply write_bb_row; [apply bb_blob_new|].
      unfold MAX_NUM_BBS_PER_IMAGE. lia.
    + exists blob. rewrite <- Hlen0'. split; [|split; [exact Hb2|]].
      * apply (read_lines_full_record post st1 st2 imgs0 _ blob Himgs2);
          [|exact H3].
        rewrite Hi2. cbn [app length] in *.
        unfold MAX_NUM_BBS_PER_IMAGE. lia.
      * intros k line Hk Hlook. now apply Hrows.
Qed.

End SkippedBoxes.

Lemma C9_boxes_beyond_max_witness :
  _loadBBTXTFile (E := More.W1) "long.bbtxt" []
  = more_warnings 2 (_loadBBTXTFile (E := More.W1) "short.bbtxt" []) /\
  exists imgs w blob,
    _loadBBTXTFile (E := More.W1) "long.bbtxt" [] = Ok (imgs, w) /\
    imgs !! 1%nat = Some ("b.jpg"%string, blob) /\
    stored (E := More.W1) "b.jpg 2 0.5 19 19 29 29" blob 19.
Proof.
  destruct (C9_boxes_beyond_max_are_skipped (E := More.W1)
              "long.bbtxt" "short.bbtxt"
              ["a.jpg 1 1.0 1 1 5 5"%string] More.run22
              ["c.jpg 3 1.0 0 0 1 1"%string] "b.jpg")
    as [Hcut Hrows].
  - unfold More.run22.
    repeat (apply List.Forall_cons; [split; reflexivity|]).
    apply List.Forall_nil.
  - cbn. lia.
  - cbv. discriminate.
  - reflexivity.
  - reflexivity.
  - split; [exact Hcut|].
    assert (Hrun : exists r,
               _loadBBTXTFile (E := More.W1) "long.bbtxt" [] = Ok r)
      by (eexists; vm_compute; reflexivity).
    destruct Hrun as [[imgs w] Hrun].
    destruct (Hrows More.after_a imgs w) as (blob & Hlook & _ & Hstored);
      [vm_compute; reflexivity|exact Hrun|].
    exists imgs, w, blob. split; [exact Hrun|]. split; [exact Hlook|].
    apply (Hstored 19%nat); [lia|reflexivity].
Defined.

(** ** More about the boxes and the crop *)

Section BoxesAndCrop.

Context `{E : Externals}.

(** X7.  [numBBs] returns the only [n] between 0 and the number of rows
    such that no row before [n] has the label -1 and row [n], if there is
    one, has it: the boxes are the rows before the first label -1, and a
    blob without that label counts as full. *)
Theorem X7_numBBs_is_the_first_sentinel labels n :
  0 <= axis labels 1 ->
  numBBs labels = n <->
  0 <= n <= axis labels 1 /\
  (forall b, 0 <= b < n ->
     Float.eqb (read (data labels) (offset2 labels 0 b) 0) minus_one = false) /\
  (n < axis labels 1 ->
     Float.eqb (read (data labels) (offset2 labels 0 n) 0) minus_one = true).
Proof.
  intros Hax. destruct (numBBs_spec labels Hax) as (Hn & Hreal & Hend). split.
  - intros <-. auto.
  - intros (Hn' & Hreal' & Hend').
    destruct (Z.lt_trichotomy (numBBs labels) n) as [Hlt|[Heq|Hgt]];
      [exfalso|exact Heq|exfalso].
    + assert (H1 : numBBs labels < axis labels 1) by lia.
      assert (H2 : 0 <= numBBs labels < n) by lia.
      apply Hend in H1. apply Hreal' in H2. congruence.
    + assert (H1 : n < axis labels 1) by lia.
      assert (H2 : 0 <= n < numBBs labels) by lia.
      apply Hend' in H1. apply Hreal in H2. congruence.
Qed.

Lemma numBBs_loop_ext l1 l2 i fuel :
  axis l1 1 = axis l2 1 ->
  (forall b, i <= b < i + Z.of_nat fuel ->
     read (data l1) (offset2 l1 0 b) 0 = read (data l2) (offset2 l2 0 b) 0) ->
  numBBs_loop l1 i fuel = numBBs_loop l2 i fuel.
Proof.
  intros Hax. revert i. induction fuel as [|fuel IH]; intros i Hrd;
    cbn [numBBs_loop]; [exact Hax|].
  rewrite (Hrd i) by lia.
  destruct (Float.eqb _ _); [reflexivity|].
  apply IH. intros b Hb. apply Hrd. lia.
Qed.

(** X8.  The remapping of the boxes leaves every label as it is, and so
    the number of boxes: [numBBs] gives the same for the labels before
    and after the crop. *)
Theorem X8_remapping_keeps_the_boxes P lbl c :
  label_blob lbl ->
  numBBs (remap_labels P lbl c) = numBBs lbl /\
  forall b, 0 <= b < 20 ->
    read (data (remap_labels P lbl c)) (offset2 (remap_labels P lbl c) 0 b) 0
    = read (data lbl) (offset2 lbl 0 b) 0.
Proof.
  intros Hlbl.
  assert (Hlbl' : label_blob (remap_labels P lbl c)).
  { destruct Hlbl as [Hs Hl]. split; [exact Hs|].
    unfold remap_labels. cbn [data set_data]. now rewrite update_bbs_length. }
  pose proof (label_blob_axis lbl Hlbl) as Hax.
  pose proof (label_blob_axis _ Hlbl') as Hax'.
  destruct (numBBs_spec lbl) as (Hn & _); [lia|]. rewrite Hax in Hn.
  assert (Hrd : forall b, 0 <= b < 20 ->
            read (data (remap_labels P lbl c))
                 (offset2 (remap_labels P lbl c) 0 b) 0
            = read (data lbl) (offset2 lbl 0 b) 0).
  { intros b Hb.
    rewrite (label_blob_offset _ b Hlbl), (label_blob_offset _ b Hlbl').
    unfold remap_labels. cbn [data set_data]. pose proof Hlbl as [_ Hlen].
    rewrite update_bbs_read
      by first [exact Hlbl | rewrite ?Z2Nat.id by lia; lia].
    unfold remapped. cbn [Z.eqb]. now destruct (_ && _). }
  split; [|exact Hrd].
  unfold numBBs. rewrite Hax, Hax'.
  apply numBBs_loop_ext; [congruence|].
  intros b Hb. apply Hrd. cbn in Hb. lia.
Qed.

Lemma in_int_spec z :
  in_int z = true <-> -2147483648 <= z <= 2147483647.
Proof.
  unfold in_int.
  change Float.int_min with (-2147483648).
  change Float.int_max with 2147483647.
  rewrite andb_true_iff, !Z.leb_le. reflexivity.
Qed.



(** X10.  A crop window that lies inside the image needs no border, and
    the crop holds the pixels of the window as they are in the image.
    The numbers of rows and columns of the image are [int], as those of a
    [cv::Mat] are. *)
Theorem X10_window_inside_the_image cv_img c :
  rows cv_img <= Float.int_max -> cols cv_img <= Float.int_max ->
  0 <= crop_x c -> 0 <= crop_y c ->
  0 <= crop_width c -> 0 <= crop_height c ->
  crop_x c + crop_width c <= cols cv_img ->
  crop_y c + crop_height c <= rows cv_img ->
  channels cv_img = 3 ->
  border_left c = Ok 0 /\ border_top c = Ok 0 /\
  border_right c cv_img = Ok 0 /\ border_bottom c cv_img = Ok 0 /\
  exists m,
    pad_and_crop cv_img c = Ok m /\
    rows m = crop_height c /\ cols m = crop_width c /\
    forall i j k,
      0 <= i < crop_height c -> 0 <= j < crop_width c -> 0 <= k < 3 ->
      ptr m i (j * 3 + k) = ptr cv_img (crop_y c + i) ((crop_x c + j) * 3 + k).
Proof.
  intros Hrows Hcols Hx Hy Hw Hh Hr Hb Hch.
  change Float.int_max with 2147483647 in Hrows, Hcols.
  assert (Hl : left_fits c = true).
  { unfold left_fits. apply orb_true_iff. left. now apply Z.leb_le. }
  assert (Ht : top_fits c = true).
  { unfold top_fits. apply orb_true_iff. left. now apply Z.leb_le. }
  assert (Hrf : right_fits c cv_img = true).
  { unfold right_fits. apply andb_true_iff. split.
    - apply in_int_spec. lia.
    - apply orb_true_iff. left. now apply Z.leb_le. }
  assert (Hbf : bottom_fits c cv_img = true).
  { unfold bottom_fits. apply andb_true_iff. split.
    - apply in_int_spec. lia.
    - apply orb_true_iff. left. now apply Z.leb_le. }
  assert (Hfit : no_overflow cv_img c = true).
  { unfold no_overflow. now rewrite Hl, Ht, Hrf, Hbf. }
  rewrite border_left_eq, border_top_eq, border_right_eq, border_bottom_eq.
  rewrite Hl, Ht, Hrf, Hbf.
  split; [f_equal; lia|]. split; [f_equal; lia|].
  split; [f_equal; lia|]. split; [f_equal; lia|].
  rewrite (pad_and_crop_ok cv_img c Hfit Hw Hh). eexists.
  split; [reflexivity|].
  cbn [rows cols ptr]. split; [reflexivity|]. split; [reflexivity|].
  intros i j k Hi Hj Hk. rewrite Hch.
  replace (Z.max 0 (- crop_x c)) with 0 by lia.
  replace (Z.max 0 (- crop_y c)) with 0 by lia.
  replace ((crop_x c + 0) * 3 + (j * 3 + k))
    with ((crop_x c + j) * 3 + k) by lia.
  rewrite interleaved_div, interleaved_mod by exact Hk.
  unfold clamp. f_equal; lia.
Qed.

(** X11.  The normalisation writes the [3 * height * width] values of
    the image and nothing behind them: the buffer keeps its length and
    every value from that place on. *)
Theorem X11_normalisation_stays_in_the_image P m td (p : nat) :
  (Z.to_nat (3 * bbtxt_height P * bbtxt_width P) <= p)%nat ->
  length (normalize_image P m td) = length td /\
  normalize_image P m td !! p = td !! p.
Proof.
  intros Hp. unfold normalize_image. split; [apply row_loop_length|].
  apply row_loop_frame. intros c' i' j' Hc Hi Hj.
  pose proof (planar_bound (bbtxt_height P) (bbtxt_width P) c' i' j' Hc) as Hb.
  lia.
Qed.

End BoxesAndCrop.

(** ** More about the batches *)

Section Batches.

Context `{E : Externals}.

(** X12.  With a generator that keeps to the bounds of its distribution,
    the box that the crop is made for is one of the boxes before the first
    label -1, and the origin of the crop lies between the two bounds that
    the distribution was given: [x + w - crop_width] and [x], and the same
    for [y], each after its conversion to [int]. *)
Theorem X12_the_draws_stay_in_their_bounds P lbl g bb_id c g' :
  uniform_int_in_range ->
  0 <= axis lbl 1 ->
  select_crop P lbl g = Ok (bb_id, c, g') ->
  let d := data lbl in
  let bb := offset2 lbl 0 bb_id in
  let w := Dsub (read d bb 3) (read d bb 1) in
  let h := Dsub (read d bb 4) (read d bb 2) in
  0 <= bb_id < numBBs lbl /\
  Float.eqb (read d bb 0) minus_one = false /\
  exists xlo xhi ylo yhi,
    Float.to_int (Dsub (Dadd (read d bb 1) w)
                       (Float.of_int Dtype (crop_width c))) = Some xlo /\
    Float.to_int (read d bb 1) = Some xhi /\
    Float.to_int (Dsub (Dadd (read d bb 2) h)
                       (Float.of_int Dtype (crop_height c))) = Some ylo /\
    Float.to_int (read d bb 2) = Some yhi /\
    xlo <= crop_x c <= xhi /\ ylo <= crop_y c <= yhi.
Proof.
  intros Hrng Hax Hsel. cbn zeta.
  destruct (select_crop_draws P lbl g bb_id c g' Hrng Hsel) as [Hbb Hbounds].
  split; [exact Hbb|]. split; [|exact Hbounds].
  destruct (numBBs_spec lbl Hax) as (_ & Hreal & _). now apply Hreal.
Qed.

Lemma select_crop_fatal P lbl g e :
  select_crop P lbl g = Fatal e -> e = BoostAssertion \/ e = UndefinedBehaviour.
Proof.
  unfold select_crop, draw.
  destruct (numBBs lbl - 1 <? 0) eqn:?; destruct (0 <=? numBBs lbl - 1);
    cbn [check bind]; try (intros [= <-]; auto).
  all: destruct (uniform_int 0 (numBBs lbl - 1) g) as [bb g1];
    destruct (crop_dimension (bbtxt_width P) _ _); cbn [of_option bind];
      try (intros [= <-]; now auto);
    destruct (crop_dimension (bbtxt_height P) _ _); cbn [of_option bind];
      try (intros [= <-]; now auto);
    destruct (origin_bounds _ _ _) as [[xlo xhi]|]; cbn [of_option bind];
      try (intros [= <-]; now auto);
    destruct (xlo <=? xhi); cbn [check bind]; try (intros [= <-]; now auto);
    destruct (origin_bounds _ _ _) as [[ylo yhi]|]; cbn [of_option bind];
      try (intros [= <-]; now auto);
    destruct (ylo <=? yhi); cbn [check bind]; try (intros [= <-]; now auto);
    destruct (uniform_int xlo xhi g1) as [cx g2];
    destruct (uniform_int ylo yhi g2) as [cy g3]; discriminate.
Qed.

Lemma pad_and_crop_fatal cv_img c e :
  pad_and_crop cv_img c = Fatal e ->
  e = OpenCVAssertion \/ e = UndefinedBehaviour.
Proof.
  unfold pad_and_crop. rewrite pad_eq.
  destruct (no_overflow cv_img c); cbn zeta; cbn [bind];
    [|intros [= <-]; now right].
  unfold roi.
  destruct (check _ _) eqn:Hc; cbn [bind]; [discriminate|].
  unfold check in Hc. destruct (_ && _); [discriminate|].
  intros [= <-]. injection Hc as <-. now left.
Qed.

Lemma resize_fatal src w h e : resize src w h = Fatal e -> e = OpenCVAssertion.
Proof.
  unfold resize. destruct (check _ _) eqn:Hc; cbn [bind]; [discriminate|].
  unfold check in Hc. destruct (_ && _); congruence.
Qed.

Lemma resize_size src w h m : resize src w h = Ok m -> rows m = h /\ cols m = w.
Proof.
  unfold resize. destruct (check _ _); cbn [bind]; [|discriminate].
  intros [= <-]. auto.
Qed.

Lemma crop_and_resize_fatal P cv_img lbl g e :
  crop_and_resize P cv_img lbl g = Fatal e ->
  e = OpenCVAssertion \/ e = BoostAssertion \/ e = UndefinedBehaviour.
Proof.
  unfold crop_and_resize. destruct (Float.eqb _ _).
  - destruct (resize cv_img _ _) eqn:Hr; cbn [bind]; [discriminate|].
    intros [= <-]. left. now apply resize_fatal in Hr.
  - destruct (select_crop P lbl g) as [[[bb c] g1]|e1] eqn:Hs; cbn [bind].
    + destruct (pad_and_crop cv_img c) as [cropped|e2] eqn:Hp; cbn [bind].
      * destruct (resize cropped _ _) eqn:Hr; cbn [bind]; [discriminate|].
        intros [= <-]. left. now apply resize_fatal in Hr.
      * intros [= <-]. apply pad_and_crop_fatal in Hp.
        destruct Hp as [Hp|Hp]; auto.
    + intros [= <-]. right. now apply select_crop_fatal in Hs.
Qed.

Lemma crop_and_resize_size P cv_img lbl g m lbl' g' :
  crop_and_resize P cv_img lbl g = Ok (m, lbl', g') ->
  rows m = bbtxt_height P /\ cols m = bbtxt_width P.
Proof.
  unfold crop_and_resize. destruct (Float.eqb _ _).
  - destruct (resize cv_img _ _) eqn:Hr; cbn [bind]; [|discriminate].
    intros [= <- _ _]. now apply resize_size in Hr.
  - destruct (select_crop P lbl g) as [[[bb c] g1]|e1]; cbn [bind];
      [|discriminate].
    destruct (pad_and_crop cv_img c) as [cropped|e2]; cbn [bind];
      [|discriminate].
    destruct (resize cropped _ _) eqn:Hr; cbn [bind]; [|discriminate].
    intros [= <- _ _]. now apply resize_size in Hr.
Qed.

Lemma transformImage_fatal P cv_img ti tl g e :
  axis ti 2 = bbtxt_height P -> axis ti 3 = bbtxt_width P ->
  _transformImage P cv_img ti tl g = Fatal e ->
  e = NotThreeChannels \/ e = OpenCVAssertion \/ e = BoostAssertion \/
  e = UndefinedBehaviour.
Proof.
  intros Hh Hw. unfold _transformImage.
  destruct (channels cv_img =? 3); cbn [check bind];
    [|intros [= <-]; now auto].
  destruct (crop_and_resize P cv_img tl g) as [[[m l] g1]|e1] eqn:Hc;
    cbn [bind].
  - destruct (crop_and_resize_size _ _ _ _ _ _ _ Hc) as [Hr Hcl].
    rewrite Hr, Hcl, Hh, Hw, !Z.eqb_refl. cbn [check bind]. discriminate.
  - intros [= <-]. right. now apply crop_and_resize_fatal in Hc.
Qed.

Lemma advance_fields L :
  layer_param_ (fst (advance L)) = layer_param_ L /\
  transformed_data_ (fst (advance L)) = transformed_data_ L /\
  transformed_label_ (fst (advance L)) = transformed_label_ L.
Proof.
  unfold advance. destruct (_ <=? _); [|cbn; auto].
  destruct (image_data_shuffle _); [|cbn; auto].
  unfold _shuffleImages. destruct (shuffle _ _). cbn. auto.
Qed.

Lemma load_one_fields L batch b L' batch' evs :
  load_one L batch b = Ok (L', batch', evs) ->
  layer_param_ L' = layer_param_ L /\
  transformed_data_ L' = transformed_data_ L /\
  transformed_label_ L' = transformed_label_ L.
Proof.
  unfold load_one.
  destruct (check (0 <=? _i_global L) _); cbn [bind]; [|discriminate].
  destruct (of_option (_images L !! _) _) as [im|]; cbn [bind]; [|discriminate].
  destruct (of_option (imread (fst im)) _) as [cv_img|]; cbn [bind];
    [|discriminate].
  destruct (_transformImage _ _ _ _ _) as [[[image' label'] g']|]; cbn [bind];
    [|discriminate].
  pose proof (advance_fields (with_rng L g')) as Hf.
  destruct (advance (with_rng L g')) as [L1 evs1].
  intros [= <- <- <-]. exact Hf.
Qed.

Lemma load_one_fatal L batch b e :
  sized L -> load_one L batch b = Fatal e -> batch_error e.
Proof.
  intros [Hh Hw]. unfold load_one, batch_error.
  destruct (0 <=? _i_global L); cbn [check bind]; [|intros [= <-]; now auto 7].
  destruct (_images L !! _) as [im|]; cbn [of_option bind];
    [|intros [= <-]; now auto 7].
  destruct (imread (fst im)) as [cv_img|]; cbn [of_option bind];
    [|intros [= <-]; now auto 7].
  destruct (_transformImage _ _ _ _ _) as [[[image' label'] g']|e1] eqn:Ht;
    cbn [bind].
  - destruct (advance (with_rng L g')). discriminate.
  - intros [= <-]. apply transformImage_fatal in Ht; [|exact Hh|exact Hw].
    destruct Ht as [H|[H|[H|H]]]; auto 7.
Qed.

Lemma load_loop_fatal L batch b fuel e :
  sized L -> load_loop L batch b fuel = Fatal e -> batch_error e.
Proof.
  revert L batch b. induction fuel as [|fuel IH]; intros L batch b Hs;
    cbn [load_loop]; [discriminate|].
  destruct (load_one L batch b) as [[[L1 batch1] evs1]|e1] eqn:H1; cbn [bind].
  - destruct (load_loop L1 batch1 (b + 1) fuel) as [[[L2 batch2] evs2]|e2] eqn:H2;
      cbn [bind]; [discriminate|].
    intros [= <-]. apply (IH L1 batch1 (b + 1)); [|exact H2].
    destruct (load_one_fields _ _ _ _ _ _ H1) as (Hp & Hd & _).
    unfold sized. now rewrite Hp, Hd.
  - intros [= <-]. now apply (load_one_fatal L batch b).
Qed.

Lemma load_loop_sized L batch b fuel L' batch' evs :
  sized L -> load_loop L batch b fuel = Ok (L', batch', evs) -> sized L'.
Proof.
  revert L batch b evs. induction fuel as [|fuel IH]; intros L batch b evs Hs;
    cbn [load_loop]; [now intros [= <- <- <-]|].
  destruct (load_one L batch b) as [[[L1 batch1] evs1]|] eqn:H1; cbn [bind];
    [|discriminate].
  destruct (load_loop L1 batch1 (b + 1) fuel) as [[[L2 batch2] evs2]|] eqn:H2;
    cbn [bind]; [|discriminate].
  intros [= <- <- <-]. apply (IH L1 batch1 (b + 1) evs2); [|exact H2].
  destruct (load_one_fields _ _ _ _ _ _ H1) as (Hp & Hd & _).
  unfold sized. now rewrite Hp, Hd.
Qed.

(** X13.  The checks that follow the crop never fail.  [DataLayerSetUp]
    gives the blob for the transformed image the height and the width of
    the network input, [load_batch] keeps them, and [cv::resize] returns
    an image of that size: a batch stops for an empty blob, an image that
    cannot be read or has not three channels, an assertion of OpenCV or
    boost, or undefined behaviour, and never for a wrong crop height or
    width. *)
Theorem X13_the_crop_checks_never_fail :
  (forall P seed L, DataLayerSetUp P seed = Ok L -> sized L) /\
  (forall L batch L' batch' evs,
     sized L -> load_batch L batch = Ok (L', batch', evs) -> sized L') /\
  (forall L batch e,
     sized L -> load_batch L batch = Fatal e ->
     batch_error e /\ e <> WrongCropHeight /\ e <> WrongCropWidth).
Proof.
  split; [|split].
  - intros P seed L. unfold DataLayerSetUp.
    destruct (_loadBBTXTFile _ _) as [[imgs w]|]; cbn [bind]; [|discriminate].
    destruct (check _ _); cbn [bind]; [|discriminate].
    intros [= <-]. destruct (image_data_shuffle P).
    + unfold sized, _shuffleImages. cbn [_images _rng].
      destruct (shuffle imgs (rng_seed seed)). cbn. split; reflexivity.
    + unfold sized. cbn. split; reflexivity.
  - intros L batch L' batch' evs Hs. unfold load_batch.
    destruct (check _ _); cbn [bind]; [|discriminate].
    destruct (check _ _); cbn [bind]; [|discriminate].
    now apply load_loop_sized.
  - intros L batch e Hs Hrun.
    assert (He : batch_error e).
    { revert Hrun. unfold load_batch.
      destruct (negb (count (data_ batch) =? 0)); cbn [check bind];
        [|intros [= <-]; left; reflexivity].
      destruct (negb (count (transformed_data_ L) =? 0)); cbn [check bind];
        [|intros [= <-]; left; reflexivity].
      now apply load_loop_fatal. }
    split; [exact He|].
    unfold batch_error in He.
    repeat split; intros ->;
      destruct He as [H|[H|[H|[H|[H|H]]]]]; discriminate.
Qed.

(** X14.  An image whose first label is -1 is resized as a whole: no box
    is drawn, the generator and the labels are left as they are, and the
    image goes through exactly when it has three channels and is not
    empty, the network input has a positive size, and the blob for the
    image has that size. *)
Theorem X14_an_image_without_boxes P cv_img ti tl g :
  Float.eqb (read (data tl) 0 0) minus_one = true ->
  (forall ti' tl' g',
     _transformImage P cv_img ti tl g = Ok (ti', tl', g') ->
     tl' = tl /\ g' = g /\
     ti' = set_data ti
             (normalize_image P
                {| rows := bbtxt_height P; cols := bbtxt_width P;
                   channels := channels cv_img;
                   ptr := resize_pixels cv_img (bbtxt_width P) (bbtxt_height P) |}
                (data ti))) /\
  ((exists r, _transformImage P cv_img ti tl g = Ok r) <->
   channels cv_img = 3 /\ empty cv_img = false /\
   0 < bbtxt_width P /\ 0 < bbtxt_height P /\
   axis ti 2 = bbtxt_height P /\ axis ti 3 = bbtxt_width P).
Proof.
  intros Hnone. unfold _transformImage, crop_and_resize, resize.
  rewrite Hnone. split.
  - intros ti' tl' g'.
    destruct (channels cv_img =? 3); cbn [check bind]; [|discriminate].
    destruct (negb (empty cv_img) && _ && _); cbn [check bind]; [|discriminate].
    cbn [rows cols].
    destruct (bbtxt_height P =? axis ti 2); cbn [check bind]; [|discriminate].
    destruct (bbtxt_width P =? axis ti 3); cbn [check bind]; [|discriminate].
    intros [= <- <- <-]. auto.
  - split.
    + intros [r Hr]. revert Hr.
      destruct (Z.eqb_spec (channels cv_img) 3); cbn [check bind];
        [|discriminate].
      destruct (empty cv_img); cbn [negb andb check bind]; [discriminate|].
      destruct (Z.ltb_spec 0 (bbtxt_width P)); cbn [andb check bind];
        [|discriminate].
      destruct (Z.ltb_spec 0 (bbtxt_height P)); cbn [andb check bind];
        [|discriminate].
      cbn [rows cols].
      destruct (Z.eqb_spec (bbtxt_height P) (axis ti 2)); cbn [check bind];
        [|discriminate].
      destruct (Z.eqb_spec (bbtxt_width P) (axis ti 3)); cbn [check bind];
        [|discriminate].
      intros _. repeat split; auto.
    + intros (Hc & He & Hw & Hh & Hah & Haw).
      rewrite Hc, He, Hah, Haw. cbn [Z.eqb Pos.eqb negb andb check bind].
      replace (0 <? bbtxt_width P) with true by (symmetry; apply Z.ltb_lt; lia).
      replace (0 <? bbtxt_height P) with true by (symmetry; apply Z.ltb_lt; lia).
      cbn [andb check bind rows cols]. rewrite !Z.eqb_refl.
      cbn [check bind]. eexists. reflexivity.
Qed.





Lemma slice_lookup p off n (i : nat) :
  slice p off n !! i
  = if decide (i < Z.to_nat n)%nat then p !! (Z.to_nat off + i)%nat else None.
Proof.
  unfold slice. destruct (decide (i < Z.to_nat n)%nat).
  - rewrite lookup_take_lt by assumption. apply lookup_drop.
  - apply lookup_take_ge. lia.
Qed.

Lemma length_slice p off n :
  (Z.to_nat off + Z.to_nat n <= length p)%nat ->
  length (slice p off n) = Z.to_nat n.
Proof.
  intros H. unfold slice. rewrite length_take, length_drop. lia.
Qed.

Lemma length_blit p off src :
  (Z.to_nat off + length src <= length p)%nat ->
  length (blit p off src) = length p.
Proof.
  intros H. unfold blit.
  rewrite !length_app, length_take, length_drop. lia.
Qed.

Lemma blit_lookup_before p off src (i : nat) :
  (Z.to_nat off <= length p)%nat -> (i < Z.to_nat off)%nat ->
  blit p off src !! i = p !! i.
Proof.
  intros Hp Hi. unfold blit.
  rewrite lookup_app_l by (rewrite length_take; lia).
  now apply lookup_take_lt.
Qed.

Lemma blit_lookup_inside p off src (i : nat) :
  (Z.to_nat off <= length p)%nat ->
  (Z.to_nat off <= i < Z.to_nat off + length src)%nat ->
  blit p off src !! i = src !! (i - Z.to_nat off)%nat.
Proof.
  intros Hp Hi. unfold blit.
  rewrite lookup_app_r by (rewrite length_take; lia).
  rewrite length_take_le by lia.
  apply lookup_app_l. lia.
Qed.

Lemma blit_lookup_after p off src (i : nat) :
  (Z.to_nat off <= length p)%nat ->
  (Z.to_nat off + length src <= i)%nat ->
  blit p off src !! i = p !! i.
Proof.
  intros Hp Hi. unfold blit.
  rewrite lookup_app_r by (rewrite length_take; lia).
  rewrite length_take_le by lia.
  rewrite lookup_app_r by lia.
  rewrite lookup_drop. f_equal. lia.
Qed.

Lemma slice_blit_same p off src n :
  (Z.to_nat off <= length p)%nat -> Z.to_nat n = length src ->
  slice (blit p off src) off n = src.
Proof.
  intros Hp Hn. apply list_eq. intros i. rewrite slice_lookup.
  destruct (decide (i < Z.to_nat n)%nat).
  - rewrite blit_lookup_inside by lia. f_equal. lia.
  - symmetry. apply lookup_ge_None. lia.
Qed.

Lemma slice_blit_other p off src off' n :
  (Z.to_nat off <= length p)%nat ->
  (Z.to_nat off' + Z.to_nat n <= Z.to_nat off)%nat \/
  (Z.to_nat off + length src <= Z.to_nat off')%nat ->
  slice (blit p off src) off' n = slice p off' n.
Proof.
  intros Hp Hother. apply list_eq. intros i. rewrite !slice_lookup.
  destruct (decide (i < Z.to_nat n)%nat); [|reflexivity].
  destruct Hother.
  - apply blit_lookup_before; lia.
  - apply blit_lookup_after; lia.
Qed.

Lemma crop_and_resize_labels P cv_img lbl g m lbl' g' :
  crop_and_resize P cv_img lbl g = Ok (m, lbl', g') ->
  shape lbl' = shape lbl /\ length (data lbl') = length (data lbl).
Proof.
  unfold crop_and_resize. destruct (Float.eqb _ _).
  - destruct (resize cv_img _ _); cbn [bind]; [|discriminate].
    intros [= _ <- _]. auto.
  - destruct (select_crop P lbl g) as [[[bb c] g1]|]; cbn [bind];
      [|discriminate].
    destruct (pad_and_crop cv_img c); cbn [bind]; [|discriminate].
    destruct (resize _ _ _); cbn [bind]; [|discriminate].
    intros [= _ <- _]. unfold remap_labels. cbn [set_data shape data].
    split; [reflexivity|apply update_bbs_length].
Qed.

(** One turn of the loop of [load_batch] fills slot [b] of the batch and
    no other.  The labels of the image under the cursor are copied to the
    slot, the image is transformed for these labels and for the generator
    of the layer, and afterwards the slot holds the transformed image and
    labels; every other slot of the two blobs, and the sizes of the blobs,
    are as before. *)
Lemma load_one_slots L batch b B L' batch' evs :
  let P := layer_param_ L in
  let n := 3 * bbtxt_height P * bbtxt_width P in
  batch_for P B batch -> views_for L ->
  Forall (fun im => bb_blob (snd im)) (_images L) ->
  0 <= bbtxt_height P -> 0 <= bbtxt_width P ->
  0 <= b < B ->
  load_one L batch b = Ok (L', batch', evs) ->
  batch_for P B batch' /\
  (exists name plabel cv_img image' label' g',
     _images L !! Z.to_nat (_i_global L) = Some (name, plabel) /\
     imread name = Some cv_img /\
     _transformImage P cv_img
       (set_data (transformed_data_ L) (slot (data_ batch) n b))
       (label_view plabel) (_rng L) = Ok (image', label', g') /\
     slot (data_ batch') n b = data image' /\
     slot (label_ batch') 100 b = data label') /\
  (forall b', 0 <= b' < B -> b' <> b ->
     slot (data_ batch') n b' = slot (data_ batch) n b' /\
     slot (label_ batch') 100 b' = slot (label_ batch) 100 b').
Proof.
  intros P n (Hds & Hls & Hdl & Hll) (Htd & Htl) Himgs Hh Hw Hb.
  assert (Hn : 0 <= n) by (unfold n; nia).
  assert (Hol : offset (label_ batch) b = 100 * b).
  { unfold offset, offset4, axis. rewrite Hls.
    unfold MAX_NUM_BBS_PER_IMAGE. cbn [nth]. lia. }
  assert (Hod : offset (data_ batch) b = n * b).
  { unfold offset, offset4, axis. rewrite Hds. cbn [nth]. unfold n. ring. }
  assert (Hcl : count (transformed_label_ L) = 100).
  { unfold count. rewrite Htl. reflexivity. }
  assert (Hcd : count (transformed_data_ L) = n).
  { unfold count. rewrite Htd. cbn [fold_right]. unfold n, P. ring. }
  assert (Hfit : (Z.to_nat (n * b) + Z.to_nat n <= length (data (data_ batch)))%nat).
  { rewrite Hdl. fold P. fold n.
    assert (n * b + n <= B * n) by nia. assert (0 <= n * b) by nia. lia. }
  assert (Hfitl : (Z.to_nat (100 * b) + 100 <= length (data (label_ batch)))%nat).
  { rewrite Hll. lia. }
  unfold load_one.
  destruct (0 <=? _i_global L); cbn [check bind]; [|discriminate].
  destruct (_images L !! Z.to_nat (_i_global L)) as [[name plabel]|] eqn:Him;
    cbn [of_option bind fst snd]; [|discriminate].
  destruct (imread name) as [cv_img|] eqn:Hread; cbn [of_option bind];
    [|discriminate].
  assert (Hbb : bb_blob plabel).
  { eapply (Forall_lookup_1 (fun im => bb_blob (snd im))) in Him;
      [exact Him|exact Himgs]. }
  destruct Hbb as [Hps Hpl].
  assert (Hcp : count plabel = 100).
  { unfold count. rewrite Hps. reflexivity. }
  rewrite Hol, Hod, Hcl, Hcd, Hcp.
  assert (Hcopy : slice (data plabel) 0 100 = data plabel).
  { unfold slice. cbn [Z.to_nat skipn]. apply take_ge. rewrite Hpl.
    reflexivity. }
  rewrite Hcopy.
  rewrite (slice_blit_same (data (label_ batch)) (100 * b) (data plabel) 100)
    by (rewrite ?Hpl; lia).
  replace (set_data (transformed_label_ L) (data plabel))
    with (label_view plabel)
    by (unfold set_data, label_view; now rewrite Htl).
  fold P. fold (slot (data_ batch) n b).
  destruct (_transformImage P cv_img _ (label_view plabel) (_rng L))
    as [[[image' label'] g']|] eqn:Ht; cbn [bind]; [|discriminate].
  destruct (advance (with_rng L g')) as [L1 evs1].
  intros [= <- <- <-].
  destruct (transformImage_inv _ _ _ _ _ _ _ _ Ht) as (m & Hcrop & _ & _ & Hi').
  destruct (crop_and_resize_labels _ _ _ _ _ _ _ Hcrop) as [_ Hll'].
  cbn [label_view data] in Hll'. rewrite Hpl in Hll'.
  assert (Hli' : length (data image') = Z.to_nat n).
  { rewrite Hi'. cbn [set_data data]. unfold normalize_image.
    rewrite row_loop_length. unfold slot. now apply length_slice. }
  assert (Hmid : length (blit (data (label_ batch)) (100 * b) (data plabel))
                 = length (data (label_ batch))).
  { apply length_blit. rewrite Hpl. exact Hfitl. }
  split; [|split].
  - unfold batch_for. cbn [data_ label_ set_data shape data].
    rewrite !length_blit by (rewrite ?Hmid, ?Hll', ?Hli', ?Hpl; lia).
    auto.
  - exists name, plabel, cv_img, image', label', g'.
    split; [reflexivity|]. split; [exact Hread|]. split; [exact Ht|].
    unfold slot. cbn [data_ label_ set_data data]. split.
    + apply slice_blit_same; lia.
    + apply slice_blit_same; [rewrite Hmid; lia|now rewrite Hll'].
  - intros b' Hb' Hne. unfold slot. cbn [data_ label_ set_data data].
    assert (Hside : b' + 1 <= b \/ b + 1 <= b') by lia.
    split.
    + apply slice_blit_other; [lia|]. rewrite Hli'.
      destruct Hside; [left|right].
      * assert (n * b' + n <= n * b) by nia. assert (0 <= n * b') by nia. lia.
      * assert (n * b + n <= n * b') by nia. assert (0 <= n * b) by nia. lia.
    + rewrite slice_blit_other.
      * apply slice_blit_other; [lia|]. rewrite Hpl. lia.
      * rewrite Hmid. lia.
      * rewrite Hll'. lia.
Qed.

Lemma load_one_ready L batch b L' batch' evs :
  ready L -> load_one L batch b = Ok (L', batch', evs) ->
  ready L' /\ layer_param_ L' = layer_param_ L /\
  transformed_data_ L' = transformed_data_ L /\
  Permutation (_images L) (_images L').
Proof.
  intros (Hok & (Htd & Htl) & Himgs) Hrun.
  destruct (load_one_fields _ _ _ _ _ _ Hrun) as (Hp & Hd & Hl).
  destruct (load_one_spec _ _ _ _ _ _ Hok Hrun) as (_ & Hperm & Hi & _).
  pose proof (Permutation_length Hperm) as Hlen.
  assert (Hok' : cursor_ok L').
  { unfold cursor_ok in *. rewrite Hi, <- Hlen.
    destruct (Z.eqb_spec (_i_global L + 1) (Z.of_nat (length (_images L))));
      lia. }
  split; [|auto].
  split; [exact Hok'|]. split.
  - unfold views_for. now rewrite Hd, Hl, Hp.
  - now apply (Permutation_Forall Hperm).
Qed.

Lemma load_loop_slots fuel :
  forall L batch b0 B L' batch' evs,
    ready L ->
    0 <= bbtxt_height (layer_param_ L) -> 0 <= bbtxt_width (layer_param_ L) ->
    batch_for (layer_param_ L) B batch ->
    0 <= b0 -> b0 + Z.of_nat fuel <= B ->
    load_loop L batch b0 fuel = Ok (L', batch', evs) ->
    ready L' /\ layer_param_ L' = layer_param_ L /\
    batch_for (layer_param_ L) B batch' /\
    (forall b, b0 <= b < b0 + Z.of_nat fuel -> slot_filled L batch batch' b) /\
    (forall b, 0 <= b < B -> ~ (b0 <= b < b0 + Z.of_nat fuel) ->
       slot_kept (layer_param_ L) batch batch' b).
Proof.
  induction fuel as [|fuel IH];
    intros L batch b0 B L' batch' evs Hready Hh Hw Hfor Hb0 HB;
    cbn [load_loop].
  - intros [= <- <- <-].
    split; [exact Hready|]. split; [reflexivity|]. split; [exact Hfor|].
    split; [intros b Hb; lia|]. intros b _ _. split; reflexivity.
  - destruct (load_one L batch b0) as [[[L1 batch1] evs1]|] eqn:H1; cbn [bind];
      [|discriminate].
    destruct (load_loop L1 batch1 (b0 + 1) fuel) as [[[L2 batch2] evs2]|] eqn:H2;
      cbn [bind]; [|discriminate].
    intros [= <- <- <-].
    destruct (load_one_ready _ _ _ _ _ _ Hready H1) as (Hready1 & Hp1 & Hd1 & Hperm1).
    destruct Hready as (Hok & Hviews & Himgs).
    destruct (load_one_slots L batch b0 B L1 batch1 evs1 Hfor Hviews Himgs
                Hh Hw ltac:(lia) H1) as (Hfor1 & Hfill & Hkeep).
    destruct (IH L1 batch1 (b0 + 1) B L2 batch2 evs2 Hready1
                ltac:(now rewrite Hp1) ltac:(now rewrite Hp1)
                ltac:(now rewrite Hp1) ltac:(lia) ltac:(lia) H2)
      as (Hready2 & Hp2 & Hfor2 & Hfill2 & Hkeep2).
    rewrite Hp1 in Hp2, Hfor2, Hkeep2.
    split; [exact Hready2|]. split; [exact Hp2|]. split; [exact Hfor2|].
    split.
    + intros b Hb. destruct (Z.eq_dec b b0) as [->|Hne].
      * destruct Hfill as (name & plabel & cv_img & image' & label' & g'
                           & Him & Hread & Ht & Hsd & Hsl).
        destruct (Hkeep2 b0 ltac:(lia) ltac:(lia)) as [Hkd Hkl].
        exists name, plabel, cv_img, (_rng L), image', label', g'.
        split; [apply list_elem_of_In; eapply list_elem_of_lookup_2; exact Him|].
        split; [exact Hread|]. split; [exact Ht|].
        split; [now rewrite Hkd|now rewrite Hkl].
      * destruct (Hfill2 b ltac:(lia))
          as (name & plabel & cv_img & g & image' & label' & g'
              & Him & Hread & Ht & Hsd & Hsl).
        destruct (Hkeep b ltac:(lia) Hne) as [Hkd _].
        exists name, plabel, cv_img, g, image', label', g'.
        split; [now apply (Permutation_in _ (Permutation_sym Hperm1))|].
        split; [exact Hread|].
        rewrite Hp1, Hd1, Hkd in Ht.
        split; [exact Ht|]. rewrite Hp1 in Hsd. auto.
    + intros b Hb Hout.
      destruct (Hkeep b Hb ltac:(lia)) as [Hkd Hkl].
      destruct (Hkeep2 b Hb ltac:(lia)) as [Hkd2 Hkl2].
      split; [now rewrite Hkd2|now rewrite Hkl2].
Qed.

(** X16.  [load_batch] fills the slots of the batch one image each.  For
    a layer that is ready and a batch of [B] items, [B] not less than the
    batch size, every slot below the batch size holds afterwards the
    transformed pixels and the transformed labels of one of the images of
    the layer, a turn of the loop having changed no slot but its own; the
    slots from the batch size on and the sizes of the two blobs are as
    before. *)
Theorem X16_every_slot_gets_one_image L batch B L' batch' evs :
  let P := layer_param_ L in
  ready L -> 0 <= bbtxt_height P -> 0 <= bbtxt_width P ->
  batch_for P B batch -> 0 <= image_data_batch_size P <= B ->
  load_batch L batch = Ok (L', batch', evs) ->
  batch_for P B batch' /\
  (forall b, 0 <= b < image_data_batch_size P -> slot_filled L batch batch' b) /\
  (forall b, image_data_batch_size P <= b < B -> slot_kept P batch batch' b).
Proof.
  intros P Hready Hh Hw Hfor HB. unfold load_batch.
  destruct (check (negb (count (data_ batch) =? 0)) _); cbn [bind];
    [|discriminate].
  destruct (check (negb (count (transformed_data_ L) =? 0)) _); cbn [bind];
    [|discriminate].
  intros Hrun.
  apply (load_loop_slots _ L batch 0 B) in Hrun;
    [|assumption|assumption|assumption|assumption|lia|fold P; lia].
  destruct Hrun as (_ & _ & Hfor' & Hfill & Hkeep). fold P in Hfill, Hkeep.
  split; [exact Hfor'|]. split.
  - intros b Hb. apply Hfill. lia.
  - intros b Hb. apply Hkeep; lia.
Qed.

Lemma loadBBTXTFile_blobs source imgs w :
  _loadBBTXTFile source [] = Ok (imgs, w) ->
  Forall (fun im => bb_blob (snd im)) imgs.
Proof.
  unfold _loadBBTXTFile.
  destruct (ifstream source) as [lines|]; cbn [of_option bind]; [|discriminate].
  destruct (read_lines (Loader_start []) lines) as [st|] eqn:Hrun; cbn [bind];
    [|discriminate].
  intros [= <- _].
  now destruct (read_lines_wf _ _ _ wf_loader_start Hrun).
Qed.

Lemma DataLayerSetUp_ready P seed L :
  DataLayerSetUp P seed = Ok L -> ready L /\ layer_param_ L = P.
Proof.
  intros Hset.
  destruct (DataLayerSetUp_inv P seed L Hset)
    as (imgs & w & Hload & Hne & Hperm & _ & Hi & Hp).
  split; [|exact Hp]. split; [|split].
  - unfold cursor_ok. rewrite Hi, <- (Permutation_length Hperm).
    destruct imgs; [contradiction|]. cbn [length]. lia.
  - revert Hset. unfold DataLayerSetUp. rewrite Hload. cbn [bind].
    destruct (check _ _); cbn [bind]; [|discriminate].
    intros [= <-]. destruct (image_data_shuffle P).
    + unfold views_for, _shuffleImages. cbn [_images _rng].
      destruct (shuffle imgs (rng_seed seed)). cbn. split; reflexivity.
    + unfold views_for. cbn. split; reflexivity.
  - apply (Permutation_Forall Hperm).
    now apply (loadBBTXTFile_blobs _ _ _ Hload).
Qed.

Lemma Batch_new_for P : batch_for P (image_data_batch_size P) (Batch_new P).
Proof.
  unfold batch_for, Batch_new, Blob_new.
  cbn [data_ label_ shape data fold_right]. rewrite !length_replicate.
  unfold MAX_NUM_BBS_PER_IMAGE.
  repeat split; f_equal; ring.
Qed.

(** X17.  [DataLayerSetUp] makes a layer that is ready for [load_batch]:
    the cursor points at an image, the two blobs of the layer have the
    shapes [1, 3, height, width] and [1, 20, 5], every image has a label
    blob of 20 x 5 values, and the prefetch blobs hold one item for each
    slot of the batch.  [load_batch] returns a layer that is ready for the
    next batch, with the same parameters. *)
Theorem X17_the_layer_stays_ready :
  (forall P seed L,
     DataLayerSetUp P seed = Ok L ->
     ready L /\ layer_param_ L = P /\
     batch_for P (image_data_batch_size P) (Batch_new P)) /\
  (forall L batch B L' batch' evs,
     ready L ->
     0 <= bbtxt_height (layer_param_ L) -> 0 <= bbtxt_width (layer_param_ L) ->
     batch_for (layer_param_ L) B batch ->
     0 <= image_data_batch_size (layer_param_ L) <= B ->
     load_batch L batch = Ok (L', batch', evs) ->
     ready L' /\ layer_param_ L' = layer_param_ L).
Proof.
  split.
  - intros P seed L Hset.
    destruct (DataLayerSetUp_ready P seed L Hset) as [Hready Hp].
    split; [exact Hready|]. split; [exact Hp|apply Batch_new_for].
  - intros L batch B L' batch' evs Hready Hh Hw Hfor HB. unfold load_batch.
    destruct (check (negb (count (data_ batch) =? 0)) _); cbn [bind];
      [|discriminate].
    destruct (check (negb (count (transformed_data_ L) =? 0)) _); cbn [bind];
      [|discriminate].
    intros Hrun.
    apply (load_loop_slots _ L batch 0 B) in Hrun;
      [|assumption|assumption|assumption|assumption|lia|lia].
    destruct Hrun as (Hready' & Hp' & _). auto.
Qed.

End Batches.

(** ** What stops the loader and the batch *)

Section Stops.

Context `{E : Externals}.

Lemma store_bb_stof st data :
  ld_i st < MAX_NUM_BBS_PER_IMAGE -> ld_images st <> [] ->
  store_bb st data = Fatal StofException <->
  exists k, In k [1; 3; 4; 5; 6]%nat /\ stof (entry data k) = None.
Proof.
  intros Hi Hne. unfold store_bb.
  replace (ld_i st <? MAX_NUM_BBS_PER_IMAGE) with true
    by (symmetry; apply Z.ltb_lt; exact Hi).
  replace (0 <? Z.of_nat (length (ld_images st))) with true
    by (destruct (ld_images st); [contradiction|];
        symmetry; apply Z.ltb_lt; cbn [length]; lia).
  cbn [check bind]. unfold Dtype_stof.
  destruct (stof (entry data 1)) eqn:H1, (stof (entry data 3)) eqn:H3,
           (stof (entry data 4)) eqn:H4, (stof (entry data 5)) eqn:H5,
           (stof (entry data 6)) eqn:H6;
    cbn [of_option bind];
    first
      [ split; [discriminate|];
        intros (k & Hk & Hnone); cbn [In] in Hk;
        destruct Hk as [<-|[<-|[<-|[<-|[<-|[]]]]]]; congruence
      | split; [|reflexivity];
        intros _; eexists; (split; [|eassumption]); cbn [In]; auto 10 ].
Qed.

(** X18.  A field that [std::stof] cannot read stops the loader with the
    exception of [std::stof], which nothing catches, when it is the label
    or one of the four coordinates of a box that is stored: the line has
    seven entries, its image file exists if the line opens an image, and
    its image has fewer than 20 boxes so far.  The confidence and the
    fields of a box that is skipped are never read. *)
Theorem X18_fields_that_are_not_numbers :
  forall st line,
    process_line st line = Fatal StofException <->
    spaces line = 6%nat /\
    (ld_current_filename st = filename line ->
     ld_images st <> [] /\ ld_i st < MAX_NUM_BBS_PER_IMAGE) /\
    (ld_current_filename st <> filename line ->
     file_exists (filename line) = true) /\
    exists k, In k [1; 3; 4; 5; 6]%nat /\ stof (entry (split line) k) = None.
Proof.
  intros st line. unfold process_line, filename. rewrite split_length.
  destruct (Nat.eqb_spec (S (spaces line)) 7) as [Hlen|Hlen]; cbn [check bind].
  2: { split; [discriminate|]. intros (Hsp & _). lia. }
  assert (Hsp : spaces line = 6%nat) by lia.
  unfold new_image.
  destruct (String.eqb_spec (ld_current_filename st) (entry (split line) 0))
    as [Hname|Hname]; cbn [bind].
  - destruct (Z_lt_le_dec (ld_i st) MAX_NUM_BBS_PER_IMAGE) as [Hi|Hi].
    + destruct (classic_images st) as [Hnil|Hne].
      * split.
        -- unfold store_bb. rewrite Hnil.
           replace (ld_i st <? MAX_NUM_BBS_PER_IMAGE) with true
             by (symmetry; apply Z.ltb_lt; exact Hi).
           cbn. discriminate.
        -- intros (_ & Hsame & _). destruct (Hsame Hname) as [Hne _].
           contradiction.
      * rewrite (store_bb_stof st _ Hi Hne). split.
        -- intros Hk. split; [exact Hsp|]. split; [auto|].
           split; [intros; contradiction|exact Hk].
        -- intros (_ & _ & _ & Hk). exact Hk.
    + split.
      * unfold store_bb.
        replace (ld_i st <? MAX_NUM_BBS_PER_IMAGE) with false
          by (symmetry; apply Z.ltb_ge; exact Hi).
        discriminate.
      * intros (_ & Hsame & _). destruct (Hsame Hname). lia.
  - destruct (file_exists (entry (split line) 0)) eqn:Hex; cbn [check bind].
    + rewrite store_bb_stof.
      * split.
        -- intros Hk. split; [exact Hsp|].
           split; [intros; contradiction|]. split; [auto|exact Hk].
        -- intros (_ & _ & _ & Hk). exact Hk.
      * cbn [ld_i]. unfold MAX_NUM_BBS_PER_IMAGE. lia.
      * cbn [ld_images]. intros Heq. apply app_eq_nil in Heq.
        destruct Heq as [_ Heq]. discriminate.
    + split; [discriminate|]. intros (_ & _ & Hfile & _).
      discriminate (Hfile Hname).
Qed.

(** X19.  [DataLayerSetUp] stops with "BBTXT file ... could not be
    opened!" exactly when the source cannot be opened, and what stops it
    once its parameters are present is one of six things: the source that cannot be opened, a line that
    has not seven entries, an image file that does not exist, a field that
    is not a number, the box of a first line without a name, or a file
    without a line. *)
Theorem X19_what_stops_the_set_up :
  forall P seed,
    (DataLayerSetUp P seed = Fatal SourceNotOpened <->
     ifstream (image_data_source P) = None) /\
    (forall e,
       DataLayerSetUp P seed = Fatal e ->
       e = SourceNotOpened \/ e = LineCorrupted \/ e = FileNotFound \/
       e = StofException \/ e = UndefinedBehaviour \/ e = EmptyBBTXT).
Proof.
  intros P seed. unfold DataLayerSetUp, _loadBBTXTFile.
  destruct (ifstream (image_data_source P)) as [lines|];
    cbn [of_option bind].
  - destruct (read_lines (Loader_start []) lines) as [st|e1] eqn:Hrun;
      cbn [bind].
    + destruct (0 <? Z.of_nat (length (ld_images st))); cbn [check bind].
      * split; [split; discriminate|discriminate].
      * split; [split; discriminate|]. intros e [= <-]. auto 10.
    + apply read_lines_fatal in Hrun. split.
      * split; [|discriminate]. intros [= ->].
        destruct Hrun as [H|[H|[H|[H _]]]]; discriminate.
      * intros e [= <-]. destruct Hrun as [H|[H|[H|[H _]]]]; auto 10.
  - split; [split; reflexivity|]. intros e [= <-]. auto.
Qed.

Lemma transformImage_stops P cv_img ti tl g e :
  _transformImage P cv_img ti tl g = Fatal e ->
  e = NotThreeChannels \/ e = OpenCVAssertion \/ e = BoostAssertion \/
  e = UndefinedBehaviour \/ e = WrongCropHeight \/ e = WrongCropWidth.
Proof.
  unfold _transformImage.
  destruct (channels cv_img =? 3); cbn [check bind];
    [|intros [= <-]; now auto].
  destruct (crop_and_resize P cv_img tl g) as [[[m l] g1]|e1] eqn:Hc;
    cbn [bind].
  - destruct (rows m =? axis ti 2); cbn [check bind];
      [|intros [= <-]; now auto 10].
    destruct (cols m =? axis ti 3); cbn [check bind];
      [discriminate|intros [= <-]; now auto 10].
  - intros [= <-]. apply crop_and_resize_fatal in Hc.
    destruct Hc as [H|[H|H]]; auto 10.
Qed.

Lemma load_one_stops L batch b e :
  load_one L batch b = Fatal e ->
  e <> EmptyBlob /\
  (e = CouldNotOpenImage ->
   exists name plabel,
     In (name, plabel) (_images L) /\ imread name = None).
Proof.
  unfold load_one.
  destruct (0 <=? _i_global L); cbn [check bind];
    [|intros [= <-]; split; discriminate].
  destruct (_images L !! Z.to_nat (_i_global L)) as [[name plabel]|] eqn:Him;
    cbn [of_option bind fst snd]; [|intros [= <-]; split; discriminate].
  destruct (imread name) as [cv_img|] eqn:Hread; cbn [of_option bind].
  - destruct (_transformImage _ _ _ _ _) as [[[image' label'] g']|e1] eqn:Ht;
      cbn [bind].
    + destruct (advance (with_rng L g')). discriminate.
    + intros [= <-]. apply transformImage_stops in Ht.
      destruct Ht as [H|[H|[H|[H|[H|H]]]]]; rewrite H; split; discriminate.
  - intros [= <-]. split; [discriminate|]. intros _.
    exists name, plabel. split; [|exact Hread].
    apply list_elem_of_In. eapply list_elem_of_lookup_2. exact Him.
Qed.

Lemma load_loop_stops fuel :
  forall L batch b e,
    cursor_ok L ->
    load_loop L batch b fuel = Fatal e ->
    e <> EmptyBlob /\
    (e = CouldNotOpenImage ->
     exists name plabel,
       In (name, plabel) (_images L) /\ imread name = None).
Proof.
  induction fuel as [|fuel IH]; intros L batch b e Hok; cbn [load_loop];
    [discriminate|].
  destruct (load_one L batch b) as [[[L1 batch1] evs1]|e1] eqn:H1; cbn [bind].
  - destruct (load_loop L1 batch1 (b + 1) fuel) as [[[L2 batch2] evs2]|e2] eqn:H2;
      cbn [bind]; [discriminate|].
    intros [= <-].
    destruct (load_one_spec _ _ _ _ _ _ Hok H1) as (_ & Hperm & Hi & _).
    pose proof (Permutation_length Hperm) as Hlen.
    assert (Hok1 : cursor_ok L1).
    { unfold cursor_ok in *. rewrite Hi, <- Hlen.
      destruct (Z.eqb_spec (_i_global L + 1) (Z.of_nat (length (_images L))));
        lia. }
    destruct (IH L1 batch1 (b + 1) e2 Hok1 H2) as [Hne Hdark].
    split; [exact Hne|]. intros He.
    destruct (Hdark He) as (name & plabel & Hin & Hread).
    exists name, plabel. split; [|exact Hread].
    now apply (Permutation_in _ (Permutation_sym Hperm)).
  - intros [= <-]. now apply (load_one_stops L batch b).
Qed.

(** X20.  An image that [cv::imread] cannot read stops the batch with
    "Could not open": the batch stops at once when it is the image under
    the cursor, and a batch that stops for this reason has met an image
    of the layer that cannot be read. *)
Theorem X20_an_image_that_cannot_be_read :
  (forall L batch name plabel,
     count (data_ batch) <> 0 -> count (transformed_data_ L) <> 0 ->
     0 < image_data_batch_size (layer_param_ L) ->
     0 <= _i_global L ->
     _images L !! Z.to_nat (_i_global L) = Some (name, plabel) ->
     imread name = None ->
     load_batch L batch = Fatal CouldNotOpenImage) /\
  (forall L batch,
     cursor_ok L ->
     load_batch L batch = Fatal CouldNotOpenImage ->
     exists name plabel,
       In (name, plabel) (_images L) /\ imread name = None).
Proof.
  split.
  - intros L batch name plabel Hcb Hcl Hbs Hi Him Hread. unfold load_batch.
    replace (count (data_ batch) =? 0) with false
      by (symmetry; now apply Z.eqb_neq).
    replace (count (transformed_data_ L) =? 0) with false
      by (symmetry; now apply Z.eqb_neq).
    cbn [negb check bind].
    destruct (Z.to_nat (image_data_batch_size (layer_param_ L)))
      as [|fuel] eqn:Hfuel; [lia|].
    cbn [load_loop]. unfold load_one.
    replace (0 <=? _i_global L) with true by (symmetry; now apply Z.leb_le).
    cbn [check bind]. rewrite Him. cbn [of_option bind fst].
    rewrite Hread. reflexivity.
  - intros L batch Hok. unfold load_batch.
    destruct (negb (count (data_ batch) =? 0)); cbn [check bind];
      [|discriminate].
    destruct (negb (count (transformed_data_ L) =? 0)); cbn [check bind];
      [|discriminate].
    intros Hrun. now apply (load_loop_stops _ _ _ _ _ Hok Hrun).
Qed.

(** X21.  For a batch size, a height and a width that are not negative,
    the first batch of a layer that [DataLayerSetUp] has made stops at one
    of the two checks for an empty blob exactly when one of the three
    is 0. *)
Theorem X21_an_input_without_extent P seed L :
  0 <= image_data_batch_size P -> 0 <= bbtxt_height P -> 0 <= bbtxt_width P ->
  DataLayerSetUp P seed = Ok L ->
  load_batch L (Batch_new P) = Fatal EmptyBlob <->
  image_data_batch_size P = 0 \/ bbtxt_height P = 0 \/ bbtxt_width P = 0.
Proof.
  intros HB HH HW Hset.
  destruct (DataLayerSetUp_ready P seed L Hset) as [(Hok & (Htd & _) & _) Hp].
  rewrite Hp in Htd.
  assert (Hcb : count (data_ (Batch_new P))
                = image_data_batch_size P * (3 * (bbtxt_height P * bbtxt_width P))).
  { unfold count, Batch_new, Blob_new. cbn [data_ shape fold_right]. ring. }
  assert (Hcl : count (transformed_data_ L)
                = 3 * (bbtxt_height P * bbtxt_width P)).
  { unfold count. rewrite Htd. cbn [fold_right]. ring. }
  unfold load_batch. rewrite Hcb, Hcl.
  destruct (Z.eqb_spec (image_data_batch_size P
                        * (3 * (bbtxt_height P * bbtxt_width P))) 0)
    as [Hz|Hnz]; cbn [negb check bind].
  - split; [intros _|reflexivity]. nia.
  - destruct (Z.eqb_spec (3 * (bbtxt_height P * bbtxt_width P)) 0)
      as [Hz'|Hnz']; cbn [negb check bind].
    + split; [intros _|reflexivity]. nia.
    + split.
      * intros Hrun. exfalso.
        destruct (load_loop_stops _ _ _ _ _ Hok Hrun) as [Hne _].
        now apply Hne.
      * intros Hzero. exfalso. apply Hnz. nia.
Qed.

End Stops.

(** ** The further properties on the inputs *)

Lemma uniform_in_range : @uniform_int_in_range Run.W0.
Proof.
  intros a b g Hab. cbn [uniform_int Run.W0 World.world World.uniform fst].
  pose proof (Z.mod_pos_bound (World.lcg g) (b - a + 1)). lia.
Qed.

Lemma X4_one_image_for_each_run_witness :
  exists imgs w,
    _loadBBTXTFile (E := Run.W0) "spec.bbtxt" [] = Ok (imgs, w) /\
    map fst imgs = ["img1.jpg"; "img2.jpg"]%string.
Proof.
  assert (Hrun : exists r, _loadBBTXTFile (E := Run.W0) "spec.bbtxt" [] = Ok r)
    by (eexists; vm_compute; reflexivity).
  destruct Hrun as [[imgs w] Hrun].
  destruct (X4_one_image_for_each_run (E := Run.W0) "spec.bbtxt"
              (More.pre ++ [More.line]) imgs w eq_refl Hrun) as [Hnames _].
  exists imgs, w. split; [exact Hrun|]. rewrite Hnames. reflexivity.
Defined.

Lemma X6_closed_images_keep_their_end_witness :
  ld_images More.st1 !! 0%nat
  = Some ("img1.jpg"%string, finalize (E := Run.W0) 2 More.b) /\
  numBBs (E := Run.W0) (label_view (finalize (E := Run.W0) 2 More.b)) <= 2.
Proof.
  destruct (X6_closed_images_keep_their_end (E := Run.W0)
              More.pre More.line [] More.st More.st1 More.st1
              [] "img1.jpg" More.b)
    as (Hlook & Hsent & _).
  - vm_compute. reflexivity.
  - reflexivity.
  - intros Heq. vm_compute in Heq. discriminate.
  - vm_compute. reflexivity.
  - reflexivity.
  - split; [exact Hlook|].
    destruct (Hsent eq_refl) as (_ & _ & Hn). apply Hn. left. reflexivity.
Defined.

Lemma X7_numBBs_is_the_first_sentinel_witness :
  Float.eqb (read (data Run.two_boxes) (offset2 Run.two_boxes 0 1) 0)
            (minus_one (E := Run.W0)) = false /\
  Float.eqb (read (data Run.two_boxes) (offset2 Run.two_boxes 0 2) 0)
            (minus_one (E := Run.W0)) = true.
Proof.
  assert (Hax : 0 <= axis Run.two_boxes 1) by (vm_compute; discriminate).
  destruct (X7_numBBs_is_the_first_sentinel (E := Run.W0) Run.two_boxes 2 Hax)
    as [Hfwd _].
  destruct Hfwd as (_ & Hreal & Hsent); [vm_compute; reflexivity|].
  split; [apply Hreal; lia|apply Hsent; reflexivity].
Defined.

Lemma X8_remapping_keeps_the_boxes_witness :
  numBBs (E := Run.W0)
    (remap_labels (E := Run.W0) Run.P2 Run.two_boxes More.window) = 2.
Proof.
  destruct (X8_remapping_keeps_the_boxes (E := Run.W0) Run.P2 Run.two_boxes
              More.window) as [Hn _];
    [split; vm_compute; reflexivity|].
  rewrite Hn. vm_compute. reflexivity.
Defined.


Lemma X10_window_inside_the_image_witness :
  exists m,
    pad_and_crop World.picture More.inside = Ok m /\
    ptr m 1 7 = ptr World.picture 21 37.
Proof.
  destruct (X10_window_inside_the_image World.picture More.inside)
    as (_ & _ & _ & _ & m & Hm & _ & _ & Hpix);
    try (vm_compute; discriminate); [reflexivity|].
  exists m. split; [exact Hm|].
  apply (Hpix 1 2 1); cbn; lia.
Defined.

Lemma X11_normalisation_stays_in_the_image_witness :
  length (normalize_image (E := Run.W0) Run.P2 World.picture More.buffer)
  = 14%nat /\
  normalize_image (E := Run.W0) Run.P2 World.picture More.buffer !! 12%nat
  = Some (S754_infinity false).
Proof.
  destruct (X11_normalisation_stays_in_the_image (E := Run.W0) Run.P2
              World.picture More.buffer 12) as [Hlen Hp];
    [vm_compute; lia|].
  rewrite Hlen, Hp. split; reflexivity.
Defined.

Lemma X12_the_draws_stay_in_their_bounds_witness :
  0 <= 0 < numBBs (E := Run.W0) Run.two_boxes /\
  exists xlo xhi ylo yhi,
    xlo <= -5 <= xhi /\ ylo <= 9 <= yhi /\ xhi = 10 /\ yhi = 10.
Proof.
  assert (Hax : 0 <= axis Run.two_boxes 1) by (vm_compute; discriminate).
  assert (Hsel : select_crop (E := Run.W0) Run.P2 Run.two_boxes 7
                 = Ok (0, More.window, 712265938))
    by (vm_compute; reflexivity).
  destruct (X12_the_draws_stay_in_their_bounds (E := Run.W0) Run.P2
              Run.two_boxes 7 0 More.window 712265938
              uniform_in_range Hax Hsel)
    as (Hbb & _ & xlo & xhi & ylo & yhi & _ & Hxhi & _ & Hyhi & Hx & Hy).
  split; [exact Hbb|]. exists xlo, xhi, ylo, yhi.
  split; [exact Hx|]. split; [exact Hy|].
  vm_compute in Hxhi, Hyhi. injection Hxhi as <-. injection Hyhi as <-.
  split; reflexivity.
Defined.

Lemma X13_the_crop_checks_never_fail_witness :
  sized (E := Run.W0) Run.layer_spec /\ batch_error OpenCVAssertion.
Proof.
  destruct (X13_the_crop_checks_never_fail (E := Run.W0))
    as (Hset & _ & Hstop).
  assert (Hs : sized (E := Run.W0) Run.layer_spec)
    by (apply (Hset Run.P2_spec 42); vm_compute; reflexivity).
  split; [exact Hs|].
  apply (Hstop Run.layer_spec (Batch_new (E := Run.W0) Run.P2_spec)
           OpenCVAssertion Hs).
  vm_compute. reflexivity.
Defined.

Lemma X14_an_image_without_boxes_witness :
  exists ti',
    _transformImage (E := Run.W0) Run.P2 World.picture
      (Blob_new (E := Run.W0) [1; 3; 2; 2]) Run.no_boxes 7
    = Ok (ti', Run.no_boxes, 7).
Proof.
  destruct (X14_an_image_without_boxes (E := Run.W0) Run.P2 World.picture
              (Blob_new (E := Run.W0) [1; 3; 2; 2]) Run.no_boxes 7)
    as [Hsame [_ Hruns]]; [vm_compute; reflexivity|].
  destruct Hruns as [[[ti' tl'] g'] Hrun];
    [repeat split; reflexivity|].
  destruct (Hsame ti' tl' g' Hrun) as (-> & -> & _).
  exists ti'. exact Hrun.
Defined.


Lemma X16_every_slot_gets_one_image_witness :
  exists L' batch' evs,
    load_batch (E := Run.W0) Run.layer (Batch_new (E := Run.W0) Run.P2)
    = Ok (L', batch', evs) /\
    batch_for Run.P2 3 batch' /\
    slot_filled (E := Run.W0) Run.layer (Batch_new (E := Run.W0) Run.P2)
                batch' 2.
Proof.
  assert (Hset : DataLayerSetUp (E := Run.W0) Run.P2 42 = Ok Run.layer)
    by (vm_compute; reflexivity).
  destruct (DataLayerSetUp_ready (E := Run.W0) _ _ _ Hset) as [Hready _].
  assert (Hrun : exists r,
             load_batch (E := Run.W0) Run.layer
                        (Batch_new (E := Run.W0) Run.P2) = Ok r)
    by (eexists; vm_compute; reflexivity).
  destruct Hrun as [[[L' batch'] evs] Hrun].
  destruct (X16_every_slot_gets_one_image (E := Run.W0) Run.layer
              (Batch_new (E := Run.W0) Run.P2) 3 L' batch' evs Hready)
    as (Hfor & Hfill & _);
    [cbn; lia|cbn; lia|apply (Batch_new_for (E := Run.W0) Run.P2)
    |cbn; lia|exact Hrun|].
  exists L', batch', evs. split; [exact Hrun|]. split; [exact Hfor|].
  apply Hfill. cbn. lia.
Defined.

Lemma X17_the_layer_stays_ready_witness :
  ready (E := Run.W0) Run.layer /\
  exists L' batch' evs,
    load_batch (E := Run.W0) Run.layer (Batch_new (E := Run.W0) Run.P2)
    = Ok (L', batch', evs) /\
    ready (E := Run.W0) L'.
Proof.
  destruct (X17_the_layer_stays_ready (E := Run.W0)) as [Hset Hbatch].
  destruct (Hset Run.P2 42 Run.layer) as (Hready & _ & Hfor);
    [vm_compute; reflexivity|].
  split; [exact Hready|].
  assert (Hrun : exists r,
             load_batch (E := Run.W0) Run.layer
                        (Batch_new (E := Run.W0) Run.P2) = Ok r)
    by (eexists; vm_compute; reflexivity).
  destruct Hrun as [[[L' batch'] evs] Hrun].
  exists L', batch', evs. split; [exact Hrun|].
  apply (Hbatch Run.layer (Batch_new (E := Run.W0) Run.P2) 3 L' batch' evs
           Hready); [cbn; lia|cbn; lia|exact Hfor|cbn; lia|exact Hrun].
Defined.

Lemma X20_an_image_that_cannot_be_read_witness :
  load_batch (E := More.dark) Run.layer (Batch_new (E := More.dark) Run.P2)
  = Fatal CouldNotOpenImage.
Proof.
  destruct (X20_an_image_that_cannot_be_read (E := More.dark)) as [Hstop _].
  assert (Him : exists name plabel,
             _images Run.layer !! 0%nat = Some (name, plabel))
    by (do 2 eexists; vm_compute; reflexivity).
  destruct Him as (name & plabel & Him).
  apply (Hstop Run.layer _ name plabel).
  - vm_compute. discriminate.
  - vm_compute. discriminate.
  - reflexivity.
  - vm_compute. discriminate.
  - exact Him.
  - reflexivity.
Defined.

Lemma X19_what_stops_the_set_up_witness :
  DataLayerSetUp (E := Run.W0) More.P_nowhere 42 = Fatal SourceNotOpened.
Proof.
  destruct (X19_what_stops_the_set_up (E := Run.W0) More.P_nowhere 42)
    as [[_ Hclosed] _].
  apply Hclosed. vm_compute. reflexivity.
Defined.

Lemma X21_an_input_without_extent_witness :
  load_batch (E := Run.W0) More.flat (Batch_new (E := Run.W0) More.P0)
  = Fatal EmptyBlob.
Proof.
  assert (Hset : DataLayerSetUp (E := Run.W0) More.P0 42 = Ok More.flat)
    by (vm_compute; reflexivity).
  destruct (X21_an_input_without_extent (E := Run.W0) More.P0 42 More.flat)
    as [_ Hstop]; [cbn; lia|cbn; lia|cbn; lia|exact Hset|].
  apply Hstop. right. left. reflexivity.
Defined.
